(** * Time tracker: resilient data access and work-session reconciliation

    A shallow embedding of the data-access layer of [server.js]
    (class [GoogleSheetsService], class [APIMonitor] and the helper
    [calculateWorkingHours]) together with the properties the
    specification states about it.

    Conventions of the embedding.
    - Instants are [Z], milliseconds since the epoch ([Date.now()],
      [moment#valueOf]).
    - A JavaScript string is a [string]; the whitespace class [\s] and
      [toLowerCase] are the ASCII ones (Thai text has no letter case).
    - A value read from a sheet cell is an [option string]: [None] is
      [undefined]; [None] and the empty string are the falsy values.
    - A function that may throw returns a [result]; code that mutates the
      service, the limiter or the remote sheets is written in the monad
      [M], which threads the [World] and keeps every effect performed
      before a throw.
    - What the remote spreadsheet, the network and the clock answer during
      one operation is an [Env]; what the date libraries ([moment],
      [Date]) compute is a [TimeLib]. *)

From Stdlib Require Import ZArith QArith String Ascii List Bool Lia DecimalString
  DecimalPos.
From stdpp Require Import base gmap strings list.

Local Open Scope string_scope.
Local Open Scope Z_scope.

(** ** JavaScript values *)

Module Js.

(** [\s], restricted to ASCII: space, TAB, LF, VT, FF, CR. *)
Definition isSpace (c : ascii) : bool :=
  let n := nat_of_ascii c in
  Nat.eqb n 32 || (Nat.leb 9 n && Nat.leb n 13).

Fixpoint trimStart (s : string) : string :=
  match s with
  | EmptyString => EmptyString
  | String c s' => if isSpace c then trimStart s' else s
  end.

Fixpoint trimEnd (s : string) : string :=
  match s with
  | EmptyString => EmptyString
  | String c s' =>
      let r := trimEnd s' in
      if isSpace c && String.eqb r EmptyString then EmptyString else String c r
  end.

(** [s.trim()] *)
Definition trim (s : string) : string := trimEnd (trimStart s).

(** [s.replace(/\s+/g, rep)]; [inRun] tells that the previous character
    belonged to the run of whitespace being replaced. *)
Fixpoint replaceSpaces (rep : string) (inRun : bool) (s : string) : string :=
  match s with
  | EmptyString => EmptyString
  | String c s' =>
      if isSpace c
      then (if inRun then replaceSpaces rep true s'
            else rep ++ replaceSpaces rep true s')
      else String c (replaceSpaces rep false s')
  end.

Definition lowerChar (c : ascii) : ascii :=
  let n := nat_of_ascii c in
  if Nat.leb 65 n && Nat.leb n 90 then ascii_of_nat (n + 32) else c.

(** [s.toLowerCase()] *)
Fixpoint toLowerCase (s : string) : string :=
  match s with
  | EmptyString => EmptyString
  | String c s' => String (lowerChar c) (toLowerCase s')
  end.

(** [s.includes(sub)] *)
Fixpoint includes (s sub : string) : bool :=
  String.prefix sub s ||
  match s with
  | EmptyString => false
  | String _ s' => includes s' sub
  end.

(** Truthiness of a cell value or of an optional string argument. *)
Definition truthy (v : option string) : bool :=
  match v with
  | Some s => negb (String.eqb s EmptyString)
  | None => false
  end.

(** The string a value stands for once it is known to be truthy. *)
Definition str (v : option string) : string := default EmptyString v.

(** [a || b] on cell values. *)
Definition or_else (a b : option string) : option string :=
  if truthy a then a else b.

Definition isDigit (c : ascii) : bool :=
  let n := nat_of_ascii c in Nat.leb 48 n && Nat.leb n 57.

Definition digitVal (c : ascii) : Z := Z.of_nat (nat_of_ascii c) - 48.

(** The longest prefix of decimal digits, as a number, with the rest. *)
Fixpoint digits (acc : Z) (seen : bool) (s : string) : option Z :=
  match s with
  | String c s' =>
      if isDigit c then digits (10 * acc + digitVal c) true s'
      else if seen then Some acc else None
  | EmptyString => if seen then Some acc else None
  end.

Definition hexVal (c : ascii) : option Z :=
  let n := nat_of_ascii c in
  if isDigit c then Some (Z.of_nat n - 48)
  else if Nat.leb 97 n && Nat.leb n 102 then Some (Z.of_nat n - 87)
  else if Nat.leb 65 n && Nat.leb n 70 then Some (Z.of_nat n - 55)
  else None.

(** The longest prefix of hexadecimal digits, as a number. *)
Fixpoint hexDigits (acc : Z) (seen : bool) (s : string) : option Z :=
  match s with
  | String c s' =>
      match hexVal c with
      | Some v => hexDigits (16 * acc + v) true s'
      | None => if seen then Some acc else None
      end
  | EmptyString => if seen then Some acc else None
  end.

(** The digits of [parseInt] behind the sign: hexadecimal after [0x] or
    [0X], decimal otherwise. *)
Definition unsignedInt (s : string) : option Z :=
  match s with
  | String "0" (String "x" s') => hexDigits 0 false s'
  | String "0" (String "X" s') => hexDigits 0 false s'
  | _ => digits 0 false s
  end.

(** [parseInt(s)]: leading whitespace, an optional sign, then the longest
    run of digits; [None] is [NaN].  The number is kept exact, where
    JavaScript rounds it to a double beyond 2^53. *)
Definition parseInt (s : string) : option Z :=
  match trimStart s with
  | String "-" s' => Z.opp <$> unsignedInt s'
  | String "+" s' => unsignedInt s'
  | s' => unsignedInt s'
  end.

(** Decimal rendering of an integer. *)
Definition ofZ (z : Z) : string := NilZero.string_of_int (Z.to_int z).

(** Two decimal places of a non-negative integer below 100. *)
Definition pad2 (z : Z) : string :=
  if z <? 10 then "0" ++ ofZ z else ofZ z.

(** [x.toFixed(2)]: the closest multiple of 1/100 of the absolute value,
    ties upward, behind the sign of a negative [x]. *)
Definition toFixed2 (x : Q) : string :=
  let a := Z.abs (Qnum x) in
  let d := Zpos (Qden x) in
  let n := (200 * a + d) / (2 * d) in
  let body := ofZ (n / 100) ++ "." ++ pad2 (n mod 100) in
  if Qnum x <? 0 then "-" ++ body else body.

End Js.

(** ** Outcomes of code that may throw *)

Inductive result (A : Type) : Type :=
| Ok (a : A)
| Throw (message : string).
Arguments Ok {A} a.
Arguments Throw {A} message.

(** ** Date and time library

    [moment-timezone] and [Date] are dependencies of the program, not part
    of it: the embedding takes what they compute as an interface. *)

Class TimeLib := {
  (** [moment.tz(s, 'YYYY-MM-DD H:mm:ss', CONFIG.TIMEZONE)]: the instant
      when [isValid()], [None] otherwise. *)
  moment_tz : string -> option Z;
  (** [moment(s).tz(CONFIG.TIMEZONE)], same convention. *)
  moment_loose : string -> option Z;
  (** [m.format('YYYY-MM-DD')] *)
  format_date : Z -> string;
  (** [m.format('DD/MM/YYYY HH:mm:ss')] *)
  format_stamp : Z -> string;
  (** [m.format('HH:mm:ss')] *)
  format_hms : Z -> string;
  (** [m.clone().set({hour, minute, second, millisecond})] *)
  set_time : Z -> Z -> Z -> Z -> Z -> Z;
  (** [new Date(s).getTime()]; [None] is the invalid date ([NaN]). *)
  Date_parse : string -> option Z
}.

(** What [format] prints for an invalid moment. *)
Definition invalid_date : string := "Invalid date".

Definition format_date_opt `{TimeLib} (m : option Z) : string :=
  match m with Some t => format_date t | None => invalid_date end.

(** ** Helper functions of [server.js] *)

(** [calculateWorkingHours(clockInTime, clockOutTime = null)]; [now] is
    [moment()] for the call.  The quotient [diff(.., 'hours', true)] is
    kept exact. *)
Definition calculateWorkingHours `{TimeLib} (now : Z)
    (clockInTime clockOutTime : option string) : Q :=
  if negb (Js.truthy clockInTime) then 0%Q
  else
    let clockInMoment := moment_tz (Js.str clockInTime) in
    let endTimeMoment :=
      if Js.truthy clockOutTime then moment_tz (Js.str clockOutTime)
      else Some now in
    match clockInMoment with
    | None => 0%Q
    | Some cin =>
        match endTimeMoment with
        | None => 0%Q
        | Some cout =>
            let hours := (inject_Z (cout - cin) / inject_Z 3600000)%Q in
            if Qle_bool 0 hours then hours else 0%Q
        end
    end.

(** The live duration of [getAdminStats]: [calculateWorkingHours(clockInTime)],
    measured up to the current instant. *)
Definition liveWorkingHours `{TimeLib} (now : Z) (clockInTime : option string) : Q :=
  calculateWorkingHours now clockInTime None.

(** ** A concrete time library

    The civil calendar at the fixed offset of [Asia/Bangkok] (UTC+7, no
    daylight saving), on which the examples run.  It reads timestamps
    written exactly as [YYYY-MM-DD H:mm:ss] and reports every other string
    invalid, the [DD/MM/YYYY HH:mm:ss] that the program prints included:
    it is stricter than [moment], whose lenient reading of such strings is
    [Moment.tz] below.  No example run on it states a number of hours
    computed from a string it refuses. *)

Module Bangkok.

Definition offset : Z := 7 * 3600000.
Definition msPerDay : Z := 86400000.

Definition days_from_civil (y m d : Z) : Z :=
  let y := if m <=? 2 then y - 1 else y in
  let era := y / 400 in
  let yoe := y - era * 400 in
  let mp := if 2 <? m then m - 3 else m + 9 in
  let doy := (153 * mp + 2) / 5 + d - 1 in
  let doe := yoe * 365 + yoe / 4 - yoe / 100 + doy in
  era * 146097 + doe - 719468.

Definition civil_from_days (z : Z) : Z * Z * Z :=
  let z := z + 719468 in
  let era := z / 146097 in
  let doe := z - era * 146097 in
  let yoe := (doe - doe / 1460 + doe / 36524 - doe / 146096) / 365 in
  let doy := doe - (365 * yoe + yoe / 4 - yoe / 100) in
  let mp := (5 * doy + 2) / 153 in
  let d := doy - (153 * mp + 2) / 5 + 1 in
  let m := if mp <? 10 then mp + 3 else mp - 9 in
  let y := yoe + era * 400 in
  (if m <=? 2 then y + 1 else y, m, d).

(** Exactly [n] decimal digits at the head of [s]. *)
Fixpoint take_digits (n : nat) (acc : Z) (s : string) : option (Z * string) :=
  match n with
  | O => Some (acc, s)
  | S n' =>
      match s with
      | String c s' =>
          if Js.isDigit c then take_digits n' (10 * acc + Js.digitVal c) s'
          else None
      | EmptyString => None
      end
  end.

Definition expect (c : ascii) (s : string) : option string :=
  match s with
  | String c' s' => if Ascii.eqb c c' then Some s' else None
  | EmptyString => None
  end.

(** One or two digits (the token [H]). *)
Definition take_hour (s : string) : option (Z * string) :=
  match take_digits 2 0 s with
  | Some r => Some r
  | None => take_digits 1 0 s
  end.

Definition valid_fields (y m d h mi s : Z) : bool :=
  (1 <=? m) && (m <=? 12) && (1 <=? d) &&
  (d <=? days_from_civil (if m =? 12 then y + 1 else y)
                         (if m =? 12 then 1 else m + 1) 1
         - days_from_civil y m 1) &&
  (h <=? 23) && (mi <=? 59) && (s <=? 59).

Definition parse (s : string) : option Z :=
  '(y, s) ← take_digits 4 0 s;
  s ← expect "-" s;
  '(m, s) ← take_digits 2 0 s;
  s ← expect "-" s;
  '(d, s) ← take_digits 2 0 s;
  s ← expect " " s;
  '(h, s) ← take_hour s;
  s ← expect ":" s;
  '(mi, s) ← take_digits 2 0 s;
  s ← expect ":" s;
  '(sec, s) ← take_digits 2 0 s;
  if String.eqb s EmptyString && valid_fields y m d h mi sec
  then Some (days_from_civil y m d * msPerDay
             + h * 3600000 + mi * 60000 + sec * 1000 - offset)
  else None.

Definition local_day (t : Z) : Z := (t + offset) / msPerDay.
Definition local_ms (t : Z) : Z := (t + offset) mod msPerDay.

Definition pad4 (z : Z) : string :=
  (if z <? 1000 then "0" else "") ++ (if z <? 100 then "0" else "")
  ++ (if z <? 10 then "0" else "") ++ Js.ofZ z.

Definition hms (t : Z) : string :=
  let ms := local_ms t in
  Js.pad2 (ms / 3600000) ++ ":" ++ Js.pad2 (ms / 60000 mod 60)
  ++ ":" ++ Js.pad2 (ms / 1000 mod 60).

Definition ymd (t : Z) : string :=
  let '(y, m, d) := civil_from_days (local_day t) in
  pad4 y ++ "-" ++ Js.pad2 m ++ "-" ++ Js.pad2 d.

Definition dmy (t : Z) : string :=
  let '(y, m, d) := civil_from_days (local_day t) in
  Js.pad2 d ++ "/" ++ Js.pad2 m ++ "/" ++ pad4 y.

Definition at_time (t h mi s ms : Z) : Z :=
  local_day t * msPerDay - offset + h * 3600000 + mi * 60000 + s * 1000 + ms.

#[export] Instance time : TimeLib := {|
  moment_tz := parse;
  moment_loose := parse;
  format_date := ymd;
  format_stamp := fun t => dmy t ++ " " ++ hms t;
  format_hms := hms;
  set_time := at_time;
  Date_parse := parse
|}.

End Bangkok.

(** ** [moment]'s reading of ['YYYY-MM-DD H:mm:ss']

    Without the strict flag, [moment(s, format)] walks the tokens of the
    format.  At each token it searches what is left of the string for the
    first match of the token's pattern ([\d{1,4}] for [YYYY], [\d\d?] for
    the other fields, the character itself for a separator), drops what
    precedes the match and goes on behind it; a token that matches
    nowhere is passed over.  A year read from two digits is completed by
    [parseTwoDigitYear].  The fields that were not read default to
    January, the first of the month and midnight.  The moment is invalid
    when no field was read or when a field is out of range. *)

Module Moment.

Inductive Token := tokYYYY | tokMM | tokDD | tokH | tokmm | tokss | tokChar (c : ascii).

(** ['YYYY-MM-DD H:mm:ss'] *)
Definition stampFormat : list Token :=
  [tokYYYY; tokChar "-"; tokMM; tokChar "-"; tokDD; tokChar " ";
   tokH; tokChar ":"; tokmm; tokChar ":"; tokss].

(** The array of fields, [undefined] where nothing was read. *)
Record Fields := {
  YEAR : option Z;
  MONTH : option Z;
  DATE : option Z;
  HOUR : option Z;
  MINUTE : option Z;
  SECOND : option Z
}.

Definition noFields : Fields :=
  {| YEAR := None; MONTH := None; DATE := None;
     HOUR := None; MINUTE := None; SECOND := None |}.

(** The longest run of at most [n] digits at the head of [s], and what
    follows it. *)
Fixpoint leadingDigits (n : nat) (s : string) : string * string :=
  match n, s with
  | S n', String c s' =>
      if Js.isDigit c
      then let '(d, rest) := leadingDigits n' s' in (String c d, rest)
      else (EmptyString, s)
  | _, _ => (EmptyString, s)
  end.

(** The first match of [\d{1,n}] in [s], and what follows it. *)
Fixpoint matchDigits (n : nat) (s : string) : option (string * string) :=
  match s with
  | EmptyString => None
  | String c s' =>
      if Js.isDigit c then Some (leadingDigits n s) else matchDigits n s'
  end.

(** What follows the first [c] of [s]. *)
Fixpoint matchChar (c : ascii) (s : string) : option string :=
  match s with
  | EmptyString => None
  | String c' s' => if Ascii.eqb c' c then Some s' else matchChar c s'
  end.

(** [toInt] of a run of digits. *)
Definition toInt (d : string) : Z := default 0 (Js.digits 0 false d).

Definition parseTwoDigitYear (d : string) : Z :=
  toInt d + (if 68 <? toInt d then 1900 else 2000).

(** The digits a field token may take. *)
Definition maxDigits (t : Token) : nat :=
  match t with tokYYYY => 4 | _ => 2 end.

(** The parse callback of a field token. *)
Definition store (t : Token) (d : string) (f : Fields) : Fields :=
  match t with
  | tokYYYY =>
      {| YEAR := Some (if Nat.eqb (String.length d) 2 then parseTwoDigitYear d
                       else toInt d);
         MONTH := MONTH f; DATE := DATE f; HOUR := HOUR f; MINUTE := MINUTE f;
         SECOND := SECOND f |}
  | tokMM =>
      {| YEAR := YEAR f; MONTH := Some (toInt d - 1); DATE := DATE f;
         HOUR := HOUR f; MINUTE := MINUTE f; SECOND := SECOND f |}
  | tokDD =>
      {| YEAR := YEAR f; MONTH := MONTH f; DATE := Some (toInt d);
         HOUR := HOUR f; MINUTE := MINUTE f; SECOND := SECOND f |}
  | tokH =>
      {| YEAR := YEAR f; MONTH := MONTH f; DATE := DATE f;
         HOUR := Some (toInt d); MINUTE := MINUTE f; SECOND := SECOND f |}
  | tokmm =>
      {| YEAR := YEAR f; MONTH := MONTH f; DATE := DATE f;
         HOUR := HOUR f; MINUTE := Some (toInt d); SECOND := SECOND f |}
  | tokss =>
      {| YEAR := YEAR f; MONTH := MONTH f; DATE := DATE f;
         HOUR := HOUR f; MINUTE := MINUTE f; SECOND := Some (toInt d) |}
  | tokChar _ => f
  end.

(** The loop over the tokens of the format. *)
Fixpoint readTokens (tokens : list Token) (s : string) (f : Fields) : Fields :=
  match tokens with
  | [] => f
  | tokChar c :: rest => readTokens rest (default s (matchChar c s)) f
  | t :: rest =>
      match matchDigits (maxDigits t) s with
      | Some (d, s') => readTokens rest s' (store t d f)
      | None => readTokens rest s f
      end
  end.

Definition isLeapYear (y : Z) : bool :=
  ((y mod 4 =? 0) && negb (y mod 100 =? 0)) || (y mod 400 =? 0).

(** [daysInMonth(year, month)], the month counted from 0. *)
Definition daysInMonth (y m : Z) : Z :=
  if m =? 1 then (if isLeapYear y then 29 else 28) else 31 - (m mod 7) mod 2.

(** No field overflows ([checkOverflow]); 24:00:00 is the one hour 24
    allowed. *)
Definition inRange (y mo d h mi s : Z) : bool :=
  (0 <=? mo) && (mo <=? 11) && (1 <=? d) && (d <=? daysInMonth y mo) &&
  (h <=? 24) && negb ((h =? 24) && negb ((mi =? 0) && (s =? 0))) &&
  (mi <=? 59) && (s <=? 59).

(** The offset of [Asia/Bangkok] at a local time: 6:42:04 ahead of UTC
    until April 1920, seven hours since. *)
Definition utcOffset (local : Z) : Z :=
  if local <? Bangkok.days_from_civil 1920 4 1 * Bangkok.msPerDay
  then 24124000 else Bangkok.offset.

(** [moment.tz(s, 'YYYY-MM-DD H:mm:ss', 'Asia/Bangkok')]: the instant of a
    valid moment. *)
Definition tz (s : string) : option Z :=
  let f := readTokens stampFormat s noFields in
  y ← YEAR f;
  let mo := default 0 (MONTH f) in
  let d := default 1 (DATE f) in
  let h := default 0 (HOUR f) in
  let mi := default 0 (MINUTE f) in
  let sec := default 0 (SECOND f) in
  if inRange y mo d h mi sec
  then let local := Bangkok.days_from_civil y (mo + 1) d * Bangkok.msPerDay
                    + h * 3600000 + mi * 60000 + sec * 1000 in
       Some (local - utcOffset local)
  else None.

(** The time library with that reading; the other operations are those
    of [Bangkok.time]. *)
Definition time : TimeLib := {|
  moment_tz := tz;
  moment_loose := Bangkok.parse;
  format_date := Bangkok.ymd;
  format_stamp := fun t => Bangkok.dmy t ++ " " ++ Bangkok.hms t;
  format_hms := Bangkok.hms;
  set_time := Bangkok.at_time;
  Date_parse := Bangkok.parse
|}.

End Moment.

(** ** Configuration ([config/index.js]) *)

Module CONFIG.
Definition MAIN : string := "MAIN".
Definition EMPLOYEES : string := "EMPLOYEES".
Definition ON_WORK : string := "ON WORK".
End CONFIG.

Record AutoCheckout := {
  EXEMPT_EMPLOYEES : list string;
  CUTOFF_HOUR : Z;
  CUTOFF_MINUTE : Z
}.


(** ** Sheet rows

    A row object of [google-spreadsheet]: its number in the sheet (row 1
    holds the headers, so the first data row has number 2) and its cells
    by header.  [get r h] is [r.get(h)]. *)

Record Row := { rowNumber : Z; rawData : list (string * string) }.

#[global] Instance Row_eq_dec : EqDecision Row.
Proof. solve_decision. Defined.

Definition get (r : Row) (header : string) : option string :=
  snd <$> List.find (fun kv => String.eqb (fst kv) header) (rawData r).

Module Header.
Definition systemName : string := "ชื่อในระบบ".
Definition employeeName : string := "ชื่อพนักงาน".
Definition clockIn : string := "เวลาเข้า".
Definition clockOut : string := "เวลาออก".
Definition rowRef : string := "แถวอ้างอิง".
Definition rowInMain : string := "แถวในMain".
End Header.

(** ** Dataset cache ([this.cache] of [GoogleSheetsService]) *)

Record CacheEntry := {
  data : option (list Row);
  timestamp : option Z;
  ttl : Z
}.

Record GoogleSheetsService := {
  cache : gmap string CacheEntry;
  emergencyMode : bool
}.

Definition emptyEntry (t : Z) : CacheEntry :=
  {| data := None; timestamp := None; ttl := t |}.

(** The state the constructor builds.  The payload of the [stats] entry
    is a summary object built by [getAdminStats]; only its entry's TTL and
    clearing take part here. *)
Definition newService : GoogleSheetsService := {|
  cache := <["employees" := emptyEntry 300000]>
           (<["onWork" := emptyEntry 60000]>
           (<["main" := emptyEntry 30000]>
           (<["stats" := emptyEntry 120000]> ∅)));
  emergencyMode := false
|}.

Definition withCache (c : gmap string CacheEntry) (s : GoogleSheetsService)
    : GoogleSheetsService :=
  {| cache := c; emergencyMode := emergencyMode s |}.

(** [isCacheValid(cacheKey)]; [now] is [Date.now()]. *)
Definition isCacheValid (s : GoogleSheetsService) (cacheKey : string) (now : Z)
    : bool :=
  match cache s !! cacheKey with
  | None => false
  | Some c =>
      match data c, timestamp c with
      | Some _, Some t => if t =? 0 then false else now - t <? ttl c
      | _, _ => false
      end
  end.

(** [setCache(cacheKey, data)] *)
Definition setCache (cacheKey : string) (d : list Row) (now : Z)
    (s : GoogleSheetsService) : GoogleSheetsService :=
  let c1 := match cache s !! cacheKey with
            | None => <[cacheKey := emptyEntry 300000]> (cache s)
            | Some _ => cache s
            end in
  match c1 !! cacheKey with
  | Some old =>
      withCache (<[cacheKey := {| data := Some d; timestamp := Some now;
                                  ttl := ttl old |}]> c1) s
  | None => withCache c1 s
  end.

(** [getCache(cacheKey)] *)
Definition getCache (s : GoogleSheetsService) (cacheKey : string)
    : option (list Row) :=
  match cache s !! cacheKey with
  | Some c => data c
  | None => None
  end.

Definition clearEntry (c : CacheEntry) : CacheEntry :=
  {| data := None; timestamp := None; ttl := ttl c |}.

Definition TypeError_set (field : string) : string :=
  "Cannot set properties of undefined (setting '" ++ field ++ "')".

(** [clearCache(cacheKey = null)]: assigning to a field of an entry that
    does not exist throws a [TypeError]. *)
Definition clearCache (cacheKey : option string) (s : GoogleSheetsService)
    : GoogleSheetsService * result unit :=
  if Js.truthy cacheKey then
    match cache s !! Js.str cacheKey with
    | Some c => (withCache (<[Js.str cacheKey := clearEntry c]> (cache s)) s, Ok tt)
    | None => (s, Throw (TypeError_set "data"))
    end
  else (withCache (clearEntry <$> cache s) s, Ok tt).

Definition withTtl (t : Z) (c : CacheEntry) : CacheEntry :=
  {| data := data c; timestamp := timestamp c; ttl := t |}.

(** [this.cache.<key>.ttl = t] *)
Definition assignTtl (key : string) (t : Z) (s : GoogleSheetsService)
    : GoogleSheetsService * result unit :=
  match cache s !! key with
  | Some c => (withCache (<[key := withTtl t c]> (cache s)) s, Ok tt)
  | None => (s, Throw (TypeError_set "ttl"))
  end.

(** The four assignments of the [else] branch of [setEmergencyMode], in
    order, stopping at the first that throws. *)
Fixpoint assignTtls (l : list (string * Z)) (s : GoogleSheetsService)
    : GoogleSheetsService * result unit :=
  match l with
  | [] => (s, Ok tt)
  | (k, t) :: l' =>
      match assignTtl k t s with
      | (s', Ok _) => assignTtls l' s'
      | (s', Throw e) => (s', Throw e)
      end
  end.

(** [setEmergencyMode(enabled)] *)
Definition setEmergencyMode (enabled : bool) (s : GoogleSheetsService)
    : GoogleSheetsService * result unit :=
  let s := {| cache := cache s; emergencyMode := enabled |} in
  if enabled then (withCache (withTtl 3600000 <$> cache s) s, Ok tt)
  else assignTtls [("employees", 300000); ("onwork", 60000);
                   ("main", 30000); ("stats", 120000)] s.

(** ** Call budget limiter ([APIMonitor]) *)

Record ApiCall := { call_timestamp : Z; operation : string }.

Record APIMonitor := {
  apiCalls : list ApiCall;
  maxCallsPerMinute : Z;
  maxCallsPerHour : Z;
  burstLimit : Z;
  currentBurst : Z
}.

(** The state the constructor builds ([lastBurstReset] is never read). *)
Definition newMonitor : APIMonitor := {|
  apiCalls := [];
  maxCallsPerMinute := 100;
  maxCallsPerHour := 1000;
  burstLimit := 75;
  currentBurst := 0
|}.

Definition withCalls (l : list ApiCall) (m : APIMonitor) : APIMonitor :=
  {| apiCalls := l; maxCallsPerMinute := maxCallsPerMinute m;
     maxCallsPerHour := maxCallsPerHour m; burstLimit := burstLimit m;
     currentBurst := currentBurst m |}.

Definition withBurst (b : Z) (m : APIMonitor) : APIMonitor :=
  {| apiCalls := apiCalls m; maxCallsPerMinute := maxCallsPerMinute m;
     maxCallsPerHour := maxCallsPerHour m; burstLimit := burstLimit m;
     currentBurst := b |}.

(** [logAPICall(operation)]; [now] is [new Date()]. *)
Definition logAPICall (now : Z) (op : string) (m : APIMonitor) : APIMonitor :=
  let pushed := (apiCalls m ++ [{| call_timestamp := now; operation := op |}])%list in
  withCalls (List.filter (fun call => now - call_timestamp call <? 3600000) pushed) m.

(** [callsInLastMinute] of [canMakeAPICall()] *)
Definition callsInLastMinute (now : Z) (m : APIMonitor) : Z :=
  Z.of_nat (length (List.filter (fun call => now - call_timestamp call <? 60000)
                                (apiCalls m))).

(** [callsInLastHour = this.apiCalls.length]: the whole log, which only
    [logAPICall] prunes. *)
Definition callsInLastHour (m : APIMonitor) : Z :=
  Z.of_nat (length (apiCalls m)).

(** [canMakeAPICall()] *)
Definition canMakeAPICall (now : Z) (m : APIMonitor) : bool * APIMonitor :=
  if burstLimit m <=? currentBurst m then (false, m)
  else if maxCallsPerMinute m <=? callsInLastMinute now m then (false, m)
  else if maxCallsPerHour m <=? callsInLastHour m then (false, m)
  else (true, withBurst (currentBurst m + 1) m).

(** [finishCall()] *)
Definition finishCall (m : APIMonitor) : APIMonitor :=
  if 0 <? currentBurst m then withBurst (currentBurst m - 1) m else m.

(** The callback the constructor registers with [setInterval(.., 5000)]. *)
Definition autoResetBurst (m : APIMonitor) : APIMonitor :=
  if 0 <? currentBurst m then withBurst 0 m else m.

(** An acquisition as each call site performs it ([getCachedSheetData],
    the clock-in and clock-out routes): [canMakeAPICall()] and, when it
    allows the call, [logAPICall(operation)]. *)
Definition acquire (now : Z) (op : string) (m : APIMonitor) : bool * APIMonitor :=
  let '(allowed, m') := canMakeAPICall now m in
  if allowed then (true, logAPICall now op m') else (false, m').

(** The acquisition followed by the [finishCall()] of a completed call. *)
Definition acquireAndFinish (now : Z) (op : string) (m : APIMonitor)
    : bool * APIMonitor :=
  let '(allowed, m') := acquire now op m in
  if allowed then (true, finishCall m') else (false, m').

(** One completed call per instant of [times], in order. *)
Fixpoint completedCalls (times : list Z) (op : string) (m : APIMonitor)
    : list bool * APIMonitor :=
  match times with
  | [] => ([], m)
  | t :: rest =>
      let '(allowed, m') := acquireAndFinish t op m in
      let '(l, m'') := completedCalls rest op m' in
      (allowed :: l, m'')
  end.

(** [canMakeAPICall()] then [finishCall()], with no [logAPICall] between. *)
Fixpoint probes (n : nat) (now : Z) (m : APIMonitor) : list bool * APIMonitor :=
  match n with
  | O => ([], m)
  | S n' =>
      let '(allowed, m') := canMakeAPICall now m in
      let '(l, m'') := probes n' now (if allowed then finishCall m' else m') in
      (allowed :: l, m'')
  end.

(** The number of recorded calls in the [window] milliseconds before
    [now]. *)
Definition recordedWithin (window now : Z) (m : APIMonitor) : Z :=
  Z.of_nat (length (List.filter (fun call => now - call_timestamp call <? window)
                                (apiCalls m))).

(** ** The remote spreadsheet

    What the program writes to it: the cells of the MAIN sheet, by column
    letter and row number (A1 notation), and the rows of the ON WORK
    sheet, each known by the number it was fetched with. *)

Record Sheets := {
  mainCells : gmap (string * Z) string;
  onWorkSheet : list Row
}.

(** ** The world and the monad of effectful code *)

Record World := {
  sheetsService : GoogleSheetsService;
  apiMonitor : APIMonitor;
  remote : Sheets
}.

Definition M (A : Type) : Type := World -> World * result A.

#[global] Instance M_ret : MRet M := fun A a w => (w, Ok a).
#[global] Instance M_bind : MBind M := fun A B f c w =>
  match c w with
  | (w', Ok a) => f a w'
  | (w', Throw e) => (w', Throw e)
  end.

Definition throw {A} (message : string) : M A := fun w => (w, Throw message).

(** [try { body } catch (error) { handler(error.message) }]: the effects
    of [body] up to the throw are kept. *)
Definition try_catch {A} (body : M A) (handler : string -> M A) : M A :=
  fun w =>
    match body w with
    | (w', Ok a) => (w', Ok a)
    | (w', Throw e) => handler e w'
    end.

Definition liftResult {A} (r : result A) : M A := fun w => (w, r).

Definition onService {A} (f : GoogleSheetsService -> GoogleSheetsService * result A)
    : M A :=
  fun w =>
    let '(s, r) := f (sheetsService w) in
    ({| sheetsService := s; apiMonitor := apiMonitor w; remote := remote w |}, r).

Definition readService {A} (f : GoogleSheetsService -> A) : M A :=
  fun w => (w, Ok (f (sheetsService w))).

Definition onMonitor {A} (f : APIMonitor -> A * APIMonitor) : M A :=
  fun w =>
    let '(a, m) := f (apiMonitor w) in
    ({| sheetsService := sheetsService w; apiMonitor := m; remote := remote w |},
     Ok a).

Definition onRemote (f : Sheets -> Sheets) : M unit :=
  fun w =>
    ({| sheetsService := sheetsService w; apiMonitor := apiMonitor w;
        remote := f (remote w) |}, Ok tt).

(** ** What the outside answers during one operation *)

Record Env := {
  (** [Date.now()], [new Date()], [moment()] *)
  now : Z;
  (** [this.getSheet(name)]: connecting and finding the sheet. *)
  getSheet : string -> result unit;
  (** [sheet.getRows(..)] of the sheet of that name. *)
  getRows : string -> result (list Row);
  (** [loadCells] of each range and [saveUpdatedCells] for the cells of
      one row of MAIN. *)
  saveCells : Z -> result unit;
  (** [row.delete()] *)
  deleteRow : Row -> result unit;
  (** [sheet.addRow(..)]: the number of the row the sheet appended. *)
  addRow : string -> result Z;
  (** [getLocationName(lat, lon)], which never throws. *)
  locationName : string
}.

(** ** Resilient fetch *)

(** [sheetName.toLowerCase().replace(/\s+/g, '')] *)
Definition cacheKeyOf (sheetName : string) : string :=
  Js.replaceSpaces "" false (Js.toLowerCase sheetName).

(** The class of failures answered from the stale cache. *)
Definition isQuotaError (message : string) : bool :=
  Js.includes message "quota" || Js.includes message "limit" ||
  Js.includes message "429" || Js.includes message "RATE_LIMIT".

Definition rateLimitMessage : string :=
  "Rate limit exceeded and no cached data available".

(** The remote part of [getCachedSheetData]: [getSheet] then [getRows]. *)
Definition fetchRows (E : Env) (sheetName : string) : result (list Row) :=
  match getSheet E sheetName with
  | Ok _ => getRows E sheetName
  | Throw e => Throw e
  end.

(** The payload [getCache] returns, of which the caller takes [length]
    and elements; [null] there makes the caller throw. *)
Definition payload (d : option (list Row)) : M (list Row) :=
  match d with
  | Some rows => mret rows
  | None => throw "Cannot read properties of null"
  end.

(** [getCachedSheetData(sheetName)] *)
Definition getCachedSheetData (E : Env) (sheetName : string) : M (list Row) :=
  let cacheKey := cacheKeyOf sheetName in
  valid ← readService (fun s => isCacheValid s cacheKey (now E));
  if valid : bool then
    d ← readService (fun s => getCache s cacheKey); payload d
  else
    allowed ← onMonitor (canMakeAPICall (now E));
    if negb allowed then
      staleData ← readService (fun s => getCache s cacheKey);
      match staleData with
      | Some rows => mret rows
      | None => throw rateLimitMessage
      end
    else
      onMonitor (fun m => (tt, logAPICall (now E)
                                 ("getCachedSheetData:" ++ sheetName) m));;
      try_catch
        (rows ← liftResult (fetchRows E sheetName);
         onService (fun s => (setCache cacheKey rows (now E) s, Ok tt));;
         onMonitor (fun m => (tt, finishCall m));;
         mret rows)
        (fun message =>
           onMonitor (fun m => (tt, finishCall m));;
           if isQuotaError message then
             staleData ← readService (fun s => getCache s cacheKey);
             match staleData with
             | Some rows => mret rows
             | None => throw message
             end
           else throw message).

(** [safeGetCachedSheetData(sheetName)] *)
Definition safeGetCachedSheetData (E : Env) (sheetName : string) : M (list Row) :=
  try_catch (getCachedSheetData E sheetName)
    (fun _ =>
       em ← readService emergencyMode;
       (if negb em then onService (setEmergencyMode true) else mret tt);;
       staleData ← readService (fun s => getCache s (cacheKeyOf sheetName));
       match staleData with
       | Some rows => mret rows
       | None => mret []
       end).

(** ** Identity matcher *)

(** [normalizeEmployeeName(name)] *)
Definition normalizeEmployeeName (name : option string) : string :=
  if negb (Js.truthy name) then ""
  else Js.toLowerCase (Js.replaceSpaces " " false (Js.trim (Js.str name))).

(** [isNameMatch(inputName, compareName)] *)
Definition isNameMatch (inputName compareName : option string) : bool :=
  if negb (Js.truthy inputName) || negb (Js.truthy compareName) then false
  else
    let normalizedInput := normalizeEmployeeName inputName in
    let normalizedCompare := normalizeEmployeeName compareName in
    String.eqb normalizedInput normalizedCompare ||
    Js.includes normalizedInput normalizedCompare ||
    Js.includes normalizedCompare normalizedInput.

(** [isEmployeeExempt(employeeName)], over the configured list. *)
Definition isEmployeeExempt (cfg : AutoCheckout) (employeeName : option string)
    : bool :=
  if negb (Js.truthy employeeName) then false
  else
    let normalizedInputName := normalizeEmployeeName employeeName in
    existsb (fun exemptName =>
               let normalizedExemptName := normalizeEmployeeName (Some exemptName) in
               let isExactMatch := String.eqb normalizedInputName normalizedExemptName in
               let isPartialMatch :=
                 Js.includes normalizedInputName normalizedExemptName ||
                 Js.includes normalizedExemptName normalizedInputName in
               isExactMatch || isPartialMatch)
            (EXEMPT_EMPLOYEES cfg).

(** ** Work-session status *)

Module WorkRecord.
Record t := {
  row : Row;
  mainRowIndex : option Z;
  clockIn : option string;
  systemName : option string;
  employeeName : option string
}.
End WorkRecord.
Abbreviation WorkRecord := WorkRecord.t.

Record EmployeeStatus := {
  isOnWork : bool;
  workRecord : option WorkRecord
}.

Definition notWorking : EmployeeStatus :=
  {| isOnWork := false; workRecord := None |}.

(** [v && !isNaN(parseInt(v))], with the parsed number when it holds. *)
Definition numericRef (v : option string) : option Z :=
  if Js.truthy v then Js.parseInt (Js.str v) else None.

Definition matchesSession (employee : string) (r : Row) : bool :=
  isNameMatch (Some employee) (get r Header.systemName) ||
  isNameMatch (Some employee) (get r Header.employeeName).

(** The body of [getEmployeeStatus(employeeName)], over the call it
    awaits for the rows of ON WORK. *)
Definition getEmployeeStatusFrom (fetch : M (list Row)) (employee : string)
    : M EmployeeStatus :=
  try_catch
    (rows ← fetch;
     if Nat.eqb (length rows) 0 then mret notWorking
     else
       match List.find (matchesSession employee) rows with
       | Some found =>
           let rowRef1 := get found Header.rowRef in
           let rowRef2 := get found Header.rowInMain in
           let idx := match numericRef rowRef1 with
                      | Some n => Some n
                      | None => numericRef rowRef2
                      end in
           mret {| isOnWork := true;
                   workRecord := Some {| WorkRecord.row := found;
                                         WorkRecord.mainRowIndex := idx;
                                         WorkRecord.clockIn := get found Header.clockIn;
                                         WorkRecord.systemName := get found Header.systemName;
                                         WorkRecord.employeeName := get found Header.employeeName |} |}
       | None => mret notWorking
       end)
    (fun _ => mret notWorking).

(** [getEmployeeStatus(employeeName)]: the rows come from
    [safeGetCachedSheetData(CONFIG.SHEETS.ON_WORK)]. *)
Definition getEmployeeStatus (E : Env) (employee : string) : M EmployeeStatus :=
  getEmployeeStatusFrom (safeGetCachedSheetData E CONFIG.ON_WORK) employee.

(** ** Clock-out *)

Record ClockData := {
  employee : string;
  userinfo : option string;
  lat : string;
  lon : string;
  line_name : string;
  line_picture : string;
  mock_time : option string
}.

Record Suggestion := {
  suggestedSystemName : option string;
  suggestedEmployeeName : option string
}.

(** The object [clockIn] and [clockOut] return; an absent field is
    [None], an absent list of suggestions is empty. *)
Record ClockResult := {
  success : bool;
  message : string;
  forEmployee : string;
  time : option string;
  hours : option string;
  currentStatus : option string;
  clockInTime : option string;
  suggestions : list Suggestion
}.

Module Msg.
Definition checkName : string :=
  "คุณต้องลงเวลาเข้างานก่อน หรือตรวจสอบชื่อที่ป้อนให้ถูกต้อง".
Definition similarNames : string :=
  "ไม่พบข้อมูลการลงเวลาเข้างาน ชื่อที่ใกล้เคียง: ".
Definition noMatchingRecord : string :=
  "ไม่พบข้อมูลการลงเวลาเข้างานที่ตรงกัน กรุณาตรวจสอบระบบ".
Definition clockedOut : string := "บันทึกเวลาออกงานสำเร็จ".
Definition clockedIn : string := "บันทึกเวลาเข้างานสำเร็จ".
Definition alreadyClockedIn : string :=
  "คุณลงเวลาเข้างานไปแล้ว กรุณาลงเวลาออกก่อน".
Definition failure : string := "เกิดข้อผิดพลาด: ".
Definition cannotUpdate : string := "ไม่สามารถอัปเดตข้อมูลได้: ".
Definition cannotUpdateMissed : string :=
  "ไม่สามารถอัปเดตข้อมูลลืมลงเวลาออกได้: ".
Definition missedCheckoutNote : string := "ลืมลงเวลาออก (ระบบอัตโนมัติ)".
End Msg.

(** [mock_time ? moment(mock_time).tz(..).format(..) : moment().tz(..).format(..)]
    with the format ['DD/MM/YYYY HH:mm:ss']. *)
Definition resolveTimestamp `{TimeLib} (E : Env) (mock : option string) : string :=
  if Js.truthy mock then
    match moment_loose (Js.str mock) with
    | Some t => format_stamp t
    | None => invalid_date
    end
  else format_stamp (now E).

(** [date.split(' ')[1]] of a string that contains a space. *)
Fixpoint untilSpace (s : string) : string :=
  match s with
  | EmptyString => EmptyString
  | String c s' => if Ascii.eqb c " " then EmptyString else String c (untilSpace s')
  end.

Fixpoint afterSpace (s : string) : string :=
  match s with
  | EmptyString => EmptyString
  | String c s' => if Ascii.eqb c " " then s' else afterSpace s'
  end.

(** [formatTime(date)] on a string. *)
Definition formatTime `{TimeLib} (date : string) : string :=
  if Js.includes date " " && Nat.eqb (String.length date) 19
  then untilSpace (afterSpace date)
  else match moment_loose date with
       | Some t => format_hms t
       | None => date
       end.

(** Stage 1 of the search: the row at the stored index, if it bears the
    employee's name. *)
Definition rowByIndex (employee : string) (wr : WorkRecord) (rows : list Row)
    : option Row :=
  match WorkRecord.mainRowIndex wr with
  | Some idx =>
      if negb (idx =? 0) && (1 <? idx) then
        let targetIndex := idx - 2 in
        if (0 <=? targetIndex) && (targetIndex <? Z.of_nat (length rows)) then
          match rows !! Z.to_nat targetIndex with
          | Some candidateRow =>
              if isNameMatch (Some employee) (get candidateRow Header.employeeName)
              then Some candidateRow else None
          | None => None
          end
        else None
      else None
  | None => None
  end.

(** The test of the second and fourth stages: the employee's name and no
    clock-out value. *)
Definition isOpenRowOf (employee : string) (r : Row) : bool :=
  isNameMatch (Some employee) (get r Header.employeeName) &&
  negb (Js.truthy (get r Header.clockOut)).

Definition candidateRows (employee : string) (rows : list Row) : list Row :=
  List.filter (isOpenRowOf employee) rows.

(** One turn of the [forEach] over the candidates: [closestRow] and
    [minTimeDiff], where [None] is [Infinity].  A date that does not parse
    gives [NaN], which is below nothing. *)
Definition closerRow `{TimeLib} (clockInTime : option string)
    (st : option Row * option Z) (r : Row) : option Row * option Z :=
  let rowClockIn := get r Header.clockIn in
  if Js.truthy rowClockIn && Js.truthy clockInTime then
    match Date_parse (Js.str rowClockIn), Date_parse (Js.str clockInTime) with
    | Some a, Some b =>
        let timeDiff := Z.abs (a - b) in
        let below := match snd st with
                     | None => true
                     | Some minTimeDiff => timeDiff <? minTimeDiff
                     end in
        if below then (Some r, Some timeDiff) else st
    | _, _ => st
    end
  else st.

(** Stages 2 and 3. *)
Definition rowByName `{TimeLib} (employee : string) (clockInTime : option string)
    (rows : list Row) : option Row :=
  let candidates := candidateRows employee rows in
  match candidates with
  | [] => None
  | [only] => Some only
  | _ =>
      match fold_left (closerRow clockInTime) candidates (None, None) with
      | (Some closestRow, Some minTimeDiff) =>
          if minTimeDiff <? 300000 then Some closestRow else None
      | _ => None
      end
  end.

(** Stage 4: from the last row backward. *)
Definition latestOpenRow (employee : string) (rows : list Row) : option Row :=
  List.find (isOpenRowOf employee) (rev rows).

(** The three [if (!mainRow)] blocks of [clockOut] in sequence. *)
Definition findMainRow `{TimeLib} (employee : string) (wr : WorkRecord)
    (rows : list Row) : option Row :=
  match rowByIndex employee wr rows with
  | Some r => Some r
  | None =>
      match rowByName employee (WorkRecord.clockIn wr) rows with
      | Some r => Some r
      | None => latestOpenRow employee rows
      end
  end.

(** [cell.value = v] for each range of [updates], then
    [saveUpdatedCells]. *)
Definition writeCells (rowNum : Z) (updates : list (string * string))
    (sh : Sheets) : Sheets :=
  {| mainCells := fold_left (fun cells u => <[(fst u, rowNum) := snd u]> cells)
                            updates (mainCells sh);
     onWorkSheet := onWorkSheet sh |}.

Definition updateMainRow (E : Env) (rowNum : Z) (updates : list (string * string))
    : M unit :=
  liftResult (getSheet E CONFIG.MAIN);;
  liftResult (saveCells E rowNum);;
  onRemote (writeCells rowNum updates).

(** The cells [clockOut] writes: F clock-out time, I exit coordinates,
    J exit location, K worked hours. *)
Definition clockOutUpdates (timestamp : string) (d : ClockData)
    (location : string) (hoursWorked : Q) : list (string * string) :=
  [("F", timestamp); ("I", lat d ++ "," ++ lon d); ("J", location);
   ("K", Js.toFixed2 hoursWorked)].

Definition removeRow (r : Row) (sh : Sheets) : Sheets :=
  {| mainCells := mainCells sh;
     onWorkSheet := List.filter (fun x => negb (rowNumber x =? rowNumber r))
                                (onWorkSheet sh) |}.

(** [await row.delete()] *)
Definition deleteSession (E : Env) (r : Row) : M unit :=
  liftResult (deleteRow E r);;
  onRemote (removeRow r).

Definition toSuggestion (r : Row) : Suggestion :=
  {| suggestedSystemName := get r Header.systemName;
     suggestedEmployeeName := get r Header.employeeName |}.

Definition suggestionsFor (employee : string) (rows : list Row) : list Suggestion :=
  List.filter
    (fun emp => isNameMatch (Some employee) (suggestedSystemName emp) ||
                isNameMatch (Some employee) (suggestedEmployeeName emp))
    (List.filter
       (fun emp => Js.truthy (suggestedSystemName emp) ||
                   Js.truthy (suggestedEmployeeName emp))
       (map toSuggestion rows)).

Definition suggestedName (s : Suggestion) : string :=
  Js.str (Js.or_else (suggestedSystemName s) (suggestedEmployeeName s)).

Definition notClockedIn (employee : string) (sugg : list Suggestion)
    : ClockResult :=
  {| success := false;
     message := match sugg with
                | [] => Msg.checkName
                | _ => Msg.similarNames ++ String.concat ", " (map suggestedName sugg)
                end;
     forEmployee := employee;
     time := None; hours := None;
     currentStatus := Some "not_clocked_in"; clockInTime := None;
     suggestions := sugg |}.

Definition noMatchingRecord (employee : string) : ClockResult :=
  {| success := false; message := Msg.noMatchingRecord; forEmployee := employee;
     time := None; hours := None; currentStatus := None; clockInTime := None;
     suggestions := [] |}.

Definition clockOutFailed (employee message : string) : ClockResult :=
  {| success := false; message := Msg.failure ++ message; forEmployee := employee;
     time := None; hours := None; currentStatus := None; clockInTime := None;
     suggestions := [] |}.

Definition clockedOut `{TimeLib} (employee timestamp : string) (hoursWorked : Q)
    : ClockResult :=
  {| success := true; message := Msg.clockedOut; forEmployee := employee;
     time := Some (formatTime timestamp);
     hours := Some (Js.toFixed2 hoursWorked);
     currentStatus := Some "clocked_out"; clockInTime := None;
     suggestions := [] |}.

(** The three [clearCache] calls after a deletion. *)
Definition clearAfterWrite (keys : list string) : M unit :=
  fold_right (fun k rest => onService (clearCache (Some k));; rest) (mret tt) keys.

(** [clockOut(data)].  The cache warming scheduled with [setTimeout] and
    the notification of [triggerMapGeneration] run after the result is
    returned and catch their own failures; they are later operations on
    the world, not part of this one. *)
Definition clockOut `{TimeLib} (E : Env) (d : ClockData) : M ClockResult :=
  try_catch
    (employeeStatus ← getEmployeeStatus E (employee d);
     if negb (isOnWork employeeStatus) then
       rows ← getCachedSheetData E CONFIG.ON_WORK;
       mret (notClockedIn (employee d) (suggestionsFor (employee d) rows))
     else
       match workRecord employeeStatus with
       | None => throw "Cannot read properties of null (reading 'clockIn')"
       | Some wr =>
           let timestamp := resolveTimestamp E (mock_time d) in
           let clockInTime := WorkRecord.clockIn wr in
           let hoursWorked :=
             calculateWorkingHours (now E) clockInTime (Some timestamp) in
           liftResult (getSheet E CONFIG.MAIN);;
           rows ← getCachedSheetData E CONFIG.MAIN;
           match findMainRow (employee d) wr rows with
           | None => mret (noMatchingRecord (employee d))
           | Some mainRow =>
               try_catch
                 (updateMainRow E (rowNumber mainRow)
                    (clockOutUpdates timestamp d (locationName E) hoursWorked))
                 (fun e => throw (Msg.cannotUpdate ++ e));;
               try_catch
                 (deleteSession E (WorkRecord.row wr);;
                  clearAfterWrite ["onwork"; "main"; "stats"])
                 (fun _ => mret tt);;
               mret (clockedOut (employee d) timestamp hoursWorked)
           end
       end)
    (fun e => mret (clockOutFailed (employee d) e)).

(** ** Clock-in *)

(** The eleven cells [clockIn] appends to MAIN, columns A to K. *)
Definition clockInCells (d : ClockData) (timestamp location : string)
    : list (string * string) :=
  [("A", employee d); ("B", line_name d);
   ("C", "=IMAGE(" ++ String (ascii_of_nat 34) (line_picture d)
         ++ String (ascii_of_nat 34) ")");
   ("D", timestamp); ("E", Js.str (Js.or_else (userinfo d) (Some "")));
   ("F", ""); ("G", lat d ++ "," ++ lon d); ("H", location);
   ("I", ""); ("J", ""); ("K", "")].

(** The row [clockIn] appends to ON WORK, by the headers the program
    reads back: both name columns hold the employee, the clock-in column
    the timestamp, both reference columns the number of the MAIN row. *)
Definition openSession (d : ClockData) (timestamp : string) (mainRow num : Z) : Row :=
  {| rowNumber := num;
     rawData := [(Header.clockIn, timestamp);
                 (Header.employeeName, employee d);
                 (Header.systemName, employee d);
                 (Header.rowRef, Js.ofZ mainRow);
                 (Header.rowInMain, Js.ofZ mainRow)] |}.

Definition appendSession (r : Row) (sh : Sheets) : Sheets :=
  {| mainCells := mainCells sh; onWorkSheet := (onWorkSheet sh ++ [r])%list |}.

Definition alreadyClockedIn (employee : string) (st : EmployeeStatus) : ClockResult :=
  {| success := false; message := Msg.alreadyClockedIn; forEmployee := employee;
     time := None; hours := None; currentStatus := Some "clocked_in";
     clockInTime := wr ← workRecord st; WorkRecord.clockIn wr;
     suggestions := [] |}.

Definition clockedIn `{TimeLib} (employee timestamp : string) : ClockResult :=
  {| success := true; message := Msg.clockedIn; forEmployee := employee;
     time := Some (formatTime timestamp); hours := None;
     currentStatus := Some "clocked_in"; clockInTime := None;
     suggestions := [] |}.

(** [clockIn(data)], up to the scheduled cache warming and notification. *)
Definition clockIn `{TimeLib} (E : Env) (d : ClockData) : M ClockResult :=
  try_catch
    (employeeStatus ← getEmployeeStatus E (employee d);
     if isOnWork employeeStatus then
       mret (alreadyClockedIn (employee d) employeeStatus)
     else
       let timestamp := resolveTimestamp E (mock_time d) in
       liftResult (getSheet E CONFIG.MAIN);;
       mainRow ← liftResult (addRow E CONFIG.MAIN);
       onRemote (writeCells mainRow (clockInCells d timestamp (locationName E)));;
       liftResult (getSheet E CONFIG.ON_WORK);;
       num ← liftResult (addRow E CONFIG.ON_WORK);
       onRemote (appendSession (openSession d timestamp mainRow num));;
       clearAfterWrite ["onwork"; "main"; "stats"];;
       mret (clockedIn (employee d) timestamp))
    (fun e => mret (clockOutFailed (employee d) e)).

(** ** Missed-checkout sweeper *)

Inductive MissedCheckout :=
| missedCheckoutDone (autoClockOut hoursWorked note : string)
| missedCheckoutFailed (error : string).

(** The cells the sweeper writes: E note, F clock-out time, K hours. *)
Definition missedCheckoutUpdates (autoClockOutTime : string) (hoursWorked : Q)
    : list (string * string) :=
  [("E", Msg.missedCheckoutNote); ("F", autoClockOutTime);
   ("K", Js.toFixed2 hoursWorked)].

(** [processMissedCheckout({employeeName, clockInTime, mainRowIndex,
    cutoffTime, workRow})] *)
Definition processMissedCheckout `{TimeLib} (E : Env)
    (clockInTime mainRowIndex : option string) (cutoffTime : Z) (workRow : Row)
    : M MissedCheckout :=
  try_catch
    (let autoClockOutTime := format_stamp cutoffTime in
     let hoursWorked :=
       calculateWorkingHours (now E) clockInTime (Some autoClockOutTime) in
     match numericRef mainRowIndex with
     | Some rowNum =>
         try_catch
           (updateMainRow E rowNum (missedCheckoutUpdates autoClockOutTime hoursWorked))
           (fun e => throw (Msg.cannotUpdateMissed ++ e))
     | None => mret tt
     end;;
     deleteSession E workRow;;
     clearAfterWrite ["onwork"; "main"];;
     mret (missedCheckoutDone autoClockOutTime (Js.toFixed2 hoursWorked)
                              Msg.missedCheckoutNote))
    (fun e => mret (missedCheckoutFailed e)).

Inductive SweepAction :=
| exempted (name clockInAt : string)
| missed_checkout_processed (name clockInAt autoClockOut : string)
| failed (name error : string)
| errored (name error : string).

Record SweepCount := {
  processedCount : Z;
  exemptedCount : Z;
  results : list SweepAction
}.

Definition pushResult (dp de : Z) (a : SweepAction) (acc : SweepCount) : SweepCount :=
  {| processedCount := processedCount acc + dp;
     exemptedCount := exemptedCount acc + de;
     results := (results acc ++ [a])%list |}.

(** The body of the [for] loop of [checkAndHandleMissedCheckouts] for one
    row of ON WORK; [today] is [moment().tz(..)]. *)
Definition sweepRow `{TimeLib} (cfg : AutoCheckout) (E : Env) (today cutoffTime : Z)
    (acc : SweepCount) (workRow : Row) : M SweepCount :=
  try_catch
    (let name := Js.or_else (get workRow Header.employeeName)
                            (get workRow Header.systemName) in
     let clockInTime := get workRow Header.clockIn in
     let mainRowIndex := Js.or_else (get workRow Header.rowInMain)
                                    (get workRow Header.rowRef) in
     if negb (Js.truthy name) || negb (Js.truthy clockInTime) then mret acc
     else if isEmployeeExempt cfg name then
       mret (pushResult 0 1 (exempted (Js.str name) (Js.str clockInTime)) acc)
     else
       let clockInMoment := moment_tz (Js.str clockInTime) in
       let isToday := String.eqb (format_date_opt clockInMoment) (format_date today) in
       if negb isToday then mret acc
       else
         r ← processMissedCheckout E clockInTime mainRowIndex cutoffTime workRow;
         match r with
         | missedCheckoutDone autoClockOut _ _ =>
             mret (pushResult 1 0
                     (missed_checkout_processed (Js.str name) (Js.str clockInTime)
                                                autoClockOut) acc)
         | missedCheckoutFailed e =>
             mret (pushResult 0 0 (failed (Js.str name) e) acc)
         end)
    (fun e =>
       mret (pushResult 0 0
               (errored (Js.str (Js.or_else (get workRow Header.employeeName)
                                            (Some "Unknown"))) e) acc)).

Fixpoint sweepRows `{TimeLib} (cfg : AutoCheckout) (E : Env) (today cutoffTime : Z)
    (acc : SweepCount) (rows : list Row) : M SweepCount :=
  match rows with
  | [] => mret acc
  | workRow :: rest =>
      acc' ← sweepRow cfg E today cutoffTime acc workRow;
      sweepRows cfg E today cutoffTime acc' rest
  end.

Record SweepResult := {
  sweepSuccess : bool;
  sweepCount : SweepCount;
  totalChecked : Z;
  sweepError : option string
}.

Definition noCount : SweepCount :=
  {| processedCount := 0; exemptedCount := 0; results := [] |}.

(** [checkAndHandleMissedCheckouts()], up to the summary notification,
    which catches its own failures. *)
Definition checkAndHandleMissedCheckouts `{TimeLib} (cfg : AutoCheckout) (E : Env)
    : M SweepResult :=
  try_catch
    (onWorkRows ← getCachedSheetData E CONFIG.ON_WORK;
     if Nat.eqb (length onWorkRows) 0 then
       mret {| sweepSuccess := true; sweepCount := noCount; totalChecked := 0;
               sweepError := None |}
     else
       let today := now E in
       let cutoffTime := set_time today (CUTOFF_HOUR cfg) (CUTOFF_MINUTE cfg) 59 999 in
       acc ← sweepRows cfg E today cutoffTime noCount onWorkRows;
       mret {| sweepSuccess := true; sweepCount := acc;
               totalChecked := Z.of_nat (length onWorkRows);
               sweepError := None |})
    (fun e =>
       mret {| sweepSuccess := false; sweepCount := noCount; totalChecked := 0;
               sweepError := Some e |}).

(** ** Vocabulary of the statements *)

(** The value the batch [updates] leaves in column [col]: that of its last
    update of the column, if any. *)
Definition lastValue (col : string) (updates : list (string * string))
    : option string :=
  snd <$> List.find (fun u => String.eqb (fst u) col) (rev updates).

(** The log entry of a call. *)
Definition entry (op : string) (t : Z) : ApiCall :=
  {| call_timestamp := t; operation := op |}.

Definition withMonitor (m : APIMonitor) (w : World) : World :=
  {| sheetsService := sheetsService w; apiMonitor := m; remote := remote w |}.

Definition withService (s : GoogleSheetsService) (w : World) : World :=
  {| sheetsService := s; apiMonitor := apiMonitor w; remote := remote w |}.

(** [c] leaves the [part] of the remote sheets as it found it, whether it
    returns or throws. *)
Definition keeps {X A} (part : Sheets -> X) (c : M A) : Prop :=
  forall w, part (remote (fst (c w))) = part (remote w).

(** The world once [f] has been applied to the remote sheets. *)
Definition withRemote (f : Sheets -> Sheets) (w : World) : World :=
  {| sheetsService := sheetsService w; apiMonitor := apiMonitor w;
     remote := f (remote w) |}.

(** The clock-out timestamp and the worked hours of a clock-out of [d]
    against the work record [wr]. *)
Definition clockOutStamp `{TimeLib} (E : Env) (d : ClockData) : string :=
  resolveTimestamp E (mock_time d).

Definition clockOutHours `{TimeLib} (E : Env) (d : ClockData) (wr : WorkRecord) : Q :=
  calculateWorkingHours (now E) (WorkRecord.clockIn wr) (Some (clockOutStamp E d)).

(** The batch of cells of that clock-out. *)
Definition clockOutBatch `{TimeLib} (E : Env) (d : ClockData) (wr : WorkRecord)
    : list (string * string) :=
  clockOutUpdates (clockOutStamp E d) d (locationName E) (clockOutHours E d wr).

(** The distance in time [Math.abs(new Date(rowClockIn) - new Date(clockInTime))]
    between a ledger row and the session's clock-in, when both are present
    and parse. *)
Definition timeDiff `{TimeLib} (clockInTime : option string) (r : Row) : option Z :=
  if Js.truthy (get r Header.clockIn) && Js.truthy clockInTime then
    match Date_parse (Js.str (get r Header.clockIn)),
          Date_parse (Js.str clockInTime) with
    | Some a, Some b => Some (Z.abs (a - b))
    | _, _ => None
    end
  else None.

(** What the loop over the candidates has established after the rows
    [seen]: the row it holds is one of them and none of them is nearer. *)
Definition nearestOf `{TimeLib} (clockInTime : option string) (seen : list Row)
    (st : option Row * option Z) : Prop :=
  match st with
  | (Some r, Some t) =>
      In r seen /\ timeDiff clockInTime r = Some t /\
      forall c t', In c seen -> timeDiff clockInTime c = Some t' -> t <= t'
  | (None, None) => forall c, In c seen -> timeDiff clockInTime c = None
  | _ => False
  end.

(** The columns among [cols] whose cell in row [n] differs between two
    states of MAIN. *)
Definition changedColumns (before after : gmap (string * Z) string) (n : Z)
    (cols : list string) : list string :=
  List.filter (fun c => negb (bool_decide (before !! (c, n) = after !! (c, n)))) cols.

Definition mainColumns : list string :=
  ["A"; "B"; "C"; "D"; "E"; "F"; "G"; "H"; "I"; "J"; "K"].









(** ** Scenarios

    Concrete rows, answers of the outside and worlds, on which the
    program is run in the examples below. *)

Module Scenario.

(** A row of ON WORK as [clockIn] leaves it. *)
Definition sessionRow (num : Z) (name clockInAt ref : string) : Row :=
  {| rowNumber := num;
     rawData := [(Header.clockIn, clockInAt); (Header.employeeName, name);
                 (Header.systemName, name); (Header.rowRef, ref);
                 (Header.rowInMain, ref)] |}.

(** A row of MAIN, by the headers [clockOut] reads. *)
Definition ledgerRow (num : Z) (name clockInAt clockOutAt : string) : Row :=
  {| rowNumber := num;
     rawData := [(Header.employeeName, name); (Header.clockIn, clockInAt);
                 (Header.clockOut, clockOutAt)] |}.

(** An outside where every call succeeds. *)
Definition calm (t : Z) (onWork main : list Row) : Env :=
  {| now := t;
     getSheet := fun _ => Ok tt;
     getRows := fun name =>
       if String.eqb name CONFIG.ON_WORK then Ok onWork
       else if String.eqb name CONFIG.MAIN then Ok main
       else Ok [];
     saveCells := fun _ => Ok tt;
     deleteRow := fun _ => Ok tt;
     addRow := fun _ => Ok (2 + Z.of_nat (length main));
     locationName := "office" |}.

(** The same outside, where reading any sheet fails with [message]. *)
Definition unreadable (message : string) (E : Env) : Env :=
  {| now := now E; getSheet := getSheet E;
     getRows := fun _ => Throw message;
     saveCells := saveCells E; deleteRow := deleteRow E;
     addRow := addRow E; locationName := locationName E |}.

(** The same outside, where deleting a row fails with [message]. *)
Definition undeletable (message : string) (E : Env) : Env :=
  {| now := now E; getSheet := getSheet E; getRows := getRows E;
     saveCells := saveCells E; deleteRow := fun _ => Throw message;
     addRow := addRow E; locationName := locationName E |}.

Definition started (onWork : list Row) : World :=
  {| sheetsService := newService; apiMonitor := newMonitor;
     remote := {| mainCells := ∅; onWorkSheet := onWork |} |}.

(** 2025-01-01 08:00:00, 13:00:00 and 17:30:00 in Bangkok. *)
Definition t0800 : Z := 1735693200000.
Definition t1300 : Z := 1735711200000.
Definition t1730 : Z := 1735727400000.

Definition somchai : ClockData :=
  {| employee := "Somchai"; userinfo := None; lat := "13.7"; lon := "100.5";
     line_name := "som"; line_picture := "p.png"; mock_time := None |}.

(** A world whose cache holds the open sessions as fetched at 08:00. *)
Definition cachedAt0800 (onWork : list Row) : World :=
  {| sheetsService := setCache "onwork" onWork t0800 newService;
     apiMonitor := newMonitor;
     remote := {| mainCells := ∅; onWorkSheet := onWork |} |}.

(** A ledger where Somchai has a closed row (2) and an open row (3). *)
Definition twoShifts : list Row :=
  [ledgerRow 2 "Somchai" "2025-01-01 08:00:00" "01/01/2025 12:00:00";
   ledgerRow 3 "Somchai" "2025-01-01 13:00:00" ""].

(** His open session, holding [ref] as the number of its ledger row. *)
Definition afternoon (ref : string) : list Row :=
  [sessionRow 3 "Somchai" "2025-01-01 13:00:00" ref].

(** The record [getEmployeeStatus] builds from that session. *)
Definition afternoonRecord (ref : string) (idx : option Z) : WorkRecord :=
  {| WorkRecord.row := sessionRow 3 "Somchai" "2025-01-01 13:00:00" ref;
     WorkRecord.mainRowIndex := idx;
     WorkRecord.clockIn := Some "2025-01-01 13:00:00";
     WorkRecord.systemName := Some "Somchai";
     WorkRecord.employeeName := Some "Somchai" |}.

(** Clocking out at 17:30 with every remote call succeeding. *)
Definition at1730 (ref : string) : Env := calm t1730 (afternoon ref) twoShifts.



End Scenario.

(** ** Roster and reports *)

(** The header of the roster's name column. *)
Definition fullNameHeader : string := "ชื่อ-นามสกุล".

(** [getEmployees()] *)
Definition getEmployees (E : Env) : M (list string) :=
  try_catch
    (rows ← getCachedSheetData E CONFIG.EMPLOYEES;
     mret (Js.str <$> List.filter Js.truthy (map (fun row => get row fullNameHeader) rows)))
    (fun _ => mret []).

(** [row._rawData[i]]: the cells of a row by position. *)
Definition rawAt (r : Row) (i : nat) : option string := snd <$> rawData r !! i.

(** [s.split(sep)] for a separator of one character. *)
Fixpoint splitOn (sep : ascii) (s : string) : list string :=
  match s with
  | EmptyString => [EmptyString]
  | String c s' =>
      if Ascii.eqb c sep then EmptyString :: splitOn sep s'
      else match splitOn sep s' with
           | h :: t => String c h :: t
           | [] => [String c EmptyString]
           end
  end.

(** [s.padStart(2, '0')] *)
Definition padStart2 (s : string) : string :=
  match s with
  | EmptyString => "00"
  | String c EmptyString => String "0" s
  | _ => s
  end.

(** [/^\d{2}\/\d{2}\/\d{4}/] *)
Definition startsWithDMY (s : string) : bool :=
  match s with
  | String d1 (String d2 (String "/" (String m1 (String m2 (String "/"
      (String y1 (String y2 (String y3 (String y4 _))))))))) =>
      Js.isDigit d1 && Js.isDigit d2 && Js.isDigit m1 && Js.isDigit m2 &&
      Js.isDigit y1 && Js.isDigit y2 && Js.isDigit y3 && Js.isDigit y4
  | _ => false
  end.

(** [/^\d{4}-\d{2}-\d{2}$/] *)
Definition isYMD (s : string) : bool :=
  match s with
  | String y1 (String y2 (String y3 (String y4 (String "-" (String m1 (String m2
      (String "-" (String d1 (String d2 EmptyString))))))))) =>
      Js.isDigit y1 && Js.isDigit y2 && Js.isDigit y3 && Js.isDigit y4 &&
      Js.isDigit m1 && Js.isDigit m2 && Js.isDigit d1 && Js.isDigit d2
  | _ => false
  end.

(** The [dateStr] the daily and the monthly filters of [getReportData]
    extract from a clock-in value; [None] where the filter answers
    [false]: no date to read, or the exception its [catch] swallows
    (a date part without its three fields). *)
Definition reportDay `{TimeLib} (clockIn : string) : option string :=
  if startsWithDMY clockIn then
    match splitOn "/" (hd EmptyString (splitOn " " clockIn)) with
    | day :: month :: year :: _ =>
        Some (year ++ "-" ++ padStart2 month ++ "-" ++ padStart2 day)
    | _ => None
    end
  else if Js.includes clockIn " " then Some (hd EmptyString (splitOn " " clockIn))
  else if Js.includes clockIn "T" then Some (hd EmptyString (splitOn "T" clockIn))
  else if isYMD clockIn then Some clockIn
  else format_date <$> moment_loose clockIn.

(** What the report filters ask of [moment] beyond [TimeLib]. *)
Class CalendarLib := {
  (** [moment(s, format).tz(CONFIG.TIMEZONE)], when valid. *)
  moment_format : string -> string -> option Z;
  (** [m.month()], from 0, and [m.year()] *)
  month_of : Z -> Z;
  year_of : Z -> Z;
  (** [m.startOf('day')] and [m.endOf('day')] *)
  startOfDay : Z -> Z;
  endOfDay : Z -> Z
}.

(** [req.query] of an export request; [None] is a parameter left out. *)
Record ReportParams := {
  paramDate : option string;
  paramMonth : option string;
  paramYear : option string;
  paramStartDate : option string;
  paramEndDate : option string
}.

(** [moment(v).tz(CONFIG.TIMEZONE)]: the current instant for [undefined]. *)
Definition momentOf `{TimeLib} (E : Env) (v : option string) : option Z :=
  match v with
  | Some s => moment_loose s
  | None => Some (now E)
  end.

(** [parseInt(v)] of a query value. *)
Definition parseIntOf (v : option string) : option Z :=
  match v with
  | Some s => Js.parseInt s
  | None => None
  end.

(** The three filters of [getReportData], on the clock-in cell
    [row._rawData[3]]. *)
Definition isDailyRow `{TimeLib} (targetDate : string) (r : Row) : bool :=
  if negb (Js.truthy (rawAt r 3)) then false
  else match reportDay (Js.str (rawAt r 3)) with
       | Some dateStr => String.eqb dateStr targetDate
       | None => false
       end.

Definition isMonthlyRow `{TimeLib} `{CalendarLib} (month year : option Z) (r : Row)
    : bool :=
  if negb (Js.truthy (rawAt r 3)) then false
  else match reportDay (Js.str (rawAt r 3)) with
       | Some dateStr =>
           match moment_loose dateStr with
           | Some rowDate =>
               bool_decide (Some (month_of rowDate + 1) = month) &&
               bool_decide (Some (year_of rowDate) = year)
           | None => false
           end
       | None => false
       end.

Definition rowMoment `{TimeLib} `{CalendarLib} (clockIn : string) : option Z :=
  if startsWithDMY clockIn then moment_format clockIn "DD/MM/YYYY HH:mm:ss"
  else if Js.includes clockIn " " then moment_format clockIn "YYYY-MM-DD HH:mm:ss"
  else moment_loose clockIn.

(** [rowMoment.isBetween(startMoment, endMoment, null, '[]')] *)
Definition isRangeRow `{TimeLib} `{CalendarLib} (startMoment endMoment : option Z)
    (r : Row) : bool :=
  if negb (Js.truthy (rawAt r 3)) then false
  else match rowMoment (Js.str (rawAt r 3)), startMoment, endMoment with
       | Some t, Some a, Some b => (a <=? t) && (t <=? b)
       | _, _, _ => false
       end.

(** A record of a report. *)
Module Report.
Record t := {
  no : Z;
  employee : string;
  lineName : string;
  clockIn : string;
  clockOut : string;
  note : string;
  workingHours : string;
  locationIn : string;
  locationOut : string;
  userInfo : string
}.
End Report.

(** [row._rawData[i] || ''] *)
Definition cellOr (r : Row) (i : nat) : string :=
  Js.str (Js.or_else (rawAt r i) (Some EmptyString)).

Definition toReport (index : nat) (r : Row) : Report.t :=
  {| Report.no := Z.of_nat index + 1;
     Report.employee := cellOr r 0;
     Report.lineName := cellOr r 1;
     Report.clockIn := cellOr r 3;
     Report.clockOut := cellOr r 5;
     Report.note := cellOr r 4;
     Report.workingHours := cellOr r 10;
     Report.locationIn := cellOr r 7;
     Report.locationOut := cellOr r 9;
     Report.userInfo := cellOr r 4 |}.

Definition unsupportedType (type : string) : string :=
  "Unsupported report type: " ++ type.

(** The rows the [switch] of [getReportData] keeps. *)
Definition reportRows `{TimeLib} `{CalendarLib} (E : Env) (type : string)
    (params : ReportParams) (rows : list Row) : result (list Row) :=
  if String.eqb type "daily" then
    let targetDate := format_date_opt (momentOf E (paramDate params)) in
    Ok (List.filter (isDailyRow targetDate) rows)
  else if String.eqb type "monthly" then
    Ok (List.filter (isMonthlyRow (parseIntOf (paramMonth params))
                                  (parseIntOf (paramYear params))) rows)
  else if String.eqb type "range" then
    Ok (List.filter (isRangeRow (startOfDay <$> momentOf E (paramStartDate params))
                                (endOfDay <$> momentOf E (paramEndDate params))) rows)
  else Throw (unsupportedType type).

(** [getReportData(type, params)] *)
Definition getReportData `{TimeLib} `{CalendarLib} (E : Env) (type : string)
    (params : ReportParams) : M (list Report.t) :=
  try_catch
    (rows ← safeGetCachedSheetData E CONFIG.MAIN;
     if Nat.eqb (length rows) 0 then mret []
     else
       filteredRows ← liftResult (reportRows E type params rows);
       mret (imap toReport filteredRows))
    (fun e => throw e).

(** ** Routes

    [req.body] of [POST /api/clockin] and [POST /api/clockout], its
    fields taken as text, and the answer of the handler. *)








(** The answer of [POST /api/admin/refresh-cache]: status 200 with
    ['Cache refreshed successfully'], or status 500. *)
Inductive RefreshAnswer := cacheRefreshed | refreshFailed.

(** The handler of that route: [clearCache()], then the two reads that
    warm the cache. *)
Definition refreshCacheRoute (E : Env) : M RefreshAnswer :=
  try_catch
    (onService (clearCache None);;
     getCachedSheetData E CONFIG.ON_WORK;;
     getCachedSheetData E CONFIG.EMPLOYEES;;
     mret cacheRefreshed)
    (fun _ => mret refreshFailed).

(** ** More vocabulary of the statements *)

(** The shape [normalizeEmployeeName] gives a non-empty name: no
    whitespace but single spaces, none of them first or last.
    [prevSpace] tells that the previous character was a space. *)
Fixpoint singleSpaced (prevSpace : bool) (s : string) : bool :=
  match s with
  | EmptyString => negb prevSpace
  | String c s' =>
      if Js.isSpace c then Ascii.eqb c " " && negb prevSpace && singleSpaced true s'
      else singleSpaced false s'
  end.

(** Exactly [n] characters, all of them decimal digits. *)
Fixpoint allDigits (n : nat) (s : string) : bool :=
  match n, s with
  | O, EmptyString => true
  | S n', String c s' => Js.isDigit c && allDigits n' s'
  | _, _ => false
  end.

(** No character of [s] is [sep]. *)
Fixpoint lacks (sep : ascii) (s : string) : bool :=
  match s with
  | EmptyString => true
  | String c s' => negb (Ascii.eqb c sep) && lacks sep s'
  end.

(** The report types the [switch] of [getReportData] knows. *)
Definition reportTypes : list string := ["daily"; "monthly"; "range"].

(** The TTL of the entry [setCache] leaves under [key]. *)
Definition ttlOf (s : GoogleSheetsService) (key : string) : Z :=
  match cache s !! key with Some c => ttl c | None => 300000 end.

(** A use of the limiter by the program: an acquisition as the call
    sites perform it, the [finishCall()] that ends a call, a turn of the
    reset timer. *)
Inductive LimiterUse :=
| acquisition (now : Z) (op : string)
| completion
| timerReset.

(** The answers of the acquisitions of [uses], in order, and the limiter
    after them. *)
Fixpoint useLimiter (uses : list LimiterUse) (m : APIMonitor)
    : list bool * APIMonitor :=
  match uses with
  | [] => ([], m)
  | acquisition t op :: rest =>
      let '(allowed, m') := acquire t op m in
      let '(l, m'') := useLimiter rest m' in
      (allowed :: l, m'')
  | completion :: rest => useLimiter rest (finishCall m)
  | timerReset :: rest => useLimiter rest (autoResetBurst m)
  end.

(** The limits, which no method assigns. *)
Definition limits (m : APIMonitor) : Z * Z * Z :=
  (maxCallsPerMinute m, maxCallsPerHour m, burstLimit m).

(** One second apart, [n] instants from [t]. *)
Definition everySecond (t : Z) (n : nat) : list Z :=
  map (fun i => t + 1000 * Z.of_nat i) (seq 0 n).

(** Every run of [c] takes the world to one related to it by [R],
    whether [c] returns or throws. *)
Definition follows {A} (R : relation World) (c : M A) : Prop :=
  forall w, R w (fst (c w)).

(** A burst count that was not negative is found again. *)
Definition sameBurst : relation World := fun w w' =>
  0 <= currentBurst (apiMonitor w) ->
  currentBurst (apiMonitor w') = currentBurst (apiMonitor w).


Definition stillEmergency : relation World := fun w w' =>
  emergencyMode (sheetsService w) = true -> emergencyMode (sheetsService w') = true.

(** [c] never switches emergency mode off. *)
Definition staysInEmergency {A} (c : M A) : Prop := follows stillEmergency c.

(** The calls logged less than an hour before [t] are still in the log. *)
Definition keepsRecentCalls (t : Z) : relation World := fun w w' =>
  forall call, In call (apiCalls (apiMonitor w)) -> t - call_timestamp call < 3600000 ->
               In call (apiCalls (apiMonitor w')).

(** The rows of ON WORK but those bearing the number of a row of
    [removed]. *)
Definition withoutRows (removed : list Row) (l : list Row) : list Row :=
  List.filter (fun x => forallb (fun r => negb (rowNumber x =? rowNumber r)) removed) l.

(** The ON WORK sheet lost the sessions [removed], all of them
    satisfying [P], and nothing else; no row was added. *)
Definition removesOnly (P : Row -> Prop) : relation World := fun w w' =>
  exists removed, Forall P removed /\
    onWorkSheet (remote w') = withoutRows removed (onWorkSheet (remote w)).






(** No character beyond ASCII.  On such text the whitespace of [trim] and
    of [\s] and the letter case of [toLowerCase] are those of
    [Js.isSpace] and [Js.lowerChar]. *)
Fixpoint isAscii (s : string) : bool :=
  match s with
  | EmptyString => true
  | String c s' => Nat.ltb (nat_of_ascii c) 128 && isAscii s'
  end.

(** [Number.isSafeInteger(n)]: an integer that [parseInt] and the decimal
    rendering of a number carry exactly. *)
Definition isSafeInteger (n : Z) : bool := Z.abs n <=? 9007199254740991.

(** The calls in flight after [uses], [inFlight] of them being so before:
    an acquisition that is granted starts one, a [finishCall()] ends one.
    [None] when a [finishCall()] finds no call to end. *)
Fixpoint callsInFlight (inFlight : Z) (uses : list LimiterUse) (m : APIMonitor)
    : option Z :=
  match uses with
  | [] => Some inFlight
  | acquisition t op :: rest =>
      let '(allowed, m') := acquire t op m in
      callsInFlight (if allowed then inFlight + 1 else inFlight) rest m'
  | completion :: rest =>
      if 0 <? inFlight then callsInFlight (inFlight - 1) rest (finishCall m)
      else None
  | timerReset :: rest => callsInFlight inFlight rest (autoResetBurst m)
  end.

(** The reset timer does not fire during [uses]. *)
Definition timerFree (uses : list LimiterUse) : bool :=
  forallb (fun u => match u with timerReset => false | _ => true end) uses.

(** A night shift: 2025-01-01 22:00:00 and 2025-01-02 06:00:00 in
    Bangkok. *)
Module NightShift.
Definition t2200 : Z := 1735743600000.
Definition t0600 : Z := 1735772400000.
End NightShift.

(** * Properties *)

(** ** Worked hours *)

Lemma Qle_bool_div_pos (z : Z) :
  Qle_bool 0 (inject_Z z / inject_Z 3600000) = (0 <=? z).
Proof.
  unfold Qle_bool, Qdiv, Qmult, Qinv, inject_Z; simpl.
  destruct (Z.leb_spec 0 z); [apply Z.leb_le | apply Z.leb_gt]; lia.
Qed.

Lemma calculateWorkingHours_nonneg `{TimeLib} (now : Z) (cin cout : option string) :
  (0 <= calculateWorkingHours now cin cout)%Q.
Proof.
  unfold calculateWorkingHours.
  destruct (negb (Js.truthy cin)); [apply Qle_refl|].
  destruct (moment_tz (Js.str cin)) as [a|]; [|apply Qle_refl].
  destruct (if Js.truthy cout then _ else _) as [b|]; [|apply Qle_refl].
  destruct (Qle_bool 0 _) eqn:Hle; [|apply Qle_refl].
  now apply Qle_bool_iff.
Qed.

Lemma truthy_Some (s : string) : s ≠ "" -> Js.truthy (Some s) = true.
Proof.
  intros Hs. unfold Js.truthy.
  destruct (String.eqb_spec s ""); [contradiction|reflexivity].
Qed.

Lemma calculateWorkingHours_parsed `{TimeLib} (now a b : Z) (cin cout : string) :
  cin ≠ "" -> cout ≠ "" ->
  moment_tz cin = Some a -> moment_tz cout = Some b ->
  calculateWorkingHours now (Some cin) (Some cout) =
  if 0 <=? b - a then (inject_Z (b - a) / inject_Z 3600000)%Q else 0%Q.
Proof.
  intros Hi Ho Ha Hb. unfold calculateWorkingHours.
  rewrite !truthy_Some by assumption. simpl.
  rewrite Ha, Hb. now rewrite Qle_bool_div_pos.
Qed.

(** [calculateWorkingHours] over the instants the date library reads,
    whatever that reading is: it never returns a negative number; it
    returns 0 when the clock-in is missing, when either timestamp is
    read as invalid and when the instant read for the clock-out precedes
    the one read for the clock-in; otherwise it returns the difference
    of the two instants in hours.  Without a clock-out it measures up to
    the current instant, which is the live duration of the statistics
    page. *)
Lemma calculateWorkingHours_floored :
  (forall (T : TimeLib) (now : Z) (cin cout : option string),
      (0 <= calculateWorkingHours now cin cout)%Q) /\
  (forall (T : TimeLib) (now : Z) (cout : option string),
      calculateWorkingHours now None cout = 0%Q /\
      calculateWorkingHours now (Some "") cout = 0%Q) /\
  (forall (T : TimeLib) (now : Z) (cin : string) (cout : option string),
      moment_tz cin = None ->
      calculateWorkingHours now (Some cin) cout = 0%Q) /\
  (forall (T : TimeLib) (now : Z) (cin cout : string),
      cout ≠ "" -> moment_tz cout = None ->
      calculateWorkingHours now (Some cin) (Some cout) = 0%Q) /\
  (forall (T : TimeLib) (now a b : Z) (cin cout : string),
      cin ≠ "" -> cout ≠ "" ->
      moment_tz cin = Some a -> moment_tz cout = Some b ->
      (b < a -> calculateWorkingHours now (Some cin) (Some cout) = 0%Q) /\
      (a <= b -> calculateWorkingHours now (Some cin) (Some cout) =
                 (inject_Z (b - a) / inject_Z 3600000)%Q)) /\
  (forall (T : TimeLib) (now a : Z) (cin : string),
      cin ≠ "" -> moment_tz cin = Some a -> a <= now ->
      liveWorkingHours now (Some cin) =
      (inject_Z (now - a) / inject_Z 3600000)%Q).
Proof.
  split; [intros; apply calculateWorkingHours_nonneg|].
  split; [intros; split; reflexivity|].
  split.
  { intros T now cin cout Hp. unfold calculateWorkingHours.
    destruct (negb (Js.truthy (Some cin))); [reflexivity|].
    simpl. now rewrite Hp. }
  split.
  { intros T now cin cout Ho Hp. unfold calculateWorkingHours.
    destruct (negb (Js.truthy (Some cin))); [reflexivity|].
    rewrite (truthy_Some cout Ho). simpl. rewrite Hp.
    now destruct (moment_tz cin). }
  split.
  { intros T now a b cin cout Hi Ho Ha Hb.
    rewrite (calculateWorkingHours_parsed now a b) by assumption.
    split; intros Hab; destruct (Z.leb_spec 0 (b - a)); try reflexivity; lia. }
  intros T now a cin Hi Ha Hle. unfold liveWorkingHours, calculateWorkingHours.
  rewrite (truthy_Some cin Hi). simpl. rewrite Ha.
  rewrite Qle_bool_div_pos.
  destruct (Z.leb_spec 0 (now - a)); [reflexivity|lia].
Qed.

(** ** Call budget limiter *)

Lemma filter_length_le {A} (f : A -> bool) (l : list A) :
  (length (List.filter f l) <= length l)%nat.
Proof.
  induction l as [|x l IH]; simpl; [lia|]. destruct (f x); simpl; lia.
Qed.

Lemma canMakeAPICall_denied (now : Z) (m : APIMonitor) :
  burstLimit m <= currentBurst m \/
  maxCallsPerMinute m <= recordedWithin 60000 now m \/
  maxCallsPerHour m <= recordedWithin 3600000 now m ->
  canMakeAPICall now m = (false, m).
Proof.
  intros Hd. unfold canMakeAPICall.
  destruct (Z.leb_spec (burstLimit m) (currentBurst m)) as [|Hb]; [reflexivity|].
  destruct (Z.leb_spec (maxCallsPerMinute m) (callsInLastMinute now m)) as [|Hm];
    [reflexivity|].
  destruct (Z.leb_spec (maxCallsPerHour m) (callsInLastHour m)) as [|Hh];
    [reflexivity|].
  exfalso. destruct Hd as [Hd|[Hd|Hd]]; [lia| |].
  - unfold recordedWithin, callsInLastMinute in *. lia.
  - unfold recordedWithin, callsInLastHour in *.
    pose proof (filter_length_le
                  (fun call => now - call_timestamp call <? 3600000) (apiCalls m)).
    lia.
Qed.

Lemma canMakeAPICall_allowed (now : Z) (m : APIMonitor) :
  currentBurst m < burstLimit m ->
  callsInLastMinute now m < maxCallsPerMinute m ->
  callsInLastHour m < maxCallsPerHour m ->
  canMakeAPICall now m = (true, withBurst (currentBurst m + 1) m).
Proof.
  intros Hb Hm Hh. unfold canMakeAPICall.
  destruct (Z.leb_spec (burstLimit m) (currentBurst m)); [lia|].
  destruct (Z.leb_spec (maxCallsPerMinute m) (callsInLastMinute now m)); [lia|].
  destruct (Z.leb_spec (maxCallsPerHour m) (callsInLastHour m)); [lia|].
  reflexivity.
Qed.

Lemma canMakeAPICall_true (now : Z) (m m' : APIMonitor) :
  canMakeAPICall now m = (true, m') ->
  m' = withBurst (currentBurst m + 1) m.
Proof.
  unfold canMakeAPICall.
  destruct (burstLimit m <=? currentBurst m); [discriminate|].
  destruct (maxCallsPerMinute m <=? callsInLastMinute now m); [discriminate|].
  destruct (maxCallsPerHour m <=? callsInLastHour m); [discriminate|].
  now intros [= <-].
Qed.

Lemma filter_all {A} (f : A -> bool) (l : list A) :
  (forall x, In x l -> f x = true) -> List.filter f l = l.
Proof.
  induction l as [|x l IH]; simpl; intros Hall; [reflexivity|].
  rewrite (Hall x (or_introl eq_refl)). f_equal. apply IH. intros; apply Hall; now right.
Qed.

Lemma filter_none {A} (f : A -> bool) (l : list A) :
  (forall x, In x l -> f x = false) -> List.filter f l = [].
Proof.
  induction l as [|x l IH]; simpl; intros Hall; [reflexivity|].
  rewrite (Hall x (or_introl eq_refl)). apply IH. intros; apply Hall; now right.
Qed.

(** While fewer calls than both ceilings allow are on record, all of them
    within the last minute, a completed call succeeds and leaves its
    entry at the end of the log. *)
Lemma acquireAndFinish_logs (op : string) (t : Z) (m : APIMonitor) (done : list Z) :
  apiCalls m = map (entry op) done ->
  currentBurst m = 0 -> 0 < burstLimit m ->
  Z.of_nat (length done) < maxCallsPerMinute m ->
  Z.of_nat (length done) < maxCallsPerHour m ->
  (forall x, In x done -> t - x < 3600000) ->
  exists m',
    acquireAndFinish t op m = (true, m') /\
    apiCalls m' = map (entry op) (done ++ [t]) /\
    currentBurst m' = 0 /\
    burstLimit m' = burstLimit m /\
    maxCallsPerMinute m' = maxCallsPerMinute m /\
    maxCallsPerHour m' = maxCallsPerHour m.
Proof.
  intros Hlog Hb Hlim Hmin Hhour Hrecent.
  unfold acquireAndFinish, acquire.
  rewrite canMakeAPICall_allowed.
  - eexists. split; [reflexivity|].
    unfold finishCall, logAPICall; simpl.
    rewrite Hb; simpl. repeat split.
    rewrite Hlog, filter_all, map_app; [reflexivity|].
    intros x [Hx|Hx]%in_app_or.
    + apply in_map_iff in Hx as (y & <- & Hy). simpl.
      apply Z.ltb_lt. now apply Hrecent.
    + destruct Hx as [<-|[]]. simpl. apply Z.ltb_lt. lia.
  - lia.
  - unfold callsInLastMinute.
    pose proof (filter_length_le
                  (fun call => t - call_timestamp call <? 60000) (apiCalls m)).
    rewrite Hlog, length_map in *. lia.
  - unfold callsInLastHour. rewrite Hlog, length_map. lia.
Qed.

Lemma completedCalls_all_allowed (op : string) (times done : list Z) (m : APIMonitor) :
  apiCalls m = map (entry op) done ->
  currentBurst m = 0 -> 0 < burstLimit m ->
  Z.of_nat (length done + length times) <= maxCallsPerMinute m ->
  Z.of_nat (length done + length times) <= maxCallsPerHour m ->
  (forall x y, In x (done ++ times) -> In y (done ++ times) -> y - x < 3600000) ->
  exists m',
    completedCalls times op m = (repeat true (length times), m') /\
    apiCalls m' = map (entry op) (done ++ times) /\
    currentBurst m' = 0 /\
    burstLimit m' = burstLimit m /\
    maxCallsPerMinute m' = maxCallsPerMinute m /\
    maxCallsPerHour m' = maxCallsPerHour m.
Proof.
  revert done m.
  induction times as [|t rest IH]; intros done m Hlog Hb Hlim Hmin Hhour Hspan.
  - exists m. simpl. rewrite app_nil_r. repeat split; auto.
  - simpl length in *.
    destruct (acquireAndFinish_logs op t m done) as (m1 & Hrun & Hlog1 & Hb1 & Hl1 & Hm1 & Hh1);
      try assumption; try lia.
    { intros x Hx. apply Hspan; apply in_or_app; [now left|right; now left]. }
    destruct (IH (done ++ [t])%list m1) as (m2 & Hrest & Hlog2 & Hb2 & Hl2 & Hm2 & Hh2);
      try assumption; try lia.
    { rewrite Hm1, length_app. simpl. lia. }
    { rewrite Hh1, length_app. simpl. lia. }
    { intros x y. rewrite <- !app_assoc. simpl. apply Hspan. }
    exists m2. simpl. rewrite Hrun, Hrest.
    rewrite <- app_assoc in Hlog2. simpl in Hlog2.
    repeat split; try assumption; congruence.
Qed.

Lemma recordedWithin_all (window t : Z) (op : string) (times : list Z) (m : APIMonitor) :
  apiCalls m = map (entry op) times ->
  (forall x, In x times -> t - x < window) ->
  recordedWithin window t m = Z.of_nat (length times).
Proof.
  intros Hlog Hin. unfold recordedWithin.
  rewrite Hlog, filter_all, length_map; [reflexivity|].
  intros c (x & <- & Hx)%in_map_iff. simpl. apply Z.ltb_lt. now apply Hin.
Qed.

Lemma callsInLastMinute_none (t : Z) (op : string) (times : list Z) (m : APIMonitor) :
  apiCalls m = map (entry op) times ->
  (forall x, In x times -> 60000 <= t - x) ->
  callsInLastMinute t m = 0.
Proof.
  intros Hlog Hin. unfold callsInLastMinute.
  rewrite Hlog, filter_none; [reflexivity|].
  intros c (x & <- & Hx)%in_map_iff. simpl. apply Z.ltb_ge. now apply Hin.
Qed.

(** The safety net of the constructor's timer: whatever the burst counter
    was stuck at, after the reset a call within the two ceilings is
    allowed. *)
Lemma autoResetBurst_restores (now : Z) (m : APIMonitor) :
  0 < burstLimit m ->
  callsInLastMinute now m < maxCallsPerMinute m ->
  callsInLastHour m < maxCallsPerHour m ->
  fst (canMakeAPICall now (autoResetBurst m)) = true.
Proof.
  intros Hlim Hmin Hhour. unfold autoResetBurst.
  destruct (Z.ltb_spec 0 (currentBurst m)).
  - rewrite canMakeAPICall_allowed; simpl; auto.
  - rewrite canMakeAPICall_allowed; simpl; auto. lia.
Qed.

(** C4 (as amended): [canMakeAPICall] returns false whenever the burst
    count has reached the burst ceiling, or the calls recorded in the last
    60 seconds have reached the per-minute ceiling, or the calls recorded
    in the last 3600 seconds have reached the per-hour ceiling.  When it
    returns true it has incremented the burst count and left the call log
    as it was: the timestamped entry is recorded by [logAPICall], which
    every call site invokes next.  For acquisitions made that way and
    finished with [finishCall], with N the per-minute ceiling: N of them
    within one minute all succeed, one more within that minute is denied,
    and once every entry is at least a minute old the next one succeeds. *)
Theorem limiter_ceilings :
  (forall (now : Z) (m : APIMonitor),
      burstLimit m <= currentBurst m \/
      maxCallsPerMinute m <= recordedWithin 60000 now m \/
      maxCallsPerHour m <= recordedWithin 3600000 now m ->
      canMakeAPICall now m = (false, m)) /\
  (forall (now : Z) (m m' : APIMonitor),
      canMakeAPICall now m = (true, m') ->
      currentBurst m' = currentBurst m + 1 /\ apiCalls m' = apiCalls m) /\
  (forall (now : Z) (op : string) (m m' : APIMonitor),
      acquire now op m = (true, m') ->
      currentBurst m' = currentBurst m + 1 /\
      In {| call_timestamp := now; operation := op |} (apiCalls m')) /\
  (forall (op : string) (times : list Z) (m : APIMonitor),
      apiCalls m = [] -> currentBurst m = 0 -> 0 < burstLimit m ->
      Z.of_nat (length times) = maxCallsPerMinute m ->
      0 < maxCallsPerMinute m < maxCallsPerHour m ->
      (forall x y, In x times -> In y times -> y - x < 60000) ->
      exists m',
        completedCalls times op m = (repeat true (length times), m') /\
        (forall t, (forall x, In x times -> t - x < 60000) ->
                   acquire t op m' = (false, m')) /\
        (forall t, (forall x, In x times -> 60000 <= t - x) ->
                   fst (acquire t op m') = true)).
Proof.
  split; [exact canMakeAPICall_denied|].
  split.
  { intros now m m' Hc. apply canMakeAPICall_true in Hc. now subst. }
  split.
  { intros now op m m'. unfold acquire.
    destruct (canMakeAPICall now m) as [[|] m1] eqn:Hc; [|discriminate].
    apply canMakeAPICall_true in Hc. subst m1. intros [= <-].
    split; [reflexivity|].
    unfold logAPICall; simpl. apply filter_In. split.
    - apply in_or_app. right. now left.
    - simpl. apply Z.ltb_lt. lia. }
  intros op times m Hlog Hb Hlim Hn Hhour Hspan.
  destruct (completedCalls_all_allowed op times [] m)
    as (m' & Hrun & Hlog' & Hb' & Hl' & Hm' & Hh'); simpl; try assumption; try lia.
  { intros x y Hx Hy. specialize (Hspan x y Hx Hy). lia. }
  simpl in Hlog'. exists m'. split; [assumption|]. split.
  - intros t Ht. unfold acquire. rewrite canMakeAPICall_denied; [reflexivity|].
    right. left. rewrite (recordedWithin_all 60000 t op times) by assumption. lia.
  - intros t Ht. unfold acquire. rewrite canMakeAPICall_allowed; [reflexivity| | |].
    + lia.
    + rewrite (callsInLastMinute_none t op times) by assumption. lia.
    + unfold callsInLastHour. rewrite Hlog', length_map. lia.
Qed.

(** The limiter as the server starts it, with its ceiling of 100 calls per
    minute: one hundred calls in the same second, a denial half a minute
    later, a success after a minute. *)
Lemma limiter_ceilings_witness :
  exists m',
    completedCalls (repeat 1000 100) "clockIn" newMonitor = (repeat true 100, m') /\
    acquire 31000 "clockIn" m' = (false, m') /\
    fst (acquire 61000 "clockIn" m') = true.
Proof.
  destruct (proj2 (proj2 (proj2 limiter_ceilings)) "clockIn" (repeat 1000 100) newMonitor)
    as (m' & Hrun & Hdenied & Hallowed); try reflexivity.
  { split; reflexivity. }
  { intros x y Hx%repeat_spec Hy%repeat_spec. subst. lia. }
  exists m'. split; [exact Hrun|]. split.
  - apply Hdenied. intros x Hx%repeat_spec. subst. lia.
  - apply Hallowed. intros x Hx%repeat_spec. subst. lia.
Defined.

(** C4, as stated, fails: [canMakeAPICall] alone records nothing, so 101
    calls of it in the same millisecond, each followed by [finishCall],
    are all allowed although the per-minute ceiling is 100. *)
Lemma canMakeAPICall_records_nothing :
  maxCallsPerMinute newMonitor = 100 /\
  (let '(allowed, m') := canMakeAPICall 1000 newMonitor in
   allowed = true /\ apiCalls m' = []) /\
  fst (probes 101 1000 newMonitor) = repeat true 101.
Proof. vm_compute. auto. Qed.

(** ** Dataset cache *)

Lemma setCache_lookup (key : string) (d : list Row) (now : Z) (s : GoogleSheetsService) :
  cache (setCache key d now s) !! key =
  Some {| data := Some d; timestamp := Some now;
          ttl := match cache s !! key with Some c => ttl c | None => 300000 end |}.
Proof.
  unfold setCache. destruct (cache s !! key) as [c|] eqn:Hc.
  - rewrite Hc. simpl. now rewrite lookup_insert_eq.
  - rewrite lookup_insert_eq. simpl. now rewrite lookup_insert_eq.
Qed.

Lemma setCache_lookup_ne (key k : string) (d : list Row) (now : Z)
    (s : GoogleSheetsService) :
  key ≠ k -> cache (setCache key d now s) !! k = cache s !! k.
Proof.
  intros Hne. unfold setCache. destruct (cache s !! key) as [c|] eqn:Hc.
  - rewrite Hc. simpl. now rewrite lookup_insert_ne.
  - rewrite lookup_insert_eq. simpl. now rewrite !lookup_insert_ne.
Qed.

Lemma getCache_setCache (key : string) (d : list Row) (now : Z) (s : GoogleSheetsService) :
  getCache (setCache key d now s) key = Some d.
Proof. unfold getCache. now rewrite setCache_lookup. Qed.

Lemma isCacheValid_getCache (s : GoogleSheetsService) (key : string) (now : Z) :
  isCacheValid s key now = true -> exists d, getCache s key = Some d.
Proof.
  unfold isCacheValid, getCache. destruct (cache s !! key) as [c|]; [|discriminate].
  destruct (data c) as [d|]; [|discriminate]. eauto.
Qed.

Lemma setEmergencyMode_on (s : GoogleSheetsService) :
  setEmergencyMode true s =
  ({| cache := withTtl 3600000 <$> cache s; emergencyMode := true |}, Ok tt).
Proof. reflexivity. Qed.

Lemma getCache_emergency (s : GoogleSheetsService) (key : string) :
  getCache (fst (setEmergencyMode true s)) key = getCache s key.
Proof.
  unfold getCache. simpl. rewrite lookup_fmap.
  now destruct (cache s !! key).
Qed.

(** What holds of the cache as the claim C5 describes it: a stored payload
    is stamped with the current time under the TTL its entry had, and
    emergency mode gives every entry a TTL of one hour. *)
Lemma cache_ttl_kept (s : GoogleSheetsService) (key : string) (c : CacheEntry)
    (d : list Row) (now : Z) :
  cache s !! key = Some c ->
  cache (setCache key d now s) !! key =
    Some {| data := Some d; timestamp := Some now; ttl := ttl c |} /\
  cache (fst (setEmergencyMode true s)) !! key = Some (withTtl 3600000 c).
Proof.
  intros Hc. split.
  - now rewrite setCache_lookup, Hc.
  - simpl. now rewrite lookup_fmap, Hc.
Qed.

(** C5 (the code departs from it): the constructor files the one-minute
    TTL of the open sessions under the key [onWork], while every read and
    write of that dataset uses the key [onwork]; the entry the fetch
    creates there gets the default TTL of five minutes.  Leaving emergency
    mode assigns to [cache.onwork]: on a service that has not fetched the
    open sessions yet this throws after the first assignment and leaves
    [main] and [stats] at one hour; on a service that has, the entry
    [onWork] stays at one hour and [onwork] gets one minute, which is not
    the TTL it had. *)
Theorem open_sessions_ttl_slip :
  ttl <$> cache newService !! "employees" = Some 300000 /\
  ttl <$> cache newService !! "onWork" = Some 60000 /\
  ttl <$> cache newService !! "main" = Some 30000 /\
  ttl <$> cache newService !! "stats" = Some 120000 /\
  cacheKeyOf CONFIG.ON_WORK = "onwork" /\
  cache newService !! "onwork" = None /\
  (forall (rows : list Row) (now : Z),
      ttl <$> cache (setCache "onwork" rows now newService) !! "onwork"
      = Some 300000) /\
  (let '(s, r) := setEmergencyMode false (fst (setEmergencyMode true newService)) in
   r = Throw (TypeError_set "ttl") /\
   ttl <$> cache s !! "employees" = Some 300000 /\
   ttl <$> cache s !! "main" = Some 3600000 /\
   ttl <$> cache s !! "stats" = Some 3600000) /\
  (forall (rows : list Row) (now : Z),
      let fetched := setCache "onwork" rows now newService in
      let '(s, r) := setEmergencyMode false (fst (setEmergencyMode true fetched)) in
      r = Ok tt /\
      ttl <$> cache fetched !! "onwork" = Some 300000 /\
      ttl <$> cache s !! "onwork" = Some 60000 /\
      ttl <$> cache s !! "onWork" = Some 3600000).
Proof.
  do 6 (split; [reflexivity|]).
  split; [intros; now rewrite setCache_lookup|].
  split; [vm_compute; auto|].
  intros rows now. vm_compute. auto.
Qed.

(** ** Reasoning in the monad *)

Lemma bind_ok {A B} (c : M A) (f : A -> M B) (w w' : World) (a : A) :
  c w = (w', Ok a) -> (c ≫= f) w = f a w'.
Proof. intros Hc. unfold mbind, M_bind. now rewrite Hc. Qed.

Lemma bind_throw {A B} (c : M A) (f : A -> M B) (w w' : World) (e : string) :
  c w = (w', Throw e) -> (c ≫= f) w = (w', Throw e).
Proof. intros Hc. unfold mbind, M_bind. now rewrite Hc. Qed.

Lemma try_catch_ok {A} (c : M A) (h : string -> M A) (w w' : World) (a : A) :
  c w = (w', Ok a) -> try_catch c h w = (w', Ok a).
Proof. intros Hc. unfold try_catch. now rewrite Hc. Qed.

Lemma try_catch_throw {A} (c : M A) (h : string -> M A) (w w' : World) (e : string) :
  c w = (w', Throw e) -> try_catch c h w = h e w'.
Proof. intros Hc. unfold try_catch. now rewrite Hc. Qed.

Ltac munfold :=
  unfold mbind, M_bind, mret, M_ret, try_catch, throw, liftResult,
         onService, readService, onMonitor, onRemote, payload in *.

Lemma world_eta (w : World) :
  {| sheetsService := sheetsService w; apiMonitor := apiMonitor w;
     remote := remote w |} = w.
Proof. now destruct w. Qed.

(** ** Resilient fetch *)

Lemma getCachedSheetData_fresh (E : Env) (sheetName : string) (w : World) :
  isCacheValid (sheetsService w) (cacheKeyOf sheetName) (now E) = true ->
  exists d, getCache (sheetsService w) (cacheKeyOf sheetName) = Some d /\
            getCachedSheetData E sheetName w = (w, Ok d).
Proof.
  intros Hv. destruct (isCacheValid_getCache _ _ _ Hv) as [d Hd].
  exists d. split; [assumption|].
  unfold getCachedSheetData. munfold. now rewrite Hv, Hd.
Qed.

Lemma getCachedSheetData_denied (E : Env) (sheetName : string) (w : World) :
  isCacheValid (sheetsService w) (cacheKeyOf sheetName) (now E) = false ->
  fst (canMakeAPICall (now E) (apiMonitor w)) = false ->
  getCachedSheetData E sheetName w =
  (w, match getCache (sheetsService w) (cacheKeyOf sheetName) with
      | Some d => Ok d
      | None => Throw rateLimitMessage
      end).
Proof.
  intros Hv Hc. unfold getCachedSheetData. munfold. rewrite Hv.
  assert (Hm : canMakeAPICall (now E) (apiMonitor w) = (false, apiMonitor w)).
  { revert Hc. unfold canMakeAPICall.
    repeat match goal with |- context [if ?b then _ else _] => destruct b end;
      simpl; congruence. }
  rewrite Hm. simpl. rewrite world_eta.
  now destruct (getCache (sheetsService w) (cacheKeyOf sheetName)).
Qed.

Lemma getCachedSheetData_allowed (E : Env) (sheetName : string) (w : World)
    (m1 : APIMonitor) :
  isCacheValid (sheetsService w) (cacheKeyOf sheetName) (now E) = false ->
  canMakeAPICall (now E) (apiMonitor w) = (true, m1) ->
  getCachedSheetData E sheetName w =
  let m2 := finishCall (logAPICall (now E) ("getCachedSheetData:" ++ sheetName) m1) in
  match fetchRows E sheetName with
  | Ok rows =>
      (withMonitor m2 (withService (setCache (cacheKeyOf sheetName) rows (now E)
                                             (sheetsService w)) w), Ok rows)
  | Throw e =>
      (withMonitor m2 w,
       if isQuotaError e then
         match getCache (sheetsService w) (cacheKeyOf sheetName) with
         | Some d => Ok d
         | None => Throw e
         end
       else Throw e)
  end.
Proof.
  intros Hv Hc. unfold getCachedSheetData. munfold. rewrite Hv, Hc. simpl.
  destruct (fetchRows E sheetName) as [rows|e]; simpl; [reflexivity|].
  destruct (isQuotaError e); [|reflexivity].
  cbn [sheetsService].
  now destruct (getCache (sheetsService w) (cacheKeyOf sheetName)).
Qed.

(** C2: [getCachedSheetData] answers from the cache, with no remote call
    and the limiter untouched, while the entry is within its TTL;
    otherwise, when the limiter denies the call, it returns the stale
    payload if there is one and fails with the rate-limit error if not;
    when the remote fetch fails with a message of the quota class (quota,
    limit, 429, RATE_LIMIT) it returns the stale payload if there is one
    and rethrows the error if not; every other remote failure is rethrown;
    a successful fetch is stored in the cache, stamped with the current
    time, and returned. *)
Theorem getCachedSheetData_resilient (E : Env) (sheetName : string) (w : World) :
  let key := cacheKeyOf sheetName in
  let s := sheetsService w in
  (isCacheValid s key (now E) = true ->
   exists d, getCache s key = Some d /\
             getCachedSheetData E sheetName w = (w, Ok d)) /\
  (isCacheValid s key (now E) = false ->
   fst (canMakeAPICall (now E) (apiMonitor w)) = false ->
   (forall d, getCache s key = Some d ->
              getCachedSheetData E sheetName w = (w, Ok d)) /\
   (getCache s key = None ->
    getCachedSheetData E sheetName w = (w, Throw rateLimitMessage))) /\
  (isCacheValid s key (now E) = false ->
   fst (canMakeAPICall (now E) (apiMonitor w)) = true ->
   (forall e, fetchRows E sheetName = Throw e ->
      (isQuotaError e = true ->
       (forall d, getCache s key = Some d ->
                  snd (getCachedSheetData E sheetName w) = Ok d) /\
       (getCache s key = None ->
        snd (getCachedSheetData E sheetName w) = Throw e)) /\
      (isQuotaError e = false ->
       snd (getCachedSheetData E sheetName w) = Throw e) /\
      sheetsService (fst (getCachedSheetData E sheetName w)) = s) /\
   (forall rows, fetchRows E sheetName = Ok rows ->
      snd (getCachedSheetData E sheetName w) = Ok rows /\
      sheetsService (fst (getCachedSheetData E sheetName w))
        = setCache key rows (now E) s /\
      getCache (sheetsService (fst (getCachedSheetData E sheetName w))) key
        = Some rows)).
Proof.
  intros key s. split; [apply getCachedSheetData_fresh|]. split.
  - intros Hv Hc. rewrite getCachedSheetData_denied by assumption.
    split; [intros d Hd|intros Hd]; subst key s; now rewrite Hd.
  - intros Hv Hc.
    destruct (canMakeAPICall (now E) (apiMonitor w)) as [b m1] eqn:Hm.
    simpl in Hc. subst b.
    rewrite (getCachedSheetData_allowed E sheetName w m1 Hv Hm). simpl.
    split.
    + intros e He. rewrite He. simpl. split; [|split; [|reflexivity]].
      * intros Hq. rewrite Hq.
        split; [intros d Hd|intros Hd]; subst key s; now rewrite Hd.
      * intros Hq. now rewrite Hq.
    + intros rows Hr. rewrite Hr. simpl.
      repeat split. apply getCache_setCache.
Qed.

Lemma safeGetCachedSheetData_ok (E : Env) (sheetName : string) (w w1 : World)
    (rows : list Row) :
  getCachedSheetData E sheetName w = (w1, Ok rows) ->
  safeGetCachedSheetData E sheetName w = (w1, Ok rows).
Proof. intros Hg. unfold safeGetCachedSheetData. now apply try_catch_ok. Qed.

Lemma safeGetCachedSheetData_caught (E : Env) (sheetName : string) (w w1 : World)
    (e : string) :
  getCachedSheetData E sheetName w = (w1, Throw e) ->
  safeGetCachedSheetData E sheetName w =
  (if emergencyMode (sheetsService w1) then w1
   else withService (fst (setEmergencyMode true (sheetsService w1))) w1,
   Ok (default [] (getCache (sheetsService w1) (cacheKeyOf sheetName)))).
Proof.
  intros Hg. unfold safeGetCachedSheetData.
  rewrite (try_catch_throw _ _ _ _ _ Hg). munfold.
  destruct (emergencyMode (sheetsService w1)) eqn:Hem; simpl.
  - now destruct (getCache (sheetsService w1) (cacheKeyOf sheetName)).
  - pose proof (getCache_emergency (sheetsService w1) (cacheKeyOf sheetName)) as Hs.
    simpl in Hs. rewrite Hs.
    now destruct (getCache (sheetsService w1) (cacheKeyOf sheetName)).
Qed.

Lemma safeGetCachedSheetData_total (E : Env) (sheetName : string) (w : World) :
  exists w' rows, safeGetCachedSheetData E sheetName w = (w', Ok rows).
Proof.
  destruct (getCachedSheetData E sheetName w) as [w1 [rows|e]] eqn:Hg.
  - rewrite (safeGetCachedSheetData_ok _ _ _ _ _ Hg). eauto.
  - rewrite (safeGetCachedSheetData_caught _ _ _ _ _ Hg). eauto.
Qed.

(** C6: [safeGetCachedSheetData] never throws.  It returns what
    [getCachedSheetData] returns; when that throws, it turns emergency
    mode on unless it is on already, and returns the cached payload of the
    key, however old, or the empty array when there is none. *)
Theorem safeGetCachedSheetData_never_throws (E : Env) (sheetName : string)
    (w : World) :
  (exists w' rows, safeGetCachedSheetData E sheetName w = (w', Ok rows)) /\
  match getCachedSheetData E sheetName w with
  | (w1, Ok rows) => safeGetCachedSheetData E sheetName w = (w1, Ok rows)
  | (w1, Throw e) =>
      exists w2,
        safeGetCachedSheetData E sheetName w =
          (w2, Ok match getCache (sheetsService w1) (cacheKeyOf sheetName) with
                  | Some stale => stale
                  | None => []
                  end) /\
        emergencyMode (sheetsService w2) = true /\
        apiMonitor w2 = apiMonitor w1 /\ remote w2 = remote w1 /\
        sheetsService w2 =
          (if emergencyMode (sheetsService w1) then sheetsService w1
           else fst (setEmergencyMode true (sheetsService w1)))
  end.
Proof.
  split; [apply safeGetCachedSheetData_total|].
  destruct (getCachedSheetData E sheetName w) as [w1 [rows|e]] eqn:Hg.
  - now apply safeGetCachedSheetData_ok.
  - rewrite (safeGetCachedSheetData_caught _ _ _ _ _ Hg).
    eexists. split; [reflexivity|].
    destruct (emergencyMode (sheetsService w1)) eqn:Hem; simpl; auto.
Qed.

(** ** Work-session status *)

Lemma getEmployeeStatus_of_rows (E : Env) (employee : string) (w w1 : World)
    (rows : list Row) :
  safeGetCachedSheetData E CONFIG.ON_WORK w = (w1, Ok rows) ->
  getEmployeeStatus E employee w =
  (w1, Ok match List.find (matchesSession employee) rows with
          | Some found =>
              {| isOnWork := true;
                 workRecord := Some
                   {| WorkRecord.row := found;
                      WorkRecord.mainRowIndex :=
                        match numericRef (get found Header.rowRef) with
                        | Some n => Some n
                        | None => numericRef (get found Header.rowInMain)
                        end;
                      WorkRecord.clockIn := get found Header.clockIn;
                      WorkRecord.systemName := get found Header.systemName;
                      WorkRecord.employeeName := get found Header.employeeName |} |}
          | None => notWorking
          end).
Proof.
  intros Hs. unfold getEmployeeStatus, getEmployeeStatusFrom, try_catch.
  rewrite (bind_ok _ _ _ _ _ Hs).
  destruct rows as [|r rows]; [reflexivity|].
  cbn [length Nat.eqb].
  now destruct (List.find (matchesSession employee) (r :: rows)).
Qed.

Lemma getEmployeeStatus_total (E : Env) (employee : string) (w : World) :
  exists w' st, getEmployeeStatus E employee w = (w', Ok st).
Proof.
  destruct (safeGetCachedSheetData_total E CONFIG.ON_WORK w) as (w1 & rows & Hs).
  rewrite (getEmployeeStatus_of_rows _ _ _ _ _ Hs). eauto.
Qed.

Lemma getEmployeeStatus_working (E : Env) (employee : string) (w w1 : World)
    (wr : WorkRecord) :
  getEmployeeStatus E employee w =
    (w1, Ok {| isOnWork := true; workRecord := Some wr |}) ->
  matchesSession employee (WorkRecord.row wr) = true /\
  WorkRecord.clockIn wr = get (WorkRecord.row wr) Header.clockIn /\
  exists rows, safeGetCachedSheetData E CONFIG.ON_WORK w = (w1, Ok rows) /\
               In (WorkRecord.row wr) rows.
Proof.
  destruct (safeGetCachedSheetData_total E CONFIG.ON_WORK w) as (w' & rows & Hs).
  rewrite (getEmployeeStatus_of_rows _ _ _ _ _ Hs).
  destruct (List.find (matchesSession employee) rows) as [found|] eqn:Hf;
    [|discriminate].
  intros [= <- <-]. simpl. apply find_some in Hf as [Hin Hm].
  repeat split; eauto.
Qed.

Lemma getEmployeeStatusFrom_caught (fetch : M (list Row)) (employee : string)
    (w w1 : World) (e : string) :
  fetch w = (w1, Throw e) ->
  getEmployeeStatusFrom fetch employee w = (w1, Ok notWorking).
Proof.
  intros Hf. unfold getEmployeeStatusFrom.
  now rewrite (try_catch_throw _ _ _ _ _ (bind_throw _ _ _ _ _ Hf)).
Qed.

Lemma getEmployeeStatus_no_data (E : Env) (employee : string) (w w1 : World)
    (e : string) :
  getCachedSheetData E CONFIG.ON_WORK w = (w1, Throw e) ->
  getCache (sheetsService w1) (cacheKeyOf CONFIG.ON_WORK) = None ->
  snd (getEmployeeStatus E employee w) = Ok notWorking.
Proof.
  intros Hg Hn.
  pose proof (safeGetCachedSheetData_caught _ _ _ _ _ Hg) as Hs.
  rewrite Hn in Hs. now rewrite (getEmployeeStatus_of_rows _ _ _ _ _ Hs).
Qed.

(** ** Code that leaves the remote sheets, or a part of them, alone *)

Section Frame.
Context {X : Type} (part : Sheets -> X).

Abbreviation keeps := (keeps part).

Lemma keeps_ret {A} (a : A) : keeps (mret a).
Proof. now intros w. Qed.

Lemma keeps_throw {A} (e : string) : keeps (@throw A e).
Proof. now intros w. Qed.

Lemma keeps_lift {A} (r : result A) : keeps (liftResult r).
Proof. now intros w. Qed.

Lemma keeps_onService {A}
    (f : GoogleSheetsService -> GoogleSheetsService * result A) :
  keeps (onService f).
Proof. intros w. unfold onService. now destruct (f (sheetsService w)). Qed.

Lemma keeps_readService {A} (f : GoogleSheetsService -> A) :
  keeps (readService f).
Proof. now intros w. Qed.

Lemma keeps_onMonitor {A} (f : APIMonitor -> A * APIMonitor) :
  keeps (onMonitor f).
Proof. intros w. unfold onMonitor. now destruct (f (apiMonitor w)). Qed.

Lemma keeps_onRemote (f : Sheets -> Sheets) :
  (forall sh, part (f sh) = part sh) -> keeps (onRemote f).
Proof. intros Hf w. apply Hf. Qed.

Lemma keeps_bind {A B} (c : M A) (f : A -> M B) :
  keeps c -> (forall a, keeps (f a)) -> keeps (c ≫= f).
Proof.
  intros Hc Hf w. unfold mbind, M_bind. specialize (Hc w).
  destruct (c w) as [w1 [a|e]]; simpl in *; [|assumption].
  now rewrite Hf.
Qed.

Lemma keeps_try_catch {A} (c : M A) (h : string -> M A) :
  keeps c -> (forall e, keeps (h e)) -> keeps (try_catch c h).
Proof.
  intros Hc Hh w. unfold try_catch. specialize (Hc w).
  destruct (c w) as [w1 [a|e]]; simpl in *; [assumption|].
  now rewrite Hh.
Qed.

Lemma kept_of_run {A} (c : M A) (w w' : World) (r : result A) :
  keeps c -> c w = (w', r) -> part (remote w') = part (remote w).
Proof. intros Hk Hc. specialize (Hk w). now rewrite Hc in Hk. Qed.

End Frame.

Ltac keeps_step :=
  first
    [ apply keeps_ret | apply keeps_throw | apply keeps_lift
    | apply keeps_onService | apply keeps_readService | apply keeps_onMonitor
    | apply keeps_bind; [|intros ?]
    | apply keeps_try_catch; [|intros ?]
    | match goal with
      | |- keeps _ (if ?b then _ else _) => destruct b
      | |- keeps _ (match ?x with _ => _ end) => destruct x
      end ].

Ltac keeps_all := repeat keeps_step.

Lemma keeps_getCachedSheetData {X} (part : Sheets -> X) (E : Env) (sheetName : string) :
  keeps part (getCachedSheetData E sheetName).
Proof. unfold getCachedSheetData, payload. keeps_all. Qed.

Lemma keeps_safeGetCachedSheetData {X} (part : Sheets -> X) (E : Env)
    (sheetName : string) :
  keeps part (safeGetCachedSheetData E sheetName).
Proof.
  unfold safeGetCachedSheetData.
  apply keeps_try_catch; [apply keeps_getCachedSheetData|].
  intros e. keeps_all.
Qed.

Lemma keeps_getEmployeeStatus {X} (part : Sheets -> X) (E : Env) (employee : string) :
  keeps part (getEmployeeStatus E employee).
Proof.
  unfold getEmployeeStatus, getEmployeeStatusFrom.
  apply keeps_try_catch; [|intros; keeps_all].
  apply keeps_bind; [apply keeps_safeGetCachedSheetData|].
  intros rows. keeps_all.
Qed.

Lemma keeps_clearAfterWrite {X} (part : Sheets -> X) (keys : list string) :
  keeps part (clearAfterWrite keys).
Proof. induction keys as [|k keys IH]; simpl; keeps_all. exact IH. Qed.

(** ** Writing cells *)

Lemma lastValue_snoc (col : string) (updates : list (string * string))
    (u : string * string) :
  lastValue col (updates ++ [u]) =
  if String.eqb (fst u) col then Some (snd u) else lastValue col updates.
Proof.
  unfold lastValue. rewrite rev_app_distr. simpl.
  now destruct (String.eqb (fst u) col).
Qed.

Lemma writeCells_lookup (n : Z) (updates : list (string * string)) (sh : Sheets)
    (col : string) (r : Z) :
  mainCells (writeCells n updates sh) !! (col, r) =
  if decide (r = n) then
    match lastValue col updates with
    | Some v => Some v
    | None => mainCells sh !! (col, r)
    end
  else mainCells sh !! (col, r).
Proof.
  unfold writeCells. simpl.
  induction updates as [|u updates IH] using rev_ind.
  - simpl. now destruct (decide (r = n)).
  - rewrite fold_left_app, lastValue_snoc. simpl.
    destruct (decide ((fst u, n) = (col, r))) as [Heq|Hne].
    + injection Heq as Hc <-. rewrite <- Hc, lookup_insert_eq, String.eqb_refl.
      now destruct (decide (n = n)).
    + rewrite lookup_insert_ne by assumption. rewrite IH.
      destruct (decide (r = n)) as [->|]; [|reflexivity].
      destruct (String.eqb_spec (fst u) col) as [Hc|]; [|reflexivity].
      now rewrite Hc in Hne.
Qed.

Lemma writeCells_onWorkSheet (n : Z) (updates : list (string * string)) (sh : Sheets) :
  onWorkSheet (writeCells n updates sh) = onWorkSheet sh.
Proof. reflexivity. Qed.

Lemma clockIn_after_status `{TimeLib} (E : Env) (d : ClockData) (w w1 : World)
    (st : EmployeeStatus) :
  getEmployeeStatus E (employee d) w = (w1, Ok st) ->
  isOnWork st = false ->
  exists w' res,
    clockIn E d w = (w', Ok res) /\
    (success res = false -> currentStatus res = None) /\
    (forall n, getSheet E CONFIG.MAIN = Ok tt -> addRow E CONFIG.MAIN = Ok n ->
       mainCells (remote w') =
       mainCells (writeCells n (clockInCells d (resolveTimestamp E (mock_time d))
                                             (locationName E)) (remote w))).
Proof.
  intros Hst Hoff. unfold clockIn.
  pose proof (kept_of_run id _ _ _ _ (keeps_getEmployeeStatus id E (employee d)) Hst)
    as Hr. simpl in Hr.
  match goal with |- context [try_catch (_ ≫= ?f) ?h] =>
    set (rest := f); set (handler := h) end.
  assert (Hbody : (getEmployeeStatus E (employee d) ≫= rest) w = rest st w1)
    by now apply bind_ok.
  unfold try_catch. rewrite Hbody. subst rest. cbv beta. rewrite Hoff.
  set (ts := resolveTimestamp E (mock_time d)).
  match goal with |- context [(_ ≫= fun _ => (?c ≫= ?f)) w1] =>
    set (add := c); set (next := f) end.
  destruct (getSheet E CONFIG.MAIN) as [[]|e1] eqn:Hsheet.
  2:{ unfold mbind at 1, M_bind at 1, liftResult at 1. subst handler. simpl.
      do 2 eexists. split; [reflexivity|]. split; [reflexivity|].
      intros n Hn. discriminate. }
  unfold mbind at 1, M_bind at 1, liftResult at 1.
  subst add. destruct (addRow E CONFIG.MAIN) as [n|e2] eqn:Hadd.
  2:{ unfold mbind at 1, M_bind at 1, liftResult at 1. subst handler. simpl.
      do 2 eexists. split; [reflexivity|]. split; [reflexivity|].
      intros n _ Hn. discriminate. }
  unfold mbind at 1, M_bind at 1, liftResult at 1. subst next. cbv beta.
  match goal with |- context [(onRemote ?g ≫= ?f) w1] =>
    set (tail := f); set (write := g) end.
  unfold mbind at 1, M_bind at 1, onRemote at 1.
  set (w2 := {| sheetsService := sheetsService w1; apiMonitor := apiMonitor w1;
                remote := write (remote w1) |}).
  assert (Hk : keeps mainCells (tail tt)).
  { subst tail. cbv beta. keeps_all;
      first [apply keeps_onRemote; reflexivity | apply keeps_clearAfterWrite]. }
  pose proof (Hk w2) as Hm.
  destruct (tail tt w2) as [w3 [res|e3]] eqn:Htail; simpl in Hm.
  - exists w3, res. split; [reflexivity|]. split.
    + subst tail. revert Htail. cbv beta. munfold.
      repeat match goal with
             | |- context [match ?x with _ => _ end] => destruct x
             end; try discriminate; intros [= <- <-]; discriminate.
    + intros n' _ [= <-]. rewrite Hm. subst w2 write. simpl. now rewrite Hr.
  - subst handler. simpl. exists w3, (clockOutFailed (employee d) e3).
    split; [reflexivity|]. split; [reflexivity|].
    intros n' _ [= <-]. rewrite Hm. subst w2 write. simpl. now rewrite Hr.
Qed.

Lemma getEmployeeStatus_stale (E : Env) (employee : string) (w w1 : World)
    (e : string) (stale : list Row) (st : EmployeeStatus) :
  getCachedSheetData E CONFIG.ON_WORK w = (w1, Throw e) ->
  getCache (sheetsService w1) (cacheKeyOf CONFIG.ON_WORK) = Some stale ->
  snd (getEmployeeStatus E employee w) = Ok st ->
  isOnWork st = existsb (matchesSession employee) stale.
Proof.
  intros Hg Hc.
  pose proof (safeGetCachedSheetData_caught _ _ _ _ _ Hg) as Hs.
  rewrite Hc in Hs. rewrite (getEmployeeStatus_of_rows _ _ _ _ _ Hs). simpl.
  destruct (List.find (matchesSession employee) stale) as [found|] eqn:Hf;
    intros [= <-]; simpl; symmetry.
  - apply find_some in Hf as [Hin Hm]. apply existsb_exists. eauto.
  - apply not_true_is_false. intros (x & Hin & Hm)%existsb_exists.
    now rewrite (find_none _ _ Hf x Hin) in Hm.
Qed.

(** C9 (as amended): [getEmployeeStatus] never throws.  An exception
    raised by the call it awaits is answered with
    [{ isOnWork: false, workRecord: null }].  When the fetch of the open
    sessions fails and the cache holds no payload for them, the answer is
    that same value, as for an employee who is not clocked in, and a
    [clockIn] for that employee is not turned down as already clocked in:
    it goes on to append the ledger row.  When the fetch fails and the
    cache holds a payload, however old, the status is the one computed
    from that payload. *)
Theorem getEmployeeStatus_never_throws :
  (forall (E : Env) (employee : string) (w : World),
      exists w' st, getEmployeeStatus E employee w = (w', Ok st)) /\
  (forall (fetch : M (list Row)) (employee : string) (w w1 : World) (e : string),
      fetch w = (w1, Throw e) ->
      getEmployeeStatusFrom fetch employee w = (w1, Ok notWorking)) /\
  (forall (E : Env) (employee : string) (w w1 : World) (e : string),
      getCachedSheetData E CONFIG.ON_WORK w = (w1, Throw e) ->
      (getCache (sheetsService w1) "onwork" = None ->
       snd (getEmployeeStatus E employee w) = Ok notWorking) /\
      (forall stale st,
          getCache (sheetsService w1) "onwork" = Some stale ->
          snd (getEmployeeStatus E employee w) = Ok st ->
          isOnWork st = existsb (matchesSession employee) stale)) /\
  (forall (T : TimeLib) (E : Env) (d : ClockData) (w : World),
      snd (getEmployeeStatus E (employee d) w) = Ok notWorking ->
      exists w' res,
        clockIn E d w = (w', Ok res) /\
        (success res = false -> currentStatus res = None) /\
        (forall n, getSheet E CONFIG.MAIN = Ok tt ->
                   addRow E CONFIG.MAIN = Ok n ->
                   mainCells (remote w') !! ("A", n) = Some (employee d) /\
                   mainCells (remote w') !! ("D", n)
                     = Some (resolveTimestamp E (mock_time d)))).
Proof.
  split; [exact getEmployeeStatus_total|].
  split; [exact getEmployeeStatusFrom_caught|].
  split.
  { intros E employee w w1 e Hg. split.
    - exact (getEmployeeStatus_no_data E employee w w1 e Hg).
    - intros stale st. exact (getEmployeeStatus_stale E employee w w1 e stale st Hg). }
  intros T E d w Hst.
  destruct (getEmployeeStatus E (employee d) w) as [w1 r] eqn:Hrun.
  simpl in Hst. subst r.
  destruct (clockIn_after_status E d w w1 notWorking Hrun eq_refl)
    as (w' & res & Hc & Hrej & Hcells).
  exists w', res. split; [assumption|]. split; [assumption|].
  intros n Hs Ha. rewrite (Hcells n Hs Ha), !writeCells_lookup.
  destruct (decide (n = n)); [|congruence]. split; reflexivity.
Qed.

(** C9, as stated, fails: the open sessions were cached at 08:00 with
    Somchai among them; at 13:00 the entry has expired and reading the
    sheet fails with a network error.  The status is computed from the
    stale payload, Somchai is reported on work, and his clock-in is
    turned down. *)
Lemma stale_sessions_report_on_work :
  let sessions := [Scenario.sessionRow 3 "Somchai" "2025-01-01 08:00:00" "2"] in
  let E := Scenario.unreadable "socket hang up"
             (Scenario.calm Scenario.t1300 sessions []) in
  let w := Scenario.cachedAt0800 sessions in
  snd (getCachedSheetData E CONFIG.ON_WORK w) = Throw "socket hang up" /\
  (exists wr, snd (getEmployeeStatus E "Somchai" w)
              = Ok {| isOnWork := true; workRecord := Some wr |}) /\
  snd (@clockIn Bangkok.time E Scenario.somchai w)
    = Ok (alreadyClockedIn "Somchai"
            {| isOnWork := true;
               workRecord := Some
                 {| WorkRecord.row := Scenario.sessionRow 3 "Somchai" "2025-01-01 08:00:00" "2";
                    WorkRecord.mainRowIndex := Some 2;
                    WorkRecord.clockIn := Some "2025-01-01 08:00:00";
                    WorkRecord.systemName := Some "Somchai";
                    WorkRecord.employeeName := Some "Somchai" |} |}).
Proof.
  cbv zeta. split; [vm_compute; reflexivity|]. split.
  - eexists. vm_compute. reflexivity.
  - vm_compute. reflexivity.
Qed.

(** ** Clock-out *)

Lemma fst_try_catch_unit (c : M unit) (w : World) :
  try_catch c (fun _ => mret tt) w = (fst (c w), Ok tt).
Proof. unfold try_catch. now destruct (c w) as [w' [[]|e]]. Qed.

(** [clockOut], once the employee is reported on work with the record
    [wr], MAIN is reachable and its rows have been obtained. *)
Lemma clockOut_after_status `{TimeLib} (E : Env) (d : ClockData) (w w1 w2 : World)
    (wr : WorkRecord) (rows : list Row) :
  getEmployeeStatus E (employee d) w =
    (w1, Ok {| isOnWork := true; workRecord := Some wr |}) ->
  getSheet E CONFIG.MAIN = Ok tt ->
  getCachedSheetData E CONFIG.MAIN w1 = (w2, Ok rows) ->
  clockOut E d w =
  match findMainRow (employee d) wr rows with
  | None => (w2, Ok (noMatchingRecord (employee d)))
  | Some mainRow =>
      match saveCells E (rowNumber mainRow) with
      | Throw e => (w2, Ok (clockOutFailed (employee d) (Msg.cannotUpdate ++ e)))
      | Ok _ =>
          let w3 := withRemote (writeCells (rowNumber mainRow) (clockOutBatch E d wr)) w2 in
          (match deleteRow E (WorkRecord.row wr) with
           | Throw _ => w3
           | Ok _ => fst (clearAfterWrite ["onwork"; "main"; "stats"]
                            (withRemote (removeRow (WorkRecord.row wr)) w3))
           end,
           Ok (clockedOut (employee d) (clockOutStamp E d) (clockOutHours E d wr)))
      end
  end.
Proof.
  intros Hst Hsheet Hrows. unfold clockOut.
  match goal with |- try_catch (_ ≫= ?f) ?h w = _ =>
    set (rest := f); set (handler := h) end.
  unfold try_catch. rewrite (bind_ok _ rest _ _ _ Hst). subst rest. cbv beta.
  cbn [isOnWork workRecord negb]. rewrite Hsheet.
  unfold mbind at 1, M_bind at 1, liftResult at 1.
  match goal with |- context [(getCachedSheetData E CONFIG.MAIN ≫= ?f) w1] =>
    set (rest := f) end.
  rewrite (bind_ok _ rest _ _ _ Hrows). subst rest. cbv beta.
  fold (clockOutStamp E d). fold (clockOutHours E d wr).
  destruct (findMainRow (employee d) wr rows) as [mainRow|]; [|reflexivity].
  unfold updateMainRow. rewrite Hsheet.
  fold (clockOutBatch E d wr).
  destruct (saveCells E (rowNumber mainRow)) as [[]|e] eqn:Hsave.
  - unfold mbind at 1, M_bind at 1. 
    unfold try_catch at 1, mbind at 1, M_bind at 1, liftResult at 1.
    unfold mbind at 1, M_bind at 1, liftResult at 1.
    unfold onRemote at 1. cbv beta iota.
    unfold mbind at 1, M_bind at 1. rewrite fst_try_catch_unit.
    cbv beta iota. unfold mret, M_ret. f_equal.
    unfold deleteSession.
    destruct (deleteRow E (WorkRecord.row wr)) as [[]|e]; reflexivity.
  - subst handler. reflexivity.
Qed.

(** *** The four stages *)

Lemma rowByIndex_Some (employee : string) (wr : WorkRecord) (rows : list Row) (r : Row) :
  rowByIndex employee wr rows = Some r <->
  exists idx, WorkRecord.mainRowIndex wr = Some idx /\ 1 < idx /\
              rows !! Z.to_nat (idx - 2) = Some r /\
              isNameMatch (Some employee) (get r Header.employeeName) = true.
Proof.
  unfold rowByIndex. split.
  - destruct (WorkRecord.mainRowIndex wr) as [idx|]; [|discriminate].
    destruct (Z.ltb_spec 1 idx); [|rewrite andb_false_r; discriminate].
    destruct (negb (idx =? 0)); [|discriminate]. simpl.
    destruct ((0 <=? idx - 2) && (idx - 2 <? Z.of_nat (length rows))); [|discriminate].
    destruct (rows !! Z.to_nat (idx - 2)) as [c|] eqn:Hc; [|discriminate].
    destruct (isNameMatch _ _) eqn:Hn; [|discriminate].
    intros [= <-]. exists idx. auto.
  - intros (idx & -> & Hidx & Hr & Hn).
    pose proof (lookup_lt_Some _ _ _ Hr) as Hlt.
    destruct (Z.eqb_spec idx 0); [lia|]. destruct (Z.ltb_spec 1 idx); [|lia]. simpl.
    destruct (Z.leb_spec 0 (idx - 2)); [|lia].
    destruct (Z.ltb_spec (idx - 2) (Z.of_nat (length rows))); [|lia]. simpl.
    now rewrite Hr, Hn.
Qed.

Lemma closerRow_timeDiff `{TimeLib} (clockInTime : option string)
    (st : option Row * option Z) (r : Row) :
  closerRow clockInTime st r =
  match timeDiff clockInTime r with
  | Some t =>
      if match snd st with None => true | Some m => t <? m end
      then (Some r, Some t) else st
  | None => st
  end.
Proof.
  unfold closerRow, timeDiff.
  destruct (Js.truthy (get r Header.clockIn) && Js.truthy clockInTime); [|reflexivity].
  destruct (Date_parse (Js.str (get r Header.clockIn))); [|reflexivity].
  now destruct (Date_parse (Js.str clockInTime)).
Qed.

Lemma nearestOf_step `{TimeLib} (clockInTime : option string) (seen : list Row)
    (st : option Row * option Z) (r : Row) :
  nearestOf clockInTime seen st ->
  nearestOf clockInTime (seen ++ [r]) (closerRow clockInTime st r).
Proof.
  rewrite closerRow_timeDiff. destruct st as [[b|] [m|]]; simpl; try contradiction.
  - intros (Hin & Hb & Hmin).
    destruct (timeDiff clockInTime r) as [t|] eqn:Ht.
    + destruct (Z.ltb_spec t m); simpl.
      * split; [apply in_or_app; right; now left|]. split; [assumption|].
        intros c t' [Hc|[<-|[]]]%in_app_or Hc'.
        -- specialize (Hmin c t' Hc Hc'). lia.
        -- rewrite Ht in Hc'. injection Hc' as <-. lia.
      * split; [apply in_or_app; now left|]. split; [assumption|].
        intros c t' [Hc|[<-|[]]]%in_app_or Hc'.
        -- exact (Hmin c t' Hc Hc').
        -- rewrite Ht in Hc'. now injection Hc' as <-.
    + simpl. split; [apply in_or_app; now left|]. split; [assumption|].
      intros c t' [Hc|[<-|[]]]%in_app_or Hc'; [exact (Hmin c t' Hc Hc')|congruence].
  - intros Hnone. destruct (timeDiff clockInTime r) as [t|] eqn:Ht; simpl.
    + split; [apply in_or_app; right; now left|]. split; [assumption|].
      intros c t' [Hc|[<-|[]]]%in_app_or Hc'.
      * rewrite (Hnone c Hc) in Hc'. discriminate.
      * rewrite Ht in Hc'. injection Hc' as <-. lia.
    + intros c [Hc|[<-|[]]]%in_app_or; [now apply Hnone|assumption].
Qed.

Lemma nearestOf_fold `{TimeLib} (clockInTime : option string) (l seen : list Row)
    (st : option Row * option Z) :
  nearestOf clockInTime seen st ->
  nearestOf clockInTime (seen ++ l) (fold_left (closerRow clockInTime) l st).
Proof.
  revert seen st. induction l as [|r l IH]; intros seen st Hst; simpl.
  - now rewrite app_nil_r.
  - replace (seen ++ r :: l)%list with ((seen ++ [r]) ++ l)%list
      by now rewrite <- app_assoc.
    apply IH. now apply nearestOf_step.
Qed.

Lemma rowByName_nearest `{TimeLib} (employee : string) (clockInTime : option string)
    (rows : list Row) (r : Row) :
  (2 <= length (candidateRows employee rows))%nat ->
  rowByName employee clockInTime rows = Some r ->
  In r (candidateRows employee rows) /\
  exists t, timeDiff clockInTime r = Some t /\ t < 300000 /\
            forall c t', In c (candidateRows employee rows) ->
                         timeDiff clockInTime c = Some t' -> t <= t'.
Proof.
  unfold rowByName. intros Hlen.
  pose proof (nearestOf_fold clockInTime (candidateRows employee rows) [] (None, None))
    as Hinv. simpl in Hinv.
  destruct (candidateRows employee rows) as [|c1 [|c2 l]] eqn:Hc;
    [simpl in Hlen; lia|simpl in Hlen; lia|].
  specialize (Hinv (fun _ F => match F with end)).
  destruct (fold_left _ _ _) as [[b|] [m|]]; try discriminate.
  destruct (Z.ltb_spec m 300000); [|discriminate].
  intros [= <-]. destruct Hinv as (Hin & Hb & Hmin). eauto.
Qed.

Lemma rowByName_within `{TimeLib} (employee : string) (clockInTime : option string)
    (rows : list Row) (c : Row) (t : Z) :
  (2 <= length (candidateRows employee rows))%nat ->
  In c (candidateRows employee rows) ->
  timeDiff clockInTime c = Some t -> t < 300000 ->
  exists r, rowByName employee clockInTime rows = Some r.
Proof.
  unfold rowByName. intros Hlen Hin Ht Hlt.
  pose proof (nearestOf_fold clockInTime (candidateRows employee rows) [] (None, None))
    as Hinv. simpl in Hinv.
  destruct (candidateRows employee rows) as [|c1 [|c2 l]] eqn:Hc;
    [simpl in Hlen; lia|simpl in Hlen; lia|].
  specialize (Hinv (fun _ F => match F with end)).
  destruct (fold_left _ _ _) as [[b|] [m|]]; simpl in Hinv; try contradiction.
  - destruct Hinv as (_ & _ & Hmin). specialize (Hmin c t Hin Ht).
    destruct (Z.ltb_spec m 300000); [eauto|lia].
  - rewrite (Hinv c Hin) in Ht. discriminate.
Qed.

Lemma find_split {A} (p : A -> bool) (l : list A) (x : A) :
  List.find p l = Some x ->
  exists l1 l2, l = (l1 ++ x :: l2)%list /\ p x = true /\
                forall y, In y l1 -> p y = false.
Proof.
  induction l as [|a l IH]; simpl; [discriminate|].
  destruct (p a) eqn:Ha.
  - intros [= <-]. exists [], l. repeat split; [assumption|intros y []].
  - intros (l1 & l2 & -> & Hx & Hl1)%IH. exists (a :: l1), l2.
    repeat split; [assumption|]. intros y [<-|Hy]; auto.
Qed.

Lemma latestOpenRow_last (employee : string) (rows : list Row) (r : Row) :
  latestOpenRow employee rows = Some r ->
  exists before after, rows = (before ++ r :: after)%list /\
                       isOpenRowOf employee r = true /\
                       forall x, In x after -> isOpenRowOf employee x = false.
Proof.
  unfold latestOpenRow. intros (l1 & l2 & Hrev & Hr & Hl1)%find_split.
  exists (rev l2), (rev l1). split.
  - rewrite <- (rev_involutive rows), Hrev, rev_app_distr. simpl.
    now rewrite <- app_assoc.
  - split; [assumption|]. intros x Hx. apply Hl1. now apply in_rev.
Qed.

Lemma latestOpenRow_None (employee : string) (rows : list Row) :
  latestOpenRow employee rows = None <-> candidateRows employee rows = [].
Proof.
  unfold latestOpenRow, candidateRows. split.
  - intros Hf. apply filter_none. intros x Hx.
    apply (find_none _ _ Hf). now apply in_rev in Hx.
  - intros Hc. destruct (List.find _ _) as [x|] eqn:Hf; [|reflexivity].
    apply find_some in Hf as [Hin Hp]. apply in_rev in Hin.
    assert (In x (List.filter (isOpenRowOf employee) rows)) as Hx
        by (apply filter_In; auto).
    now rewrite Hc in Hx.
Qed.

Lemma findMainRow_None `{TimeLib} (employee : string) (wr : WorkRecord)
    (rows : list Row) :
  findMainRow employee wr rows = None <->
  rowByIndex employee wr rows = None /\ candidateRows employee rows = [].
Proof.
  unfold findMainRow. split.
  - destruct (rowByIndex employee wr rows); [discriminate|].
    destruct (rowByName _ _ _); [discriminate|].
    intros Hl. split; [reflexivity|]. now apply latestOpenRow_None.
  - intros [-> Hc]. unfold rowByName. rewrite Hc. now apply latestOpenRow_None.
Qed.

Lemma findMainRow_unique `{TimeLib} (employee : string) (wr : WorkRecord)
    (rows : list Row) (r : Row) :
  candidateRows employee rows = [r] ->
  rowByIndex employee wr rows = None \/ rowByIndex employee wr rows = Some r ->
  findMainRow employee wr rows = Some r.
Proof.
  intros Hc [Hi|Hi]; unfold findMainRow; rewrite Hi; [|reflexivity].
  unfold rowByName. now rewrite Hc.
Qed.

Lemma remote_getEmployeeStatus (E : Env) (employee : string) (w w1 : World)
    (r : result EmployeeStatus) :
  getEmployeeStatus E employee w = (w1, r) -> remote w1 = remote w.
Proof. exact (kept_of_run id _ _ _ _ (keeps_getEmployeeStatus id E employee)). Qed.

Lemma remote_getCachedSheetData (E : Env) (sheetName : string) (w w1 : World)
    (r : result (list Row)) :
  getCachedSheetData E sheetName w = (w1, r) -> remote w1 = remote w.
Proof. exact (kept_of_run id _ _ _ _ (keeps_getCachedSheetData id E sheetName)). Qed.

Lemma clockOut_mainCells `{TimeLib} (E : Env) (d : ClockData) (w w1 w2 : World)
    (wr : WorkRecord) (rows : list Row) (mainRow : Row) :
  getEmployeeStatus E (employee d) w =
    (w1, Ok {| isOnWork := true; workRecord := Some wr |}) ->
  getSheet E CONFIG.MAIN = Ok tt ->
  getCachedSheetData E CONFIG.MAIN w1 = (w2, Ok rows) ->
  findMainRow (employee d) wr rows = Some mainRow ->
  saveCells E (rowNumber mainRow) = Ok tt ->
  snd (clockOut E d w)
    = Ok (clockedOut (employee d) (clockOutStamp E d) (clockOutHours E d wr)) /\
  mainCells (remote (fst (clockOut E d w)))
    = mainCells (writeCells (rowNumber mainRow) (clockOutBatch E d wr) (remote w)).
Proof.
  intros Hst Hsheet Hrows Hfind Hsave.
  rewrite (clockOut_after_status E d w w1 w2 wr rows Hst Hsheet Hrows), Hfind, Hsave.
  cbv zeta. split; [reflexivity|]. cbn [fst].
  assert (Hw : remote w2 = remote w).
  { rewrite (remote_getCachedSheetData _ _ _ _ _ Hrows).
    exact (remote_getEmployeeStatus _ _ _ _ _ Hst). }
  destruct (deleteRow E (WorkRecord.row wr)) as [[]|e].
  - rewrite (keeps_clearAfterWrite mainCells). simpl. now rewrite Hw.
  - simpl. now rewrite Hw.
Qed.

(** C1 (as amended): once the employee is reported on work, [clockOut]
    looks for the ledger row to close in four stages, in order, and stops
    at the first that yields a row: (1) the row at the stored index,
    accepted only if its employee name matches the input name; (2) the
    only row with an empty clock-out and a matching name, when there is
    exactly one; (3) when there are several, the one whose clock-in is
    nearest to the session's, accepted only if the distance is under
    300000 ms; (4) the last row of the ledger with an empty clock-out and
    a matching name.  If no stage yields a row, [clockOut] returns the
    unsuccessful "no matching record" result and writes nothing to the
    sheets.  The row found is the one whose cells are written.  When the
    ledger holds exactly one open row for the employee, that row is the
    one closed provided the first stage yields nothing or that row: the
    first stage does not look at the clock-out value, and a stored index
    that points at another row bearing a matching name wins. *)
Theorem clockOut_locates_ledger_row `{TimeLib} (E : Env) (d : ClockData)
    (w w1 w2 : World) (wr : WorkRecord) (rows : list Row) :
  getEmployeeStatus E (employee d) w =
    (w1, Ok {| isOnWork := true; workRecord := Some wr |}) ->
  getSheet E CONFIG.MAIN = Ok tt ->
  getCachedSheetData E CONFIG.MAIN w1 = (w2, Ok rows) ->
  (forall r, rowByIndex (employee d) wr rows = Some r ->
             findMainRow (employee d) wr rows = Some r) /\
  (forall r, rowByIndex (employee d) wr rows = None ->
             candidateRows (employee d) rows = [r] ->
             findMainRow (employee d) wr rows = Some r) /\
  (forall r, rowByIndex (employee d) wr rows = None ->
             (2 <= length (candidateRows (employee d) rows))%nat ->
             rowByName (employee d) (WorkRecord.clockIn wr) rows = Some r ->
             findMainRow (employee d) wr rows = Some r) /\
  (rowByIndex (employee d) wr rows = None ->
   rowByName (employee d) (WorkRecord.clockIn wr) rows = None ->
   findMainRow (employee d) wr rows = latestOpenRow (employee d) rows) /\
  (forall r, rowByIndex (employee d) wr rows = Some r <->
             exists idx, WorkRecord.mainRowIndex wr = Some idx /\ 1 < idx /\
                         rows !! Z.to_nat (idx - 2) = Some r /\
                         isNameMatch (Some (employee d)) (get r Header.employeeName)
                           = true) /\
  (forall r, (2 <= length (candidateRows (employee d) rows))%nat ->
             rowByName (employee d) (WorkRecord.clockIn wr) rows = Some r ->
             In r (candidateRows (employee d) rows) /\
             exists t, timeDiff (WorkRecord.clockIn wr) r = Some t /\ t < 300000 /\
                       forall c t', In c (candidateRows (employee d) rows) ->
                                    timeDiff (WorkRecord.clockIn wr) c = Some t' ->
                                    t <= t') /\
  (forall c t, (2 <= length (candidateRows (employee d) rows))%nat ->
               In c (candidateRows (employee d) rows) ->
               timeDiff (WorkRecord.clockIn wr) c = Some t -> t < 300000 ->
               exists r, rowByName (employee d) (WorkRecord.clockIn wr) rows = Some r) /\
  (forall r, latestOpenRow (employee d) rows = Some r ->
             exists before after,
               rows = (before ++ r :: after)%list /\
               isOpenRowOf (employee d) r = true /\
               forall x, In x after -> isOpenRowOf (employee d) x = false) /\
  (findMainRow (employee d) wr rows = None <->
   rowByIndex (employee d) wr rows = None /\ candidateRows (employee d) rows = []) /\
  (findMainRow (employee d) wr rows = None ->
   clockOut E d w = (w2, Ok (noMatchingRecord (employee d))) /\
   remote w2 = remote w) /\
  (forall r, findMainRow (employee d) wr rows = Some r ->
             saveCells E (rowNumber r) = Ok tt ->
             success <$> match snd (clockOut E d w) with
                         | Ok res => Some res
                         | Throw _ => None
                         end = Some true /\
             mainCells (remote (fst (clockOut E d w))) !! ("F", rowNumber r)
               = Some (clockOutStamp E d)) /\
  (forall r, candidateRows (employee d) rows = [r] ->
             rowByIndex (employee d) wr rows = None \/
             rowByIndex (employee d) wr rows = Some r ->
             findMainRow (employee d) wr rows = Some r).
Proof.
  intros Hst Hsheet Hrows.
  split. { intros r Hi. unfold findMainRow. now rewrite Hi. }
  split. { intros r Hi Hc. apply findMainRow_unique; auto. }
  split. { intros r Hi _ Hn. unfold findMainRow. now rewrite Hi, Hn. }
  split. { intros Hi Hn. unfold findMainRow. now rewrite Hi, Hn. }
  split. { intros r. apply rowByIndex_Some. }
  split. { intros r. apply rowByName_nearest. }
  split. { intros c t. apply rowByName_within. }
  split. { intros r. apply latestOpenRow_last. }
  split. { apply findMainRow_None. }
  split.
  { intros Hnone.
    rewrite (clockOut_after_status E d w w1 w2 wr rows Hst Hsheet Hrows), Hnone.
    split; [reflexivity|].
    rewrite (remote_getCachedSheetData _ _ _ _ _ Hrows).
    exact (remote_getEmployeeStatus _ _ _ _ _ Hst). }
  split.
  { intros r Hfind Hsave.
    destruct (clockOut_mainCells E d w w1 w2 wr rows r Hst Hsheet Hrows Hfind Hsave)
      as [Hres Hcells].
    rewrite Hres, Hcells, writeCells_lookup. split; [reflexivity|].
    now destruct (decide (rowNumber r = rowNumber r)). }
  intros r. apply findMainRow_unique.
Qed.

(** The amended claim C1 on Somchai's afternoon: the stored index 3 points
    at his open row, which is found by the first stage and closed. *)
Lemma clockOut_locates_ledger_row_witness :
  findMainRow (H := Bangkok.time) "Somchai"
              (Scenario.afternoonRecord "3" (Some 3)) Scenario.twoShifts
    = Some (Scenario.ledgerRow 3 "Somchai" "2025-01-01 13:00:00" "") /\
  mainCells (remote (fst (clockOut (H := Bangkok.time) (Scenario.at1730 "3")
                                   Scenario.somchai
                                   (Scenario.started (Scenario.afternoon "3")))))
    !! ("F", 3) = Some "01/01/2025 17:30:00".
Proof.
  pose (E := Scenario.at1730 "3").
  pose (w := Scenario.started (Scenario.afternoon "3")).
  pose (w1 := fst (getEmployeeStatus E "Somchai" w)).
  pose (w2 := fst (getCachedSheetData E CONFIG.MAIN w1)).
  assert (Hst : getEmployeeStatus E (employee Scenario.somchai) w =
                (w1, Ok {| isOnWork := true;
                           workRecord := Some (Scenario.afternoonRecord "3" (Some 3)) |}))
    by (vm_compute; reflexivity).
  assert (Hrows : getCachedSheetData E CONFIG.MAIN w1 = (w2, Ok Scenario.twoShifts))
    by (vm_compute; reflexivity).
  pose proof (clockOut_locates_ledger_row (H := Bangkok.time) E Scenario.somchai
                w w1 w2 _ _ Hst eq_refl Hrows) as Hall.
  destruct Hall as (Hfirst & _ & _ & _ & _ & _ & _ & _ & _ & _ & Hclosed & _).
  assert (Hfind : findMainRow (H := Bangkok.time) "Somchai"
                    (Scenario.afternoonRecord "3" (Some 3)) Scenario.twoShifts
                  = Some (Scenario.ledgerRow 3 "Somchai" "2025-01-01 13:00:00" ""))
    by (apply Hfirst; vm_compute; reflexivity).
  split; [exact Hfind|].
  exact (proj2 (Hclosed _ Hfind eq_refl)).
Defined.

(** C1, as stated, fails on its last sentence.  Somchai's ledger holds
    exactly one open row, row 3, but his session stores the index 2, the
    row of his morning shift, closed at 12:00.  The first stage accepts
    row 2 because the name matches, and the clock-out overwrites its
    clock-out cell; the open row 3 is left open.  (The first stage reads
    no date, so the date library plays no part in the choice.) *)
Lemma clockOut_closes_indexed_row :
  let rows := Scenario.twoShifts in
  let w := Scenario.started (Scenario.afternoon "2") in
  let out := clockOut (H := Bangkok.time) (Scenario.at1730 "2") Scenario.somchai w in
  snd (getEmployeeStatus (Scenario.at1730 "2") "Somchai" w)
    = Ok {| isOnWork := true;
            workRecord := Some (Scenario.afternoonRecord "2" (Some 2)) |} /\
  candidateRows "Somchai" rows
    = [Scenario.ledgerRow 3 "Somchai" "2025-01-01 13:00:00" ""] /\
  rowByIndex "Somchai" (Scenario.afternoonRecord "2" (Some 2)) rows
    = Some (Scenario.ledgerRow 2 "Somchai" "2025-01-01 08:00:00" "01/01/2025 12:00:00") /\
  success <$> match snd out with Ok res => Some res | Throw _ => None end
    = Some true /\
  mainCells (remote (fst out)) !! ("F", 2) = Some "01/01/2025 17:30:00" /\
  mainCells (remote (fst out)) !! ("F", 3) = None.
Proof. vm_compute. repeat split; reflexivity. Qed.

(** C8 (as amended): a successful [clockOut] writes exactly four cells of
    the row it located, F (clock-out time), I (exit coordinates), J (exit
    location) and K (worked hours), one cell at a time.  The clock-in
    cell D and every other cell of the sheet keep the value they had. *)
Theorem clockOut_writes_four_cells `{TimeLib} (E : Env) (d : ClockData)
    (w w1 w2 : World) (wr : WorkRecord) (rows : list Row) (mainRow : Row) :
  getEmployeeStatus E (employee d) w =
    (w1, Ok {| isOnWork := true; workRecord := Some wr |}) ->
  getSheet E CONFIG.MAIN = Ok tt ->
  getCachedSheetData E CONFIG.MAIN w1 = (w2, Ok rows) ->
  findMainRow (employee d) wr rows = Some mainRow ->
  saveCells E (rowNumber mainRow) = Ok tt ->
  let after := mainCells (remote (fst (clockOut E d w))) in
  let n := rowNumber mainRow in
  map fst (clockOutBatch E d wr) = ["F"; "I"; "J"; "K"] /\
  after !! ("F", n) = Some (resolveTimestamp E (mock_time d)) /\
  after !! ("I", n) = Some (lat d ++ "," ++ lon d) /\
  after !! ("J", n) = Some (locationName E) /\
  after !! ("K", n) = Some (Js.toFixed2 (clockOutHours E d wr)) /\
  after !! ("D", n) = mainCells (remote w) !! ("D", n) /\
  (forall col r,
      ~ In (col, r) [("F", n); ("I", n); ("J", n); ("K", n)] ->
      after !! (col, r) = mainCells (remote w) !! (col, r)).
Proof.
  intros Hst Hsheet Hrows Hfind Hsave after n. subst after.
  destruct (clockOut_mainCells E d w w1 w2 wr rows mainRow Hst Hsheet Hrows Hfind Hsave)
    as [_ ->].
  split; [reflexivity|].
  rewrite !writeCells_lookup. fold n.
  destruct (decide (n = n)); [|congruence].
  do 5 (split; [reflexivity|]).
  intros col r Hnot. rewrite writeCells_lookup. fold n.
  destruct (decide (r = n)) as [->|]; [|reflexivity].
  unfold lastValue, clockOutBatch, clockOutUpdates.
  cbn [rev app List.find fst snd].
  destruct (String.eqb_spec "K" col) as [<-|]; [exfalso; apply Hnot; simpl; auto|].
  destruct (String.eqb_spec "J" col) as [<-|]; [exfalso; apply Hnot; simpl; auto|].
  destruct (String.eqb_spec "I" col) as [<-|]; [exfalso; apply Hnot; simpl; auto|].
  destruct (String.eqb_spec "F" col) as [<-|]; [exfalso; apply Hnot; simpl; auto|].
  reflexivity.
Qed.

(** The amended claim C8 on a day of Somchai: he clocks in at 08:00, which
    appends row 2 of MAIN, and clocks out at 17:30.  Of the eleven cells
    of the row the clock-out changes four. *)
Lemma clockOut_writes_four_cells_witness :
  let morning := Scenario.calm Scenario.t0800 [] [] in
  let w1 := fst (clockIn (H := Bangkok.time) morning Scenario.somchai
                         (Scenario.started [])) in
  let evening := Scenario.calm Scenario.t1730 (onWorkSheet (remote w1))
                   [Scenario.ledgerRow 2 "Somchai" "01/01/2025 08:00:00" ""] in
  let w2 := fst (clockOut (H := Bangkok.time) evening Scenario.somchai w1) in
  mainCells (remote w1) !! ("D", 2) = Some "01/01/2025 08:00:00" /\
  mainCells (remote w2) !! ("D", 2) = Some "01/01/2025 08:00:00" /\
  mainCells (remote w2) !! ("F", 2) = Some "01/01/2025 17:30:00" /\
  mainCells (remote w2) !! ("A", 2) = mainCells (remote w1) !! ("A", 2).
Proof.
  cbv zeta.
  set (morning := Scenario.calm Scenario.t0800 [] []).
  set (w1 := fst (clockIn (H := Bangkok.time) morning Scenario.somchai
                          (Scenario.started []))).
  set (evening := Scenario.calm Scenario.t1730 (onWorkSheet (remote w1))
                    [Scenario.ledgerRow 2 "Somchai" "01/01/2025 08:00:00" ""]).
  pose (wa := fst (getEmployeeStatus evening "Somchai" w1)).
  pose (wb := fst (getCachedSheetData evening CONFIG.MAIN wa)).
  pose (wr := {| WorkRecord.row :=
                   openSession Scenario.somchai "01/01/2025 08:00:00" 2 2;
                 WorkRecord.mainRowIndex := Some 2;
                 WorkRecord.clockIn := Some "01/01/2025 08:00:00";
                 WorkRecord.systemName := Some "Somchai";
                 WorkRecord.employeeName := Some "Somchai" |}).
  assert (Hst : getEmployeeStatus evening (employee Scenario.somchai) w1 =
                (wa, Ok {| isOnWork := true; workRecord := Some wr |}))
    by (vm_compute; reflexivity).
  assert (Hrows : getCachedSheetData evening CONFIG.MAIN wa =
                  (wb, Ok [Scenario.ledgerRow 2 "Somchai" "01/01/2025 08:00:00" ""]))
    by (vm_compute; reflexivity).
  assert (Hfind : findMainRow (H := Bangkok.time) (employee Scenario.somchai) wr
                    [Scenario.ledgerRow 2 "Somchai" "01/01/2025 08:00:00" ""]
                  = Some (Scenario.ledgerRow 2 "Somchai" "01/01/2025 08:00:00" ""))
    by (vm_compute; reflexivity).
  pose proof (clockOut_writes_four_cells (H := Bangkok.time) evening Scenario.somchai
                w1 wa wb wr _ _ Hst eq_refl Hrows Hfind eq_refl) as Hall.
  cbv zeta in Hall.
  destruct Hall as (_ & HF & _ & _ & _ & HD & Hother).
  assert (Hin : mainCells (remote w1) !! ("D", 2) = Some "01/01/2025 08:00:00")
    by (vm_compute; reflexivity).
  split; [exact Hin|]. split; [now rewrite <- Hin|].
  split; [exact HF|].
  apply Hother. vm_compute. intuition discriminate.
Defined.

(** C8, as stated, fails on its count: on that same day the cells of
    row 2 that the clock-out changes are four, not five. *)
Lemma clockOut_changes_four_columns :
  let morning := Scenario.calm Scenario.t0800 [] [] in
  let w1 := fst (clockIn (H := Bangkok.time) morning Scenario.somchai
                         (Scenario.started [])) in
  let evening := Scenario.calm Scenario.t1730 (onWorkSheet (remote w1))
                   [Scenario.ledgerRow 2 "Somchai" "01/01/2025 08:00:00" ""] in
  let out := clockOut (H := Bangkok.time) evening Scenario.somchai w1 in
  success <$> match snd out with Ok res => Some res | Throw _ => None end
    = Some true /\
  changedColumns (mainCells (remote w1)) (mainCells (remote (fst out))) 2 mainColumns
    = ["F"; "I"; "J"; "K"] /\
  length (changedColumns (mainCells (remote w1)) (mainCells (remote (fst out))) 2
                         mainColumns) = 4%nat.
Proof. vm_compute. repeat split; reflexivity. Qed.

Lemma getEmployeeStatus_listed (E : Env) (employee : string) (w w' : World)
    (rows : list Row) (session : Row) :
  safeGetCachedSheetData E CONFIG.ON_WORK w = (w', Ok rows) ->
  In session rows -> matchesSession employee session = true ->
  exists st, getEmployeeStatus E employee w = (w', Ok st) /\ isOnWork st = true.
Proof.
  intros Hs Hin Hm. rewrite (getEmployeeStatus_of_rows _ _ _ _ _ Hs).
  destruct (List.find (matchesSession employee) rows) as [found|] eqn:Hf.
  - eexists. split; reflexivity.
  - now rewrite (find_none _ _ Hf session Hin) in Hm.
Qed.

(** C10: when [clockOut] has updated the ledger row and the deletion of
    the ON WORK row throws, the error is swallowed: [clockOut] returns the
    success result with the formatted time and the hours, the ON WORK
    sheet keeps the session row and no cache entry is invalidated.  A
    later status check that reads a list of open sessions with that row
    in it reports the employee on work. *)
Theorem clockOut_not_atomic `{TimeLib} (E : Env) (d : ClockData)
    (w w1 w2 : World) (wr : WorkRecord) (rows : list Row) (mainRow : Row)
    (e : string) :
  getEmployeeStatus E (employee d) w =
    (w1, Ok {| isOnWork := true; workRecord := Some wr |}) ->
  getSheet E CONFIG.MAIN = Ok tt ->
  getCachedSheetData E CONFIG.MAIN w1 = (w2, Ok rows) ->
  findMainRow (employee d) wr rows = Some mainRow ->
  saveCells E (rowNumber mainRow) = Ok tt ->
  deleteRow E (WorkRecord.row wr) = Throw e ->
  exists w' res,
    clockOut E d w = (w', Ok res) /\
    success res = true /\
    time res = Some (formatTime (resolveTimestamp E (mock_time d))) /\
    hours res = Some (Js.toFixed2 (clockOutHours E d wr)) /\
    mainCells (remote w') !! ("F", rowNumber mainRow)
      = Some (resolveTimestamp E (mock_time d)) /\
    onWorkSheet (remote w') = onWorkSheet (remote w) /\
    sheetsService w' = sheetsService w2 /\
    (forall E' w'' sessions,
        safeGetCachedSheetData E' CONFIG.ON_WORK w' = (w'', Ok sessions) ->
        In (WorkRecord.row wr) sessions ->
        exists st, getEmployeeStatus E' (employee d) w' = (w'', Ok st) /\
                   isOnWork st = true).
Proof.
  intros Hst Hsheet Hrows Hfind Hsave Hdel.
  rewrite (clockOut_after_status E d w w1 w2 wr rows Hst Hsheet Hrows),
    Hfind, Hsave, Hdel. cbv zeta.
  do 2 eexists. split; [reflexivity|].
  do 3 (split; [reflexivity|]).
  assert (Hw : remote w2 = remote w).
  { rewrite (remote_getCachedSheetData _ _ _ _ _ Hrows).
    exact (remote_getEmployeeStatus _ _ _ _ _ Hst). }
  split.
  { cbn [remote withRemote]. rewrite writeCells_lookup.
    now destruct (decide (rowNumber mainRow = rowNumber mainRow)). }
  split; [cbn [remote withRemote]; now rewrite writeCells_onWorkSheet, Hw|].
  split; [reflexivity|].
  intros E' w'' sessions Hs Hin.
  apply (getEmployeeStatus_listed E' (employee d) _ w'' sessions (WorkRecord.row wr));
    try assumption.
  exact (proj1 (getEmployeeStatus_working _ _ _ _ _ Hst)).
Qed.

(** The claim C10 on Somchai's afternoon: the ledger row 3 is closed, the
    deletion of his session fails, the clock-out is reported successful,
    and the status check that follows, reading the sheet afresh at 17:31,
    still finds him on work. *)
Lemma clockOut_not_atomic_witness :
  let E := Scenario.undeletable "Quota exceeded" (Scenario.at1730 "3") in
  let w := Scenario.started (Scenario.afternoon "3") in
  let out := clockOut (H := Bangkok.time) E Scenario.somchai w in
  let later := Scenario.calm (Scenario.t1730 + 60000)
                 (onWorkSheet (remote (fst out))) Scenario.twoShifts in
  success <$> match snd out with Ok res => Some res | Throw _ => None end
    = Some true /\
  onWorkSheet (remote (fst out)) = Scenario.afternoon "3" /\
  exists st, snd (getEmployeeStatus later "Somchai" (fst out)) = Ok st /\
             isOnWork st = true.
Proof.
  cbv zeta.
  set (E := Scenario.undeletable "Quota exceeded" (Scenario.at1730 "3")).
  set (w := Scenario.started (Scenario.afternoon "3")).
  pose (w1 := fst (getEmployeeStatus E "Somchai" w)).
  pose (w2 := fst (getCachedSheetData E CONFIG.MAIN w1)).
  assert (Hst : getEmployeeStatus E (employee Scenario.somchai) w =
                (w1, Ok {| isOnWork := true;
                           workRecord := Some (Scenario.afternoonRecord "3" (Some 3)) |}))
    by (vm_compute; reflexivity).
  assert (Hrows : getCachedSheetData E CONFIG.MAIN w1 = (w2, Ok Scenario.twoShifts))
    by (vm_compute; reflexivity).
  assert (Hfind : findMainRow (H := Bangkok.time) (employee Scenario.somchai)
                    (Scenario.afternoonRecord "3" (Some 3)) Scenario.twoShifts
                  = Some (Scenario.ledgerRow 3 "Somchai" "2025-01-01 13:00:00" ""))
    by (vm_compute; reflexivity).
  destruct (clockOut_not_atomic (H := Bangkok.time) E Scenario.somchai w w1 w2
              _ _ _ "Quota exceeded" Hst eq_refl Hrows Hfind eq_refl eq_refl)
    as (w' & res & Hout & Hsucc & _ & _ & _ & Hsheet & _ & Hlater).
  rewrite Hout. cbn [fst snd]. split; [simpl; now rewrite Hsucc|].
  split; [exact Hsheet|].
  set (later := Scenario.calm (Scenario.t1730 + 60000) (onWorkSheet (remote w'))
                  Scenario.twoShifts).
  destruct (safeGetCachedSheetData later CONFIG.ON_WORK w') as [w'' [sessions|e']] eqn:Hs.
  - assert (Hin : In (WorkRecord.row (Scenario.afternoonRecord "3" (Some 3))) sessions).
    { assert (Hsessions : snd (safeGetCachedSheetData later CONFIG.ON_WORK w')
                          = Ok (Scenario.afternoon "3")).
      { subst later. rewrite Hsheet.
        replace w' with (fst (clockOut (H := Bangkok.time) E Scenario.somchai w))
          by now rewrite Hout.
        vm_compute. reflexivity. }
      rewrite Hs in Hsessions. injection Hsessions as ->. now left. }
    destruct (Hlater later w'' sessions Hs Hin) as (st & Hrun & Hon).
    change (employee Scenario.somchai) with "Somchai" in Hrun.
    exists st. now rewrite Hrun.
  - destruct (safeGetCachedSheetData_total later CONFIG.ON_WORK w') as (? & ? & Hok).
    congruence.
Defined.

(** ** Missed-checkout sweeper *)


Lemma clearAfterWrite_present (keys : list string) (w : World) :
  Forall (fun k => k ≠ "" /\ is_Some (cache (sheetsService w) !! k)) keys ->
  exists w',
    clearAfterWrite keys w = (w', Ok tt) /\
    apiMonitor w' = apiMonitor w /\ remote w' = remote w /\
    emergencyMode (sheetsService w') = emergencyMode (sheetsService w) /\
    (forall k, cache (sheetsService w') !! k =
               if in_dec string_dec k keys
               then clearEntry <$> cache (sheetsService w) !! k
               else cache (sheetsService w) !! k).
Proof.
  revert w. induction keys as [|k keys IH]; intros w Hall.
  - exists w. simpl. repeat split; auto.
  - apply Forall_cons in Hall as [[Hk [c Hc]] Hrest].
    simpl. unfold mbind at 1, M_bind at 1, onService at 1, clearCache.
    rewrite (truthy_Some k Hk). simpl. rewrite Hc.
    set (w1 := {| sheetsService := _; apiMonitor := _; remote := _ |}).
    assert (Hw1 : forall k', cache (sheetsService w1) !! k' =
                             if decide (k = k') then Some (clearEntry c)
                             else cache (sheetsService w) !! k').
    { intros k'. subst w1. simpl. apply lookup_insert. }
    destruct (IH w1) as (w' & Hrun & Hm & Hr & He & Hcache).
    { eapply Forall_impl; [exact Hrest|]. intros k' [Hk' Hs]. split; [assumption|].
      rewrite Hw1. destruct (decide (k = k')); eauto. }
    exists w'. rewrite Hrun. repeat split; try assumption.
    intros k'. rewrite Hcache, Hw1.
    destruct (string_dec k k') as [->|Hne].
    + destruct (decide (k' = k')); [|congruence]. rewrite Hc.
      now destruct (in_dec string_dec k' keys).
    + destruct (decide (k = k')); [congruence|].
      now destruct (in_dec string_dec k' keys).
Qed.










(** ** Examples *)

(** The identity matcher on the names of the specification. *)
Example isNameMatch_examples :
  isNameMatch (Some "Somchai Jones") (Some "somchai  jones") = true /\
  isNameMatch (Some "Som") (Some "Somchai") = true /\
  isNameMatch (Some "Ana") (Some "Banana") = true /\
  isNameMatch (Some "Anna") (Some "Banana") = false /\
  isNameMatch (Some "Anna") (Some "Malee") = false /\
  isNameMatch (Some "Anna") (Some "") = false /\
  isNameMatch (Some "Anna") None = false /\
  normalizeEmployeeName (Some "  Somchai   JONES ") = "somchai jones".
Proof. vm_compute. repeat split; reflexivity. Qed.

Example parseInt_examples :
  Js.parseInt "12" = Some 12 /\ Js.parseInt " 7 rows" = Some 7 /\
  Js.parseInt "-3" = Some (-3) /\ Js.parseInt "0x1F" = Some 31 /\
  Js.parseInt "row" = None /\ Js.parseInt "" = None.
Proof. vm_compute. repeat split; reflexivity. Qed.

Example toFixed2_examples :
  Js.toFixed2 (19 # 2) = "9.50" /\ Js.toFixed2 0 = "0.00" /\
  Js.toFixed2 (1 # 3) = "0.33" /\ Js.toFixed2 (2 # 3) = "0.67" /\
  Js.toFixed2 (25 # 2) = "12.50".
Proof. vm_compute. repeat split; reflexivity. Qed.

Example cacheKeyOf_examples :
  cacheKeyOf CONFIG.ON_WORK = "onwork" /\ cacheKeyOf CONFIG.MAIN = "main" /\
  cacheKeyOf CONFIG.EMPLOYEES = "employees".
Proof. vm_compute. repeat split; reflexivity. Qed.

(** The five ways of [getCachedSheetData], on the open sessions of
    Somchai's afternoon: a first read at 17:30 fetches and stores; a read
    half a minute later is answered from the cache and leaves the limiter
    as it is; after ten minutes the entry has expired, and with the remote
    failing on a quota error the stale payload is returned, while a
    network error is rethrown; with the burst counter at its ceiling the
    stale payload is returned without a remote call, and on a service with
    nothing cached the read fails with the rate-limit error. *)
Example getCachedSheetData_examples :
  let sessions := Scenario.afternoon "3" in
  let E := Scenario.at1730 "3" in
  let w1 := fst (getCachedSheetData E CONFIG.ON_WORK (Scenario.started sessions)) in
  let soon := Scenario.calm (Scenario.t1730 + 30000) [] [] in
  let late := Scenario.calm (Scenario.t1730 + 600000) [] [] in
  let busy := withMonitor (withBurst 75 (apiMonitor w1)) w1 in
  snd (getCachedSheetData E CONFIG.ON_WORK (Scenario.started sessions)) = Ok sessions /\
  getCache (sheetsService w1) "onwork" = Some sessions /\
  getCachedSheetData soon CONFIG.ON_WORK w1 = (w1, Ok sessions) /\
  snd (getCachedSheetData late CONFIG.ON_WORK w1) = Ok [] /\
  snd (getCachedSheetData (Scenario.unreadable "Quota exceeded for quota metric" late)
                          CONFIG.ON_WORK w1) = Ok sessions /\
  snd (getCachedSheetData (Scenario.unreadable "socket hang up" late)
                          CONFIG.ON_WORK w1) = Throw "socket hang up" /\
  getCachedSheetData late CONFIG.ON_WORK busy = (busy, Ok sessions) /\
  snd (getCachedSheetData late CONFIG.ON_WORK
         (withMonitor (withBurst 75 newMonitor) (Scenario.started sessions)))
    = Throw rateLimitMessage /\
  snd (safeGetCachedSheetData late CONFIG.ON_WORK
         (withMonitor (withBurst 75 newMonitor) (Scenario.started sessions)))
    = Ok [].
Proof. vm_compute. repeat split; reflexivity. Qed.

(** * Further properties *)

(** ** Identity matcher *)

Lemma includes_empty (s : string) : Js.includes s "" = true.
Proof. destruct s; reflexivity. Qed.

Lemma eqb_sym_string (a b : string) : String.eqb a b = String.eqb b a.
Proof.
  destruct (String.eqb_spec a b) as [->|Hne].
  - now rewrite String.eqb_refl.
  - symmetry. apply String.eqb_neq. congruence.
Qed.

Lemma isSpace_lowerChar (c : ascii) : Js.isSpace (Js.lowerChar c) = Js.isSpace c.
Proof. destruct c as [[] [] [] [] [] [] [] []]; reflexivity. Qed.

Lemma lowerChar_space (c : ascii) :
  Js.isSpace c = true -> Js.lowerChar c = c.
Proof. destruct c as [[] [] [] [] [] [] [] []]; intros H; try reflexivity; discriminate H. Qed.

Lemma lowerChar_idem (c : ascii) : Js.lowerChar (Js.lowerChar c) = Js.lowerChar c.
Proof. destruct c as [[] [] [] [] [] [] [] []]; reflexivity. Qed.

Lemma toLowerCase_idem (s : string) :
  Js.toLowerCase (Js.toLowerCase s) = Js.toLowerCase s.
Proof. induction s as [|c s IH]; simpl; [reflexivity|]. now rewrite lowerChar_idem, IH. Qed.

Lemma singleSpaced_toLowerCase (b : bool) (s : string) :
  singleSpaced b (Js.toLowerCase s) = singleSpaced b s.
Proof.
  revert b. induction s as [|c s IH]; intros b; simpl; [reflexivity|].
  rewrite isSpace_lowerChar. destruct (Js.isSpace c) eqn:Hc.
  - rewrite (lowerChar_space c Hc), IH. reflexivity.
  - apply IH.
Qed.

Lemma singleSpaced_nonempty (s : string) : singleSpaced true s = true -> s <> "".
Proof. intros H ->. discriminate H. Qed.

Lemma trimEnd_singleSpaced (b : bool) (s : string) :
  singleSpaced b s = true -> Js.trimEnd s = s.
Proof.
  revert b. induction s as [|c s IH]; intros b H; simpl in *; [reflexivity|].
  destruct (Js.isSpace c) eqn:Hc.
  - apply andb_prop in H as [_ H]. rewrite (IH _ H).
    destruct (String.eqb_spec s ""); [|now rewrite andb_false_r].
    subst s. discriminate H.
  - now rewrite (IH _ H).
Qed.

Lemma trimStart_singleSpaced (s : string) :
  singleSpaced true s = true -> Js.trimStart s = s.
Proof.
  destruct s as [|c s]; simpl; [reflexivity|].
  destruct (Js.isSpace c); [|reflexivity].
  rewrite andb_false_r. discriminate.
Qed.

Lemma replaceSpaces_singleSpaced (b : bool) (s : string) :
  singleSpaced b s = true -> Js.replaceSpaces " " b s = s.
Proof.
  revert b. induction s as [|c s IH]; intros b H; simpl in *; [reflexivity|].
  destruct (Js.isSpace c) eqn:Hc.
  - apply andb_prop in H as [H1 H]. apply andb_prop in H1 as [Hsp Hb].
    apply Ascii.eqb_eq in Hsp. subst c.
    destruct b; [discriminate Hb|]. simpl. now rewrite (IH _ H).
  - now rewrite (IH _ H).
Qed.

(** What [trim] leaves: nothing, or a string whose first and last
    characters are not whitespace. *)
Lemma trimEnd_idem (s : string) : Js.trimEnd (Js.trimEnd s) = Js.trimEnd s.
Proof.
  induction s as [|c s IH]; simpl; [reflexivity|].
  destruct (Js.isSpace c && String.eqb (Js.trimEnd s) "") eqn:Hc; [reflexivity|].
  simpl. rewrite IH, Hc. reflexivity.
Qed.

Lemma replaceSpaces_trimmed (s : string) :
  Js.trimEnd s = s -> s <> "" ->
  singleSpaced true (Js.replaceSpaces " " true s) = true /\
  singleSpaced false (Js.replaceSpaces " " false s) = true /\
  (forall c s', s = String c s' -> Js.isSpace c = false ->
                singleSpaced true (Js.replaceSpaces " " false s) = true).
Proof.
  induction s as [|c s IH]; intros Ht Hne; [congruence|].
  simpl in Ht.
  destruct (Js.isSpace c && String.eqb (Js.trimEnd s) "") eqn:Hc; [discriminate Ht|].
  injection Ht as Ht.
  destruct (String.eqb_spec s "") as [->|Hs].
  - simpl in Hc. rewrite andb_true_r in Hc. simpl. rewrite Hc. simpl. rewrite Hc.
    repeat split; try reflexivity.
  - destruct (IH Ht Hs) as (IH1 & IH2 & _).
    simpl. destruct (Js.isSpace c) eqn:Hsp; simpl.
    + split; [exact IH1|]. split; [exact IH1|].
      intros c' s' Heq Hc'. injection Heq as -> ->. congruence.
    + rewrite !Hsp. split; [exact IH2|]. split; [exact IH2|]. intros; exact IH2.
Qed.

Lemma trimStart_head (s : string) :
  match Js.trimStart s with
  | EmptyString => True
  | String c _ => Js.isSpace c = false
  end.
Proof.
  induction s as [|c s IH]; simpl; [exact I|].
  destruct (Js.isSpace c) eqn:Hc; [exact IH|exact Hc].
Qed.

Lemma trim_shape (s : string) :
  Js.trim s = "" \/
  (Js.trimEnd (Js.trim s) = Js.trim s /\
   exists c s', Js.trim s = String c s' /\ Js.isSpace c = false).
Proof.
  unfold Js.trim. pose proof (trimStart_head s) as Hh.
  destruct (Js.trimStart s) as [|c t] eqn:Ht; [now left|].
  right. split; [apply trimEnd_idem|].
  simpl. rewrite Hh. simpl. eauto.
Qed.

Lemma normalizeEmployeeName_shape (name : option string) :
  normalizeEmployeeName name = "" \/
  singleSpaced true (normalizeEmployeeName name) = true.
Proof.
  unfold normalizeEmployeeName.
  destruct (Js.truthy name); simpl; [|now left].
  destruct (trim_shape (Js.str name)) as [->|(Hend & c & s' & Heq & Hc)]; [now left|].
  right. rewrite singleSpaced_toLowerCase.
  destruct (replaceSpaces_trimmed (Js.trim (Js.str name))) as (_ & _ & H3);
    [exact Hend|rewrite Heq; discriminate|].
  exact (H3 c s' Heq Hc).
Qed.

Lemma toLowerCase_normalize (name : option string) :
  Js.toLowerCase (normalizeEmployeeName name) = normalizeEmployeeName name.
Proof.
  unfold normalizeEmployeeName. destruct (Js.truthy name); simpl; [|reflexivity].
  apply toLowerCase_idem.
Qed.

Lemma isAscii_trimStart (s : string) : isAscii s = true -> isAscii (Js.trimStart s) = true.
Proof.
  induction s as [|c s IH]; [reflexivity|]. intros H. cbn [Js.trimStart].
  destruct (Js.isSpace c); [|exact H].
  cbn [isAscii] in H. apply andb_prop in H as [_ H]. exact (IH H).
Qed.

Lemma isAscii_trimEnd (s : string) : isAscii s = true -> isAscii (Js.trimEnd s) = true.
Proof.
  induction s as [|c s IH]; [reflexivity|]. cbn [isAscii Js.trimEnd]. intros H.
  apply andb_prop in H as [Hc H].
  destruct (Js.isSpace c && String.eqb (Js.trimEnd s) ""); [reflexivity|].
  cbn [isAscii]. now rewrite Hc, (IH H).
Qed.

Lemma isAscii_replaceSpaces (b : bool) (s : string) :
  isAscii s = true -> isAscii (Js.replaceSpaces " " b s) = true.
Proof.
  revert b. induction s as [|c s IH]; intros b; [reflexivity|].
  cbn [isAscii Js.replaceSpaces]. intros H. apply andb_prop in H as [Hc H].
  destruct (Js.isSpace c).
  - destruct b; [exact (IH true H)|].
    change (" " ++ Js.replaceSpaces " " true s)
      with (String " " (Js.replaceSpaces " " true s)).
    cbn [isAscii]. rewrite (IH true H). reflexivity.
  - cbn [isAscii]. now rewrite Hc, (IH false H).
Qed.

Lemma isAscii_lowerChar (c : ascii) :
  Nat.ltb (nat_of_ascii c) 128 = true ->
  Nat.ltb (nat_of_ascii (Js.lowerChar c)) 128 = true.
Proof. destruct c as [[] [] [] [] [] [] [] []]; intros H; try reflexivity; discriminate H. Qed.

Lemma isAscii_toLowerCase (s : string) :
  isAscii s = true -> isAscii (Js.toLowerCase s) = true.
Proof.
  induction s as [|c s IH]; [reflexivity|].
  cbn [isAscii Js.toLowerCase]. intros H. apply andb_prop in H as [Hc H].
  now rewrite (isAscii_lowerChar c Hc), (IH H).
Qed.

Lemma isAscii_normalize (name : option string) :
  isAscii (Js.str name) = true -> isAscii (normalizeEmployeeName name) = true.
Proof.
  intros H. unfold normalizeEmployeeName.
  destruct (Js.truthy name); [|reflexivity].
  apply isAscii_toLowerCase, isAscii_replaceSpaces.
  unfold Js.trim. now apply isAscii_trimEnd, isAscii_trimStart.
Qed.

(** X2 (normalizeEmployeeName).  On a name written in ASCII, where the
    whitespace and the letter case of JavaScript are those of the
    embedding, normalising is idempotent: the normalised name is again
    ASCII, is already trimmed, holds only single spaces as whitespace and
    no upper-case letter, so normalising it again returns it unchanged. *)
Theorem normalizeEmployeeName_idempotent (name : option string) :
  isAscii (Js.str name) = true ->
  let n := normalizeEmployeeName name in
  isAscii n = true /\
  normalizeEmployeeName (Some n) = n /\
  Js.trim n = n /\
  Js.replaceSpaces " " false n = n /\
  Js.toLowerCase n = n.
Proof.
  intros Hascii n.
  split; [exact (isAscii_normalize name Hascii)|].
  assert (Htrim : Js.trim n = n).
  { destruct (normalizeEmployeeName_shape name) as [H|H]; fold n in H.
    - now rewrite H.
    - unfold Js.trim. rewrite (trimStart_singleSpaced n H).
      exact (trimEnd_singleSpaced true n H). }
  assert (Hrep : Js.replaceSpaces " " false n = n).
  { destruct (normalizeEmployeeName_shape name) as [H|H]; fold n in H.
    - now rewrite H.
    - destruct n as [|c s]; [reflexivity|].
      simpl in H. destruct (Js.isSpace c) eqn:Hc.
      + rewrite andb_false_r in H. discriminate H.
      + simpl. rewrite Hc. f_equal. exact (replaceSpaces_singleSpaced false s H). }
  assert (Hlow : Js.toLowerCase n = n) by apply toLowerCase_normalize.
  repeat split; try assumption.
  unfold normalizeEmployeeName at 1. simpl.
  destruct (String.eqb_spec n "") as [->|Hne]; simpl; [reflexivity|].
  now rewrite Htrim, Hrep, Hlow.
Qed.

Lemma normalizeEmployeeName_idempotent_witness :
  normalizeEmployeeName (Some "  Somchai   JAIDEE ") = "somchai jaidee" /\
  normalizeEmployeeName (Some "somchai jaidee") = "somchai jaidee".
Proof.
  split; [reflexivity|].
  destruct (normalizeEmployeeName_idempotent (Some "  Somchai   JAIDEE ") eq_refl)
    as (_ & Hagain & _).
  exact Hagain.
Defined.

Lemma isNameMatch_sym (a b : option string) : isNameMatch a b = isNameMatch b a.
Proof.
  unfold isNameMatch.
  rewrite (orb_comm (negb (Js.truthy a))).
  destruct (negb (Js.truthy b) || negb (Js.truthy a)); [reflexivity|].
  rewrite (eqb_sym_string (normalizeEmployeeName a)).
  rewrite <- !orb_assoc. f_equal. apply orb_comm.
Qed.

(** X1 (isNameMatch).  The matcher is symmetric and matches every
    non-empty name with itself, but it is not transitive: a short name
    matches two longer names that do not match each other. *)
Theorem isNameMatch_symmetric :
  (forall a b : option string, isNameMatch a b = isNameMatch b a) /\
  (forall a : option string, isNameMatch a a = Js.truthy a) /\
  (exists a b c : string,
      isNameMatch (Some a) (Some b) = true /\ isNameMatch (Some b) (Some c) = true /\
      isNameMatch (Some a) (Some c) = false).
Proof.
  split; [|split].
  - exact isNameMatch_sym.
  - intros a. unfold isNameMatch. rewrite orb_diag.
    destruct (Js.truthy a); simpl; [|reflexivity].
    now rewrite String.eqb_refl.
  - exists "Somchai", "Som", "Somsak". repeat split; reflexivity.
Qed.

Lemma normalize_blank (blank : string) :
  Js.trim blank = "" -> normalizeEmployeeName (Some blank) = "".
Proof.
  intros Hb. unfold normalizeEmployeeName.
  destruct (Js.truthy (Some blank)); simpl; [|reflexivity].
  now rewrite Hb.
Qed.

Lemma isNameMatch_blank (blank : string) (other : option string) :
  blank <> "" -> Js.trim blank = "" ->
  isNameMatch (Some blank) other = Js.truthy other.
Proof.
  intros Hne Hb. unfold isNameMatch.
  rewrite (truthy_Some blank Hne). simpl.
  destruct (Js.truthy other); simpl; [|reflexivity].
  rewrite (normalize_blank blank Hb), includes_empty.
  now rewrite orb_true_r.
Qed.

(** ** A blank name *)

(** X3 (isNameMatch, getEmployeeStatus).  A name that is not empty but
    consists of whitespace only normalises to the empty string, which
    every string includes: it matches every non-empty name, in both
    argument positions, and a status check for it reports the first open
    session that bears a name as the caller's own. *)
Theorem blank_name_matches_any_session (E : Env) (blank : string) (w w1 : World)
    (r : Row) (rest : list Row) :
  blank <> "" -> Js.trim blank = "" ->
  Js.truthy (get r Header.systemName) || Js.truthy (get r Header.employeeName) = true ->
  safeGetCachedSheetData E CONFIG.ON_WORK w = (w1, Ok (r :: rest)) ->
  (forall other : option string,
      isNameMatch (Some blank) other = Js.truthy other /\
      isNameMatch other (Some blank) = Js.truthy other) /\
  exists wr,
    getEmployeeStatus E blank w = (w1, Ok {| isOnWork := true; workRecord := Some wr |}) /\
    WorkRecord.row wr = r.
Proof.
  intros Hne Hb Hnamed Hsafe. split.
  - intros other. split; [exact (isNameMatch_blank blank other Hne Hb)|].
    rewrite isNameMatch_sym. exact (isNameMatch_blank blank other Hne Hb).
  - rewrite (getEmployeeStatus_of_rows _ _ _ _ _ Hsafe). cbn [List.find].
    unfold matchesSession.
    rewrite !(isNameMatch_blank blank _ Hne Hb), Hnamed.
    eexists. split; reflexivity.
Qed.

Lemma blank_name_matches_any_session_witness :
  exists wr,
    snd (getEmployeeStatus (Scenario.at1730 "3") " "
           (Scenario.started (Scenario.afternoon "3")))
      = Ok {| isOnWork := true; workRecord := Some wr |} /\
    WorkRecord.row wr = Scenario.sessionRow 3 "Somchai" "2025-01-01 13:00:00" "3".
Proof.
  destruct (blank_name_matches_any_session (Scenario.at1730 "3") " "
              (Scenario.started (Scenario.afternoon "3"))
              (fst (safeGetCachedSheetData (Scenario.at1730 "3") CONFIG.ON_WORK
                      (Scenario.started (Scenario.afternoon "3"))))
              (Scenario.sessionRow 3 "Somchai" "2025-01-01 13:00:00" "3") [])
    as (_ & wr & Hrun & Hrow); try (vm_compute; reflexivity); [discriminate|].
  exists wr. rewrite Hrun. split; [reflexivity|exact Hrow].
Defined.

(** ** Decimal rendering and [parseInt] *)

Lemma digits_of_uint_acc (d : Decimal.uint) (acc : positive) :
  Js.digits (Zpos acc) true (NilEmpty.string_of_uint d)
  = Some (Zpos (Pos.of_uint_acc d acc)).
Proof.
  revert acc. induction d; intros acc;
    cbn [NilEmpty.string_of_uint Js.digits Pos.of_uint_acc]; [reflexivity|..];
    match goal with
    | |- (if Js.isDigit ?c then _ else _) = _ =>
        change (Js.isDigit c) with true; cbn iota
    end;
    rewrite <- IHd; f_equal; unfold Js.digitVal;
    rewrite ?Pos2Z.inj_add, ?Pos2Z.inj_mul; 
    try match goal with
        | |- context [Z.of_nat (nat_of_ascii ?c)] =>
            let v := eval vm_compute in (Z.of_nat (nat_of_ascii c)) in
            change (Z.of_nat (nat_of_ascii c)) with v
        end; lia.
Qed.

Lemma digits_of_uint (d : Decimal.uint) :
  Js.digits 0 true (NilEmpty.string_of_uint d) = Some (Z.of_N (Pos.of_uint d)).
Proof.
  induction d; cbn [NilEmpty.string_of_uint Js.digits Pos.of_uint];
    [reflexivity|..];
    match goal with
    | |- (if Js.isDigit ?c then _ else _) = _ =>
        change (Js.isDigit c) with true; cbn iota
    end;
    [exact IHd|..];
    cbn [Z.of_N]; rewrite <- digits_of_uint_acc; f_equal.
Qed.

Lemma digits_seen (d : Decimal.uint) (acc : Z) :
  d <> Decimal.Nil ->
  Js.digits acc false (NilEmpty.string_of_uint d)
  = Js.digits acc true (NilEmpty.string_of_uint d).
Proof. destruct d; intros Hd; [congruence|..]; reflexivity. Qed.

Lemma unsignedInt_of_uint (d : Decimal.uint) :
  d <> Decimal.Nil ->
  Js.unsignedInt (NilEmpty.string_of_uint d) = Some (Z.of_N (Pos.of_uint d)).
Proof.
  intros Hd.
  assert (H : Js.unsignedInt (NilEmpty.string_of_uint d)
              = Js.digits 0 false (NilEmpty.string_of_uint d)).
  { destruct d as [|d|d|d|d|d|d|d|d|d|d]; try reflexivity.
    destruct d; reflexivity. }
  rewrite H, (digits_seen d 0 Hd). apply digits_of_uint.
Qed.

Lemma trimStart_of_uint (d : Decimal.uint) :
  Js.trimStart (NilEmpty.string_of_uint d) = NilEmpty.string_of_uint d.
Proof. destruct d; reflexivity. Qed.

Lemma parseInt_of_uint (d : Decimal.uint) :
  d <> Decimal.Nil ->
  Js.parseInt (NilEmpty.string_of_uint d) = Some (Z.of_N (Pos.of_uint d)).
Proof.
  intros Hd. unfold Js.parseInt. rewrite trimStart_of_uint.
  rewrite <- (unsignedInt_of_uint d Hd).
  destruct d; reflexivity.
Qed.

Lemma string_of_pos (p : positive) :
  NilZero.string_of_uint (Pos.to_uint p) = NilEmpty.string_of_uint (Pos.to_uint p).
Proof.
  pose proof (DecimalPos.Unsigned.to_uint_nonnil p) as Hd.
  unfold NilZero.string_of_uint. destruct (Pos.to_uint p); [congruence|..]; reflexivity.
Qed.

Lemma parseInt_ofZ (n : Z) : Js.parseInt (Js.ofZ n) = Some n.
Proof.
  unfold Js.ofZ. destruct n as [|p|p]; [reflexivity|..];
    cbn [Z.to_int NilZero.string_of_int]; rewrite string_of_pos;
    pose proof (DecimalPos.Unsigned.to_uint_nonnil p) as Hd.
  - now rewrite (parseInt_of_uint _ Hd), DecimalPos.Unsigned.of_to.
  - unfold Js.parseInt. cbn [Js.trimStart].
    change (Js.isSpace "-") with false. cbn iota.
    now rewrite (unsignedInt_of_uint _ Hd), DecimalPos.Unsigned.of_to.
Qed.

Lemma ofZ_nonempty (n : Z) : Js.ofZ n <> "".
Proof.
  unfold Js.ofZ. destruct n as [|p|p]; [discriminate| |discriminate].
  cbn [Z.to_int NilZero.string_of_int]. rewrite string_of_pos.
  pose proof (DecimalPos.Unsigned.to_uint_nonnil p) as Hd.
  destruct (Pos.to_uint p); [congruence|..]; discriminate.
Qed.

Lemma numericRef_ofZ (n : Z) : numericRef (Some (Js.ofZ n)) = Some n.
Proof.
  unfold numericRef. rewrite (truthy_Some _ (ofZ_nonempty n)).
  apply parseInt_ofZ.
Qed.

(** ** Cache *)

Lemma isCacheValid_lookup (s : GoogleSheetsService) (key : string) (now : Z) :
  isCacheValid s key now =
  match cache s !! key with
  | Some {| data := Some _; timestamp := Some t; ttl := l |} =>
      negb (t =? 0) && (now - t <? l)
  | _ => false
  end.
Proof.
  unfold isCacheValid. destruct (cache s !! key) as [[[d|] [t|] l]|]; simpl; try reflexivity.
  now destruct (t =? 0).
Qed.

(** X5 (clearCache).  [clearCache()] and [clearCache('')] empty every
    entry and keep its TTL: afterwards no entry is valid at any time and
    [getCache] answers [null] for every key.  [clearCache(key)] on an
    existing entry empties that entry alone; on a key that has no entry
    it throws a [TypeError] and leaves the service as it was. *)
Theorem clearCache_invalidates (s : GoogleSheetsService) :
  (let s' := fst (clearCache None s) in
   snd (clearCache None s) = Ok tt /\
   clearCache (Some "") s = clearCache None s /\
   emergencyMode s' = emergencyMode s /\
   forall k now,
     isCacheValid s' k now = false /\ getCache s' k = None /\
     ttl <$> cache s' !! k = ttl <$> cache s !! k) /\
  (forall key c,
      key <> "" -> cache s !! key = Some c ->
      let s' := fst (clearCache (Some key) s) in
      snd (clearCache (Some key) s) = Ok tt /\
      emergencyMode s' = emergencyMode s /\
      cache s' !! key = Some {| data := None; timestamp := None; ttl := ttl c |} /\
      (forall now, isCacheValid s' key now = false) /\
      getCache s' key = None /\
      forall k, k <> key -> cache s' !! k = cache s !! k) /\
  (forall key,
      key <> "" -> cache s !! key = None ->
      clearCache (Some key) s = (s, Throw (TypeError_set "data"))).
Proof.
  split; [|split].
  - cbn. split; [reflexivity|]. split; [reflexivity|]. split; [reflexivity|].
    intros k now. unfold isCacheValid, getCache. cbn. rewrite !lookup_fmap.
    destruct (cache s !! k) as [c|]; cbn; repeat split; reflexivity.
  - intros key c Hne Hc.
    assert (Heq : clearCache (Some key) s
                  = (withCache (<[key := clearEntry c]> (cache s)) s, Ok tt)).
    { unfold clearCache. rewrite (truthy_Some key Hne). cbn. now rewrite Hc. }
    rewrite Heq. cbn.
    split; [reflexivity|]. split; [reflexivity|].
    unfold isCacheValid, getCache. cbn. rewrite !lookup_insert_eq. cbn.
    repeat split; try reflexivity.
    intros k Hk. now rewrite lookup_insert_ne.
  - intros key Hne Hc. unfold clearCache.
    rewrite (truthy_Some key Hne). cbn. now rewrite Hc.
Qed.

Lemma isCacheValid_setCache (key : string) (d : list Row) (t now : Z)
    (s : GoogleSheetsService) :
  isCacheValid (setCache key d t s) key now =
  negb (t =? 0) &&
  (now - t <? match cache s !! key with Some c => ttl c | None => 300000 end).
Proof. rewrite isCacheValid_lookup, setCache_lookup. reflexivity. Qed.

Lemma isCacheValid_emergency (s : GoogleSheetsService) (key : string) (now : Z) :
  isCacheValid (fst (setEmergencyMode true s)) key now =
  match cache s !! key with
  | Some {| data := Some _; timestamp := Some t |} =>
      negb (t =? 0) && (now - t <? 3600000)
  | _ => false
  end.
Proof.
  rewrite isCacheValid_lookup, setEmergencyMode_on. cbn. rewrite lookup_fmap.
  destruct (cache s !! key) as [[[d|] [t|] l]|]; reflexivity.
Qed.

(** ** Limiter *)

Lemma limits_logAPICall (t : Z) (op : string) (m : APIMonitor) :
  limits (logAPICall t op m) = limits m /\
  currentBurst (logAPICall t op m) = currentBurst m.
Proof. split; reflexivity. Qed.

Lemma length_logAPICall (t : Z) (op : string) (m : APIMonitor) :
  (length (apiCalls (logAPICall t op m)) <= S (length (apiCalls m)))%nat.
Proof.
  unfold logAPICall. cbn [apiCalls withCalls].
  etransitivity; [apply filter_length_le|]. rewrite length_app. simpl. lia.
Qed.

Lemma acquire_cases (t : Z) (op : string) (m : APIMonitor) :
  acquire t op m = (false, m) \/
  (currentBurst m < burstLimit m /\
   Z.of_nat (length (apiCalls m)) < maxCallsPerHour m /\
   acquire t op m = (true, logAPICall t op (withBurst (currentBurst m + 1) m))).
Proof.
  unfold acquire, canMakeAPICall, callsInLastHour.
  destruct (burstLimit m <=? currentBurst m) eqn:Hb; [now left|].
  destruct (maxCallsPerMinute m <=? callsInLastMinute t m); [now left|].
  destruct (maxCallsPerHour m <=? Z.of_nat (length (apiCalls m))) eqn:Hh; [now left|].
  right. apply Z.leb_gt in Hb, Hh. repeat split; assumption.
Qed.

(** X9 (APIMonitor).  Through any sequence of acquisitions
    ([canMakeAPICall] followed by [logAPICall] when allowed),
    [finishCall]s and turns of the reset timer, in any order and at any
    instants, the burst count stays between 0 and the burst ceiling, the
    log never grows beyond the per-hour ceiling, and the three limits
    are never changed. *)
Theorem limiter_stays_within_ceilings (uses : list LimiterUse) (m : APIMonitor) :
  0 <= currentBurst m <= burstLimit m ->
  Z.of_nat (length (apiCalls m)) <= maxCallsPerHour m ->
  let m' := snd (useLimiter uses m) in
  0 <= currentBurst m' <= burstLimit m' /\
  Z.of_nat (length (apiCalls m')) <= maxCallsPerHour m' /\
  limits m' = limits m.
Proof.
  revert m. induction uses as [|u rest IH]; intros m Hb Hh; cbn zeta.
  - cbn. repeat split; lia.
  - destruct u as [t op| |]; cbn [useLimiter].
    + destruct (acquire_cases t op m) as [Hd|(Hlt & Hlen & Ha)].
      * rewrite Hd. specialize (IH m Hb Hh).
        destruct (useLimiter rest m) as [l m'']. exact IH.
      * rewrite Ha.
        set (m1 := logAPICall t op (withBurst (currentBurst m + 1) m)).
        assert (Hb1 : 0 <= currentBurst m1 <= burstLimit m1) by (cbn; lia).
        assert (Hh1 : Z.of_nat (length (apiCalls m1)) <= maxCallsPerHour m1).
        { pose proof (length_logAPICall t op (withBurst (currentBurst m + 1) m)) as Hl.
          fold m1 in Hl. cbn in Hl |- *. lia. }
        specialize (IH m1 Hb1 Hh1).
        destruct (useLimiter rest m1) as [l m'']. exact IH.
    + assert (H1 : 0 <= currentBurst (finishCall m) <= burstLimit (finishCall m) /\
                   apiCalls (finishCall m) = apiCalls m /\
                   limits (finishCall m) = limits m).
      { unfold finishCall. destruct (0 <? currentBurst m) eqn:E; cbn;
          [apply Z.ltb_lt in E|]; repeat split; lia. }
      destruct H1 as (Hb1 & Hc1 & Hl1).
      assert (Hm : maxCallsPerHour (finishCall m) = maxCallsPerHour m)
        by (unfold finishCall; destruct (0 <? currentBurst m); reflexivity).
      specialize (IH (finishCall m) Hb1). rewrite Hc1, Hm, Hl1 in IH. exact (IH Hh).
    + assert (H1 : 0 <= currentBurst (autoResetBurst m) <= burstLimit (autoResetBurst m) /\
                   apiCalls (autoResetBurst m) = apiCalls m /\
                   limits (autoResetBurst m) = limits m).
      { unfold autoResetBurst. destruct (0 <? currentBurst m) eqn:E; cbn;
          [apply Z.ltb_lt in E|]; repeat split; lia. }
      destruct H1 as (Hb1 & Hc1 & Hl1).
      assert (Hm : maxCallsPerHour (autoResetBurst m) = maxCallsPerHour m)
        by (unfold autoResetBurst; destruct (0 <? currentBurst m); reflexivity).
      specialize (IH (autoResetBurst m) Hb1). rewrite Hc1, Hm, Hl1 in IH. exact (IH Hh).
Qed.

(** ** The hour ceiling *)

Lemma canMakeAPICall_full (t : Z) (m : APIMonitor) :
  maxCallsPerHour m <= Z.of_nat (length (apiCalls m)) ->
  canMakeAPICall t m = (false, m).
Proof.
  intros Hfull. unfold canMakeAPICall, callsInLastHour.
  destruct (burstLimit m <=? currentBurst m); [reflexivity|].
  destruct (maxCallsPerMinute m <=? callsInLastMinute t m); [reflexivity|].
  destruct (Z.leb_spec (maxCallsPerHour m) (Z.of_nat (length (apiCalls m))));
    [reflexivity|lia].
Qed.

Lemma acquire_full (t : Z) (op : string) (m : APIMonitor) :
  maxCallsPerHour m <= Z.of_nat (length (apiCalls m)) ->
  acquire t op m = (false, m).
Proof. intros Hfull. unfold acquire. now rewrite (canMakeAPICall_full t m Hfull). Qed.

Lemma finishCall_keeps (m : APIMonitor) :
  apiCalls (finishCall m) = apiCalls m /\ limits (finishCall m) = limits m.
Proof. unfold finishCall. destruct (0 <? currentBurst m); split; reflexivity. Qed.

Lemma autoResetBurst_keeps (m : APIMonitor) :
  apiCalls (autoResetBurst m) = apiCalls m /\ limits (autoResetBurst m) = limits m.
Proof. unfold autoResetBurst. destruct (0 <? currentBurst m); split; reflexivity. Qed.

Lemma limits_maxCallsPerHour (m m' : APIMonitor) :
  limits m' = limits m -> maxCallsPerHour m' = maxCallsPerHour m.
Proof. unfold limits. now intros [= _ -> _]. Qed.

(** X10 (canMakeAPICall, logAPICall).  The per-hour test compares the
    length of the whole log, and only [logAPICall] prunes the log, which
    the call sites run only after an allowed [canMakeAPICall].  So once
    the log holds as many entries as the per-hour ceiling, every later
    acquisition is denied, whatever the time, the log never changes
    again, and [getCachedSheetData] answers every read of an entry that
    is not fresh from the stale copy or with the rate-limit error,
    without reaching the remote. *)
Theorem hour_ceiling_never_reopens (uses : list LimiterUse) (m : APIMonitor) :
  maxCallsPerHour m <= Z.of_nat (length (apiCalls m)) ->
  Forall (fun allowed => allowed = false) (fst (useLimiter uses m)) /\
  apiCalls (snd (useLimiter uses m)) = apiCalls m /\
  limits (snd (useLimiter uses m)) = limits m /\
  forall (E : Env) (sheetName : string) (w : World),
    apiMonitor w = snd (useLimiter uses m) ->
    isCacheValid (sheetsService w) (cacheKeyOf sheetName) (now E) = false ->
    getCachedSheetData E sheetName w =
    (w, match getCache (sheetsService w) (cacheKeyOf sheetName) with
        | Some stale => Ok stale
        | None => Throw rateLimitMessage
        end).
Proof.
  intros Hfull.
  assert (H : Forall (fun allowed => allowed = false) (fst (useLimiter uses m)) /\
              apiCalls (snd (useLimiter uses m)) = apiCalls m /\
              limits (snd (useLimiter uses m)) = limits m).
  { revert m Hfull. induction uses as [|u rest IH]; intros m Hfull.
    - cbn. repeat split. constructor.
    - destruct u as [t op| |]; cbn [useLimiter].
      + rewrite (acquire_full t op m Hfull).
        destruct (IH m Hfull) as (Ha & Hc & Hl).
        destruct (useLimiter rest m) as [l m'']. cbn in *.
        repeat split; try assumption. now constructor.
      + destruct (finishCall_keeps m) as [Hc Hl].
        destruct (IH (finishCall m)) as (Ha & Hc' & Hl').
        { rewrite Hc, (limits_maxCallsPerHour _ _ Hl). exact Hfull. }
        repeat split; [assumption|congruence|congruence].
      + destruct (autoResetBurst_keeps m) as [Hc Hl].
        destruct (IH (autoResetBurst m)) as (Ha & Hc' & Hl').
        { rewrite Hc, (limits_maxCallsPerHour _ _ Hl). exact Hfull. }
        repeat split; [assumption|congruence|congruence]. }
  destruct H as (Ha & Hc & Hl). repeat split; try assumption.
  intros E sheetName w Hm Hv.
  apply getCachedSheetData_denied; [exact Hv|].
  rewrite Hm, canMakeAPICall_full; [reflexivity|].
  now rewrite Hc, (limits_maxCallsPerHour _ _ Hl).
Qed.

Lemma hour_ceiling_never_reopens_witness :
  let busy := snd (completedCalls (everySecond 1000 1000) "clockIn" newMonitor) in
  let later := [timerReset; acquisition 1000000000 "clockIn"; completion;
                acquisition 2000000000 "clockOut"] in
  Forall (fun allowed => allowed = false) (fst (useLimiter later busy)) /\
  apiCalls (snd (useLimiter later busy)) = apiCalls busy.
Proof.
  cbn zeta.
  destruct (hour_ceiling_never_reopens
              [timerReset; acquisition 1000000000 "clockIn"; completion;
               acquisition 2000000000 "clockOut"]
              (snd (completedCalls (everySecond 1000 1000) "clockIn" newMonitor)))
    as (Hall & Hlog & _); [vm_compute; discriminate|].
  split; [exact Hall|exact Hlog].
Defined.

(** ** Relations the operations follow *)

Section Follows.
Context (R : relation World) `{!PreOrder R}.

Lemma follows_ret {A} (a : A) : follows R (mret a).
Proof. intros w. reflexivity. Qed.

Lemma follows_throw {A} (e : string) : follows R (@throw A e).
Proof. intros w. reflexivity. Qed.

Lemma follows_lift {A} (r : result A) : follows R (liftResult r).
Proof. intros w. reflexivity. Qed.

Lemma follows_readService {A} (f : GoogleSheetsService -> A) :
  follows R (readService f).
Proof. intros w. reflexivity. Qed.

Lemma follows_bind {A B} (c : M A) (f : A -> M B) :
  follows R c -> (forall a, follows R (f a)) -> follows R (c ≫= f).
Proof.
  intros Hc Hf w. specialize (Hc w).
  unfold mbind, M_bind. destruct (c w) as [w1 [a|e]]; [|exact Hc].
  etransitivity; [exact Hc|exact (Hf a w1)].
Qed.

Lemma follows_try_catch {A} (c : M A) (h : string -> M A) :
  follows R c -> (forall e, follows R (h e)) -> follows R (try_catch c h).
Proof.
  intros Hc Hh w. specialize (Hc w).
  unfold try_catch. destruct (c w) as [w1 [a|e]]; [exact Hc|].
  etransitivity; [exact Hc|exact (Hh e w1)].
Qed.

Lemma follows_onService {A}
    (f : GoogleSheetsService -> GoogleSheetsService * result A) :
  (forall w, R w (withService (fst (f (sheetsService w))) w)) ->
  follows R (onService f).
Proof.
  intros Hf w. specialize (Hf w). unfold onService.
  destruct (f (sheetsService w)) as [s r]. exact Hf.
Qed.

Lemma follows_onMonitor {A} (f : APIMonitor -> A * APIMonitor) :
  (forall w, R w (withMonitor (snd (f (apiMonitor w))) w)) ->
  follows R (onMonitor f).
Proof.
  intros Hf w. specialize (Hf w). unfold onMonitor.
  destruct (f (apiMonitor w)) as [a m]. exact Hf.
Qed.

Lemma follows_onRemote (f : Sheets -> Sheets) :
  (forall w, R w (withRemote f w)) -> follows R (onRemote f).
Proof. intros Hf w. exact (Hf w). Qed.

Lemma follows_clearAfterWrite (keys : list string) :
  (forall w k, R w (withService (fst (clearCache (Some k) (sheetsService w))) w)) ->
  follows R (clearAfterWrite keys).
Proof.
  intros HR. induction keys as [|k keys IH]; cbn [clearAfterWrite fold_right].
  - apply follows_ret.
  - apply follows_bind; [|intros _; exact IH].
    apply follows_onService. intros w. exact (HR w k).
Qed.

End Follows.

#[local] Instance sameBurst_preorder : PreOrder sameBurst.
Proof.
  split.
  - intros w _. reflexivity.
  - intros w1 w2 w3 H12 H23 Hb. specialize (H12 Hb).
    rewrite <- H12. apply H23. now rewrite H12.
Qed.

#[local] Instance stillEmergency_preorder : PreOrder stillEmergency.
Proof.
  split.
  - intros w Hw. exact Hw.
  - intros w1 w2 w3 H12 H23 Hw. exact (H23 (H12 Hw)).
Qed.

Ltac follows_step side :=
  first
    [ apply follows_ret; exact _ | apply follows_throw; exact _
    | apply follows_lift; exact _
    | apply follows_readService; exact _
    | apply follows_bind; [exact _| |intros ?]
    | apply follows_try_catch; [exact _| |intros ?]
    | apply follows_onService; try exact _; intros ?; side
    | apply follows_onMonitor; try exact _; intros ?; side
    | apply follows_onRemote; try exact _; intros ?; side
    | apply follows_clearAfterWrite; try exact _; intros ? ?; side
    | progress unfold payload
    | match goal with
      | |- follows _ (if ?b then _ else _) => destruct b
      | |- follows _ (match ?x with _ => _ end) => destruct x
      end ].

(** *** Burst slots *)








Lemma currentBurst_finishCall (m : APIMonitor) :
  currentBurst (finishCall m) = if 0 <? currentBurst m then currentBurst m - 1
                                else currentBurst m.
Proof. unfold finishCall. now destruct (0 <? currentBurst m). Qed.

Lemma currentBurst_autoResetBurst (m : APIMonitor) :
  currentBurst (autoResetBurst m) = if 0 <? currentBurst m then 0 else currentBurst m.
Proof. unfold autoResetBurst. now destruct (0 <? currentBurst m). Qed.

Lemma callsInFlight_bound (uses : list LimiterUse) (m : APIMonitor) (base open k : Z) :
  0 <= base -> 0 <= open ->
  callsInFlight open uses m = Some k ->
  0 <= k /\
  (currentBurst m <= base + open -> currentBurst (snd (useLimiter uses m)) <= base + k) /\
  (timerFree uses = true -> currentBurst m = base + open ->
   currentBurst (snd (useLimiter uses m)) = base + k).
Proof.
  intros Hbase. revert m open.
  induction uses as [|u rest IH]; intros m open Hopen Hk.
  - cbn in Hk. injection Hk as <-. cbn. repeat split; auto.
  - destruct u as [t op| |]; cbn [callsInFlight useLimiter timerFree forallb] in *.
    + destruct (acquire_cases t op m) as [Hd|(_ & _ & Ha)].
      * rewrite Hd in Hk |- *. specialize (IH m open Hopen Hk).
        destruct (useLimiter rest m) as [l m'']. exact IH.
      * rewrite Ha in Hk |- *.
        set (m1 := logAPICall t op (withBurst (currentBurst m + 1) m)) in *.
        assert (Hm1 : currentBurst m1 = currentBurst m + 1) by reflexivity.
        specialize (IH m1 (open + 1) ltac:(lia) Hk).
        destruct (useLimiter rest m1) as [l m'']. cbn [snd] in *.
        destruct IH as (IH0 & IH1 & IH2).
        split; [exact IH0|]. split; intros; [apply IH1|apply IH2]; try assumption; lia.
    + destruct (Z.ltb_spec 0 open) as [Hpos|]; [|discriminate Hk].
      specialize (IH (finishCall m) (open - 1) ltac:(lia) Hk).
      destruct IH as (IH0 & IH1 & IH2). rewrite currentBurst_finishCall in IH1, IH2.
      split; [exact IH0|].
      split; intros; [apply IH1|apply IH2]; try assumption;
        destruct (Z.ltb_spec 0 (currentBurst m)); lia.
    + specialize (IH (autoResetBurst m) open Hopen Hk).
      destruct IH as (IH0 & IH1 & _). rewrite currentBurst_autoResetBurst in IH1.
      split; [exact IH0|].
      split; [|discriminate].
      intros. apply IH1. destruct (Z.ltb_spec 0 (currentBurst m)); lia.
Qed.

(** X11 (canMakeAPICall, finishCall, the reset timer).  No burst slot
    leaks, however the calls and the reset timer interleave: when every
    [finishCall()] ends a call that was granted and is still in flight,
    the burst count never exceeds its value at the start plus the number
    of calls in flight, so once every call has finished it is no higher
    than before; and as long as the timer does not fire it is exactly
    that sum. *)
Theorem burst_slots_never_leak (uses : list LimiterUse) (m : APIMonitor) (k : Z) :
  0 <= currentBurst m ->
  callsInFlight 0 uses m = Some k ->
  let m' := snd (useLimiter uses m) in
  0 <= k /\
  currentBurst m' <= currentBurst m + k /\
  (timerFree uses = true -> currentBurst m' = currentBurst m + k).
Proof.
  intros Hb Hk m'.
  destruct (callsInFlight_bound uses m (currentBurst m) 0 k Hb ltac:(lia) Hk)
    as (H0 & H1 & H2).
  split; [exact H0|]. split; [apply H1; lia|].
  intros Hfree. apply H2; [exact Hfree|lia].
Qed.

Lemma burst_slots_never_leak_witness :
  let route := acquisition 1000 "clockIn" in
  let read := acquisition 1001 "getCachedSheetData:ON WORK" in
  currentBurst (snd (useLimiter [route; read; completion; completion] newMonitor)) = 0 /\
  currentBurst (snd (useLimiter [route; read; timerReset; completion; completion]
                       newMonitor)) <= 0 /\
  currentBurst (snd (useLimiter [read; timerReset; completion]
                       (snd (useLimiter [route] newMonitor)))) = 0.
Proof.
  cbn zeta. split; [|split].
  - apply (burst_slots_never_leak
             [acquisition 1000 "clockIn"; acquisition 1001 "getCachedSheetData:ON WORK";
              completion; completion] newMonitor 0); reflexivity.
  - apply (burst_slots_never_leak
             [acquisition 1000 "clockIn"; acquisition 1001 "getCachedSheetData:ON WORK";
              timerReset; completion; completion] newMonitor 0); reflexivity.
  - reflexivity.
Defined.

(** *** Emergency mode *)

Lemma emergencyMode_setCache (key : string) (d : list Row) (t : Z)
    (s : GoogleSheetsService) :
  emergencyMode (setCache key d t s) = emergencyMode s.
Proof.
  unfold setCache. destruct (cache s !! key); cbn.
  - destruct (cache s !! key); reflexivity.
  - rewrite lookup_insert_eq. reflexivity.
Qed.

Lemma emergencyMode_clearCache (k : option string) (s : GoogleSheetsService) :
  emergencyMode (fst (clearCache k s)) = emergencyMode s.
Proof.
  unfold clearCache. destruct (Js.truthy k); [|reflexivity].
  destruct (cache s !! Js.str k); reflexivity.
Qed.

Ltac emergency_side :=
  intros ?; unfold withService, withMonitor, withRemote;
  cbn [sheetsService apiMonitor remote fst snd];
  rewrite ?emergencyMode_setCache, ?emergencyMode_clearCache;
  first [ assumption | reflexivity ].

Lemma staysInEmergency_getCachedSheetData (E : Env) (sheetName : string) :
  staysInEmergency (getCachedSheetData E sheetName).
Proof.
  unfold staysInEmergency, getCachedSheetData. repeat follows_step emergency_side.
Qed.

Lemma staysInEmergency_getEmployeeStatus (E : Env) (employee : string) :
  staysInEmergency (getEmployeeStatus E employee).
Proof.
  unfold staysInEmergency, getEmployeeStatus, getEmployeeStatusFrom,
    safeGetCachedSheetData.
  repeat first [ apply staysInEmergency_getCachedSheetData
               | follows_step emergency_side ].
Qed.

Ltac emergency_step :=
  first
    [ apply staysInEmergency_getCachedSheetData
    | apply staysInEmergency_getEmployeeStatus
    | follows_step emergency_side ].

Lemma staysInEmergency_processMissedCheckout `{TimeLib} (E : Env)
    (clockInTime mainRowIndex : option string) (cutoffTime : Z) (workRow : Row) :
  staysInEmergency (processMissedCheckout E clockInTime mainRowIndex cutoffTime workRow).
Proof.
  unfold staysInEmergency, processMissedCheckout, updateMainRow, deleteSession.
  repeat emergency_step.
Qed.

Lemma staysInEmergency_sweepRows `{TimeLib} (cfg : AutoCheckout) (E : Env)
    (today cutoffTime : Z) (rows : list Row) (acc : SweepCount) :
  staysInEmergency (sweepRows cfg E today cutoffTime acc rows).
Proof.
  unfold staysInEmergency. revert acc.
  induction rows as [|r rows IH]; intros acc; cbn [sweepRows].
  - apply follows_ret; exact _.
  - apply follows_bind; [exact _| |intros acc'; apply IH].
    unfold sweepRow.
    repeat first [ apply staysInEmergency_processMissedCheckout | emergency_step ].
Qed.

(** X8 (setEmergencyMode, safeGetCachedSheetData).  No read, status
    check, clock-in, clock-out or sweep switches emergency mode off:
    once on it stays on through all of them; and a safe read whose fetch
    throws leaves it on. *)
Theorem emergency_mode_is_never_left `{TimeLib} (cfg : AutoCheckout) (E : Env)
    (sheetName employee : string) (d : ClockData) :
  staysInEmergency (getCachedSheetData E sheetName) /\
  staysInEmergency (safeGetCachedSheetData E sheetName) /\
  staysInEmergency (getEmployeeStatus E employee) /\
  staysInEmergency (clockIn E d) /\
  staysInEmergency (clockOut E d) /\
  staysInEmergency (checkAndHandleMissedCheckouts cfg E) /\
  (forall w e w1,
      getCachedSheetData E sheetName w = (w1, Throw e) ->
      emergencyMode (sheetsService (fst (safeGetCachedSheetData E sheetName w))) = true).
Proof.
  repeat split.
  - apply staysInEmergency_getCachedSheetData.
  - unfold staysInEmergency, safeGetCachedSheetData. repeat emergency_step.
  - apply staysInEmergency_getEmployeeStatus.
  - unfold staysInEmergency, clockIn. repeat emergency_step.
  - unfold staysInEmergency, clockOut, updateMainRow, deleteSession.
    repeat emergency_step.
  - unfold staysInEmergency, checkAndHandleMissedCheckouts.
    repeat first [ apply staysInEmergency_sweepRows | emergency_step ].
  - intros w e w1 Hthrow.
    rewrite (safeGetCachedSheetData_caught _ _ _ _ _ Hthrow). cbn [fst].
    destruct (emergencyMode (sheetsService w1)) eqn:Hm; [exact Hm|].
    now rewrite setEmergencyMode_on.
Qed.

(** ** What the sweeper removes and counts *)

Lemma withoutRows_nil (l : list Row) : withoutRows [] l = l.
Proof. unfold withoutRows. apply filter_all. reflexivity. Qed.

Lemma withoutRows_app (a b : list Row) (l : list Row) :
  withoutRows b (withoutRows a l) = withoutRows (a ++ b) l.
Proof.
  unfold withoutRows. induction l as [|x l IH]; cbn; [reflexivity|].
  rewrite forallb_app.
  destruct (forallb (fun r => negb (rowNumber x =? rowNumber r)) a); cbn.
  - destruct (forallb (fun r => negb (rowNumber x =? rowNumber r)) b); now rewrite IH.
  - exact IH.
Qed.


#[local] Instance removesOnly_preorder (P : Row -> Prop) : PreOrder (removesOnly P).
Proof.
  split.
  - intros w. exists []. split; [constructor|]. now rewrite withoutRows_nil.
  - intros w1 w2 w3 (a & Ha & H12) (b & Hb & H23).
    exists (a ++ b)%list. split; [now apply Forall_app|].
    now rewrite H23, H12, withoutRows_app.
Qed.










(** ** Clock-in *)

Lemma remote_clearAfterWrite (keys : list string) (w : World) :
  remote (fst (clearAfterWrite keys w)) = remote w.
Proof. exact (keeps_clearAfterWrite id keys w). Qed.

Lemma clockIn_written `{TimeLib} (E : Env) (d : ClockData) (w w1 : World)
    (st : EmployeeStatus) (n num : Z) :
  getEmployeeStatus E (employee d) w = (w1, Ok st) ->
  isOnWork st = false ->
  getSheet E CONFIG.MAIN = Ok tt -> addRow E CONFIG.MAIN = Ok n ->
  getSheet E CONFIG.ON_WORK = Ok tt -> addRow E CONFIG.ON_WORK = Ok num ->
  let ts := resolveTimestamp E (mock_time d) in
  let written :=
    withRemote (fun sh => appendSession (openSession d ts n num)
                            (writeCells n (clockInCells d ts (locationName E)) sh)) w1 in
  clockIn E d w =
  match clearAfterWrite ["onwork"; "main"; "stats"] written with
  | (w', Ok _) => (w', Ok (clockedIn (employee d) ts))
  | (w', Throw e) => (w', Ok (clockOutFailed (employee d) e))
  end.
Proof.
  intros Hst Hoff Hs1 Ha1 Hs2 Ha2 ts written.
  unfold clockIn. unfold try_catch at 1.
  rewrite (bind_ok _ _ _ _ _ Hst). rewrite Hoff. cbn iota. fold ts.
  rewrite Hs1, Ha1, Hs2, Ha2.
  munfold. cbn -[clearAfterWrite writeCells appendSession openSession clockInCells].
  unfold written, withRemote.
  destruct (clearAfterWrite _ _) as [w' [[]|e]]; reflexivity.
Qed.

Lemma clockInCells_row `{TimeLib} (d : ClockData) (ts location : string) (n : Z)
    (sh : Sheets) :
  map (fun col => mainCells (writeCells n (clockInCells d ts location) sh) !! (col, n))
      mainColumns
  = map Some [employee d; line_name d;
              "=IMAGE(" ++ String (ascii_of_nat 34) (line_picture d)
                ++ String (ascii_of_nat 34) ")";
              ts; Js.str (Js.or_else (userinfo d) (Some ""));
              ""; lat d ++ "," ++ lon d; location; ""; ""; ""].
Proof.
  unfold mainColumns. cbn [map].
  rewrite !writeCells_lookup. destruct (decide (n = n)); [|congruence].
  reflexivity.
Qed.

(** The world a successful clock-in leaves. *)
Lemma clockIn_appended `{TimeLib} (E : Env) (d : ClockData) (w w1 : World)
    (st : EmployeeStatus) (n num : Z) :
  getEmployeeStatus E (employee d) w = (w1, Ok st) ->
  isOnWork st = false ->
  getSheet E CONFIG.MAIN = Ok tt -> addRow E CONFIG.MAIN = Ok n ->
  getSheet E CONFIG.ON_WORK = Ok tt -> addRow E CONFIG.ON_WORK = Ok num ->
  Forall (fun k => is_Some (cache (sheetsService w1) !! k)) ["onwork"; "main"; "stats"] ->
  let ts := resolveTimestamp E (mock_time d) in
  exists w',
    clockIn E d w = (w', Ok (clockedIn (employee d) ts)) /\
    remote w' = appendSession (openSession d ts n num)
                  (writeCells n (clockInCells d ts (locationName E)) (remote w)) /\
    apiMonitor w' = apiMonitor w1 /\
    (forall k, cache (sheetsService w') !! k =
               if in_dec string_dec k ["onwork"; "main"; "stats"]
               then clearEntry <$> cache (sheetsService w1) !! k
               else cache (sheetsService w1) !! k).
Proof.
  intros Hst Hoff Hs1 Ha1 Hs2 Ha2 Hkeys ts.
  rewrite (clockIn_written E d w w1 st n num Hst Hoff Hs1 Ha1 Hs2 Ha2). cbn zeta.
  fold ts.
  set (written := withRemote _ w1).
  destruct (clearAfterWrite_present ["onwork"; "main"; "stats"] written)
    as (w' & Hrun & Hmon & Hrem & _ & Hcache).
  { inversion Hkeys as [|? ? Hk1 Hr1]; inversion Hr1 as [|? ? Hk2 Hr2];
    inversion Hr2 as [|? ? Hk3 _]; subst.
    repeat (constructor; [split; [discriminate|assumption]|]). constructor. }
  exists w'. rewrite Hrun. split; [reflexivity|].
  rewrite Hrem, Hmon. unfold written, withRemote. cbn [remote apiMonitor].
  rewrite <- (remote_getEmployeeStatus _ _ _ _ _ Hst).
  split; [reflexivity|]. split; [reflexivity|exact Hcache].
Qed.

(** X12 (clockIn).  When the status check finds the employee not on work
    and the four remote calls succeed, [clockIn] reports success,
    appends to ON WORK one session that refers to the new ledger row,
    writes the eleven cells A to K of that row (clock-out, exit
    coordinates, exit location and hours empty) and no cell of another
    row, and empties the cache entries [onwork], [main] and [stats]. *)
Theorem clockIn_appends_both_rows `{TimeLib} (E : Env) (d : ClockData) (w w1 : World)
    (st : EmployeeStatus) (n num : Z) :
  getEmployeeStatus E (employee d) w = (w1, Ok st) ->
  isOnWork st = false ->
  getSheet E CONFIG.MAIN = Ok tt -> addRow E CONFIG.MAIN = Ok n ->
  getSheet E CONFIG.ON_WORK = Ok tt -> addRow E CONFIG.ON_WORK = Ok num ->
  Forall (fun k => is_Some (cache (sheetsService w1) !! k)) ["onwork"; "main"; "stats"] ->
  let ts := resolveTimestamp E (mock_time d) in
  exists w',
    clockIn E d w = (w', Ok (clockedIn (employee d) ts)) /\
    onWorkSheet (remote w') = (onWorkSheet (remote w) ++ [openSession d ts n num])%list /\
    map (fun col => mainCells (remote w') !! (col, n)) mainColumns
      = map Some [employee d; line_name d;
                  "=IMAGE(" ++ String (ascii_of_nat 34) (line_picture d)
                    ++ String (ascii_of_nat 34) ")";
                  ts; Js.str (Js.or_else (userinfo d) (Some ""));
                  ""; lat d ++ "," ++ lon d; locationName E; ""; ""; ""] /\
    (forall col r, r <> n ->
        mainCells (remote w') !! (col, r) = mainCells (remote w) !! (col, r)) /\
    (forall k, In k ["onwork"; "main"; "stats"] ->
        getCache (sheetsService w') k = None) /\
    apiMonitor w' = apiMonitor w1.
Proof.
  intros Hst Hoff Hs1 Ha1 Hs2 Ha2 Hkeys ts.
  destruct (clockIn_appended E d w w1 st n num Hst Hoff Hs1 Ha1 Hs2 Ha2 Hkeys)
    as (w' & Hrun & Hrem & Hmon & Hcache).
  fold ts in Hrun, Hrem.
  exists w'. split; [exact Hrun|]. rewrite Hrem.
  split; [reflexivity|].
  split; [apply clockInCells_row|].
  split.
  { intros col r Hr. cbn [appendSession mainCells]. rewrite writeCells_lookup.
    destruct (decide (r = n)); [congruence|reflexivity]. }
  split; [|exact Hmon].
  intros k Hk. unfold getCache. rewrite Hcache.
  destruct (in_dec string_dec k ["onwork"; "main"; "stats"]) as [_|Hn]; [|contradiction].
  destruct (cache (sheetsService w1) !! k); reflexivity.
Qed.

Lemma getCachedSheetData_throw_service (E : Env) (sheetName : string) (w w0 : World)
    (e : string) :
  getCachedSheetData E sheetName w = (w0, Throw e) ->
  sheetsService w0 = sheetsService w.
Proof.
  intros Hrun.
  destruct (isCacheValid (sheetsService w) (cacheKeyOf sheetName) (now E)) eqn:Hv.
  - destruct (getCachedSheetData_fresh E sheetName w Hv) as (d & _ & Heq). congruence.
  - destruct (canMakeAPICall (now E) (apiMonitor w)) as [[|] m1] eqn:Hc.
    + rewrite (getCachedSheetData_allowed E sheetName w m1 Hv Hc) in Hrun.
      cbn zeta in Hrun. destruct (fetchRows E sheetName); [congruence|].
      injection Hrun as <- _. reflexivity.
    + rewrite (getCachedSheetData_denied E sheetName w Hv) in Hrun by now rewrite Hc.
      injection Hrun as <- _. reflexivity.
Qed.

(** X13 (clockIn, clearCache).  On a service whose cache has no [onwork]
    entry (the constructor creates [onWork]), when the read of ON WORK
    fails and the appends succeed, [clockIn] writes the ledger row and
    the session and then reports a failure: [clearCache('onwork')]
    throws a [TypeError] that the outer [catch] turns into the result.
    The rows stay written and emergency mode is on. *)
Theorem clockIn_fails_after_writing `{TimeLib} (E : Env) (d : ClockData) (w w0 : World)
    (e : string) (n num : Z) :
  cache (sheetsService w) !! "onwork" = None ->
  getCachedSheetData E CONFIG.ON_WORK w = (w0, Throw e) ->
  getSheet E CONFIG.MAIN = Ok tt -> addRow E CONFIG.MAIN = Ok n ->
  getSheet E CONFIG.ON_WORK = Ok tt -> addRow E CONFIG.ON_WORK = Ok num ->
  let ts := resolveTimestamp E (mock_time d) in
  exists w',
    clockIn E d w = (w', Ok (clockOutFailed (employee d) (TypeError_set "data"))) /\
    onWorkSheet (remote w') = (onWorkSheet (remote w) ++ [openSession d ts n num])%list /\
    mainCells (remote w') !! ("A", n) = Some (employee d) /\
    mainCells (remote w') !! ("D", n) = Some ts /\
    emergencyMode (sheetsService w') = true.
Proof.
  intros Hnone Hthrow Hs1 Ha1 Hs2 Ha2 ts.
  pose proof (getCachedSheetData_throw_service _ _ _ _ _ Hthrow) as Hsvc.
  pose proof (safeGetCachedSheetData_caught _ _ _ _ _ Hthrow) as Hsafe.
  set (w1 := if emergencyMode (sheetsService w0) then w0
             else withService (fst (setEmergencyMode true (sheetsService w0))) w0) in Hsafe.
  assert (Hkey : cache (sheetsService w1) !! "onwork" = None).
  { unfold w1. destruct (emergencyMode (sheetsService w0)).
    - now rewrite Hsvc.
    - rewrite setEmergencyMode_on. cbn. now rewrite lookup_fmap, Hsvc, Hnone. }
  assert (Hem : emergencyMode (sheetsService w1) = true).
  { unfold w1. destruct (emergencyMode (sheetsService w0)) eqn:Hm; [exact Hm|].
    now rewrite setEmergencyMode_on. }
  change (cacheKeyOf CONFIG.ON_WORK) with "onwork" in Hsafe.
  assert (Hget : getCache (sheetsService w0) "onwork" = None).
  { unfold getCache. now rewrite Hsvc, Hnone. }
  rewrite Hget in Hsafe. cbn [default from_option] in Hsafe.
  pose proof (getEmployeeStatus_of_rows E (employee d) w w1 [] Hsafe) as Hst.
  cbn [List.find] in Hst.
  rewrite (clockIn_written E d w w1 notWorking n num Hst eq_refl Hs1 Ha1 Hs2 Ha2).
  cbn zeta. fold ts. set (written := withRemote _ w1).
  assert (Hclear : clearAfterWrite ["onwork"; "main"; "stats"] written
                   = (written, Throw (TypeError_set "data"))).
  { cbn [clearAfterWrite fold_right]. apply bind_throw.
    unfold onService, clearCache. cbn [Js.truthy Js.str default from_option].
    change (negb ("onwork" =? "")%string) with true. cbn iota.
    change (sheetsService written) with (sheetsService w1).
    change (id "onwork") with "onwork". rewrite Hkey.
    unfold written, withRemote. cbn. reflexivity. }
  rewrite Hclear. exists written. split; [reflexivity|].
  unfold written, withRemote. cbn [remote sheetsService].
  assert (Hrem : remote w1 = remote w).
  { exact (remote_getEmployeeStatus _ _ _ _ _ Hst). }
  rewrite Hrem. split; [reflexivity|].
  split; [|split; [|exact Hem]].
  - cbn [appendSession mainCells]. rewrite writeCells_lookup.
    destruct (decide (n = n)); [reflexivity|congruence].
  - cbn [appendSession mainCells]. rewrite writeCells_lookup.
    destruct (decide (n = n)); [reflexivity|congruence].
Qed.

Lemma clockIn_fails_after_writing_witness :
  let E := Scenario.unreadable "Quota exceeded for quota metric 'Read requests'"
             (Scenario.calm Scenario.t0800 [] []) in
  let out := clockIn (H := Bangkok.time) E Scenario.somchai (Scenario.started []) in
  success <$> match snd out with Ok res => Some res | Throw _ => None end = Some false /\
  length (onWorkSheet (remote (fst out))) = 1%nat /\
  mainCells (remote (fst out)) !! ("A", 2) = Some "Somchai".
Proof.
  cbn zeta.
  destruct (clockIn_fails_after_writing (H := Bangkok.time)
              (Scenario.unreadable "Quota exceeded for quota metric 'Read requests'"
                 (Scenario.calm Scenario.t0800 [] []))
              Scenario.somchai (Scenario.started [])
              (fst (getCachedSheetData
                      (Scenario.unreadable "Quota exceeded for quota metric 'Read requests'"
                         (Scenario.calm Scenario.t0800 [] []))
                      CONFIG.ON_WORK (Scenario.started [])))
              "Quota exceeded for quota metric 'Read requests'" 2 2)
    as (w' & Hrun & Hrows & HA & _); try (vm_compute; reflexivity).
  rewrite Hrun. cbn [fst snd]. rewrite Hrows, HA.
  repeat split; reflexivity.
Defined.

Lemma clockIn_appends_both_rows_witness :
  let E := Scenario.calm Scenario.t0800 [] [] in
  exists w',
    clockIn (H := Bangkok.time) E Scenario.somchai (Scenario.started [])
      = (w', Ok (clockedIn (H := Bangkok.time) "Somchai" "01/01/2025 08:00:00")) /\
    onWorkSheet (remote w')
      = [openSession Scenario.somchai "01/01/2025 08:00:00" 2 2] /\
    mainCells (remote w') !! ("D", 2) = Some "01/01/2025 08:00:00" /\
    mainCells (remote w') !! ("F", 2) = Some "".
Proof.
  cbn zeta.
  destruct (clockIn_appends_both_rows (H := Bangkok.time)
              (Scenario.calm Scenario.t0800 [] []) Scenario.somchai
              (Scenario.started [])
              (fst (getEmployeeStatus (Scenario.calm Scenario.t0800 [] []) "Somchai"
                                      (Scenario.started [])))
              notWorking 2 2)
    as (w' & Hrun & Hrows & Hcells & _); try (vm_compute; reflexivity).
  { repeat constructor; vm_compute; eauto. }
  exists w'. split; [exact Hrun|]. split; [exact Hrows|].
  unfold mainColumns in Hcells. cbn [map] in Hcells.
  injection Hcells as _ _ _ HD _ HF _ _ _ _ _.
  split; [exact HD|exact HF].
Defined.

(** ** Clock-in, then clock-out *)

Lemma find_app_last {A} (p : A -> bool) (l : list A) (x : A) :
  (forall y, In y l -> p y = false) -> p x = true ->
  List.find p (l ++ [x]) = Some x.
Proof.
  intros Hl Hx. induction l as [|y l IH]; cbn.
  - now rewrite Hx.
  - rewrite (Hl y (or_introl eq_refl)). apply IH. intros z Hz. apply Hl. now right.
Qed.

Lemma matchesSession_openSession (d : ClockData) (ts : string) (n num : Z) :
  employee d <> "" -> matchesSession (employee d) (openSession d ts n num) = true.
Proof.
  intros Hne. unfold matchesSession.
  change (get (openSession d ts n num) Header.systemName) with (Some (employee d)).
  unfold isNameMatch. rewrite (truthy_Some _ Hne). cbn [negb orb].
  now rewrite String.eqb_refl.
Qed.

Lemma getEmployeeStatus_openSession (E : Env) (d : ClockData) (ts : string) (n num : Z)
    (w w1 : World) (before : list Row) :
  employee d <> "" ->
  (forall r, In r before -> matchesSession (employee d) r = false) ->
  safeGetCachedSheetData E CONFIG.ON_WORK w
    = (w1, Ok (before ++ [openSession d ts n num])%list) ->
  getEmployeeStatus E (employee d) w =
  (w1, Ok {| isOnWork := true;
             workRecord := Some {| WorkRecord.row := openSession d ts n num;
                                   WorkRecord.mainRowIndex := Some n;
                                   WorkRecord.clockIn := Some ts;
                                   WorkRecord.systemName := Some (employee d);
                                   WorkRecord.employeeName := Some (employee d) |} |}).
Proof.
  intros Hne Hbefore Hsafe.
  rewrite (getEmployeeStatus_of_rows _ _ _ _ _ Hsafe).
  rewrite (find_app_last _ _ _ Hbefore (matchesSession_openSession d ts n num Hne)).
  change (get (openSession d ts n num) Header.rowRef) with (Some (Js.ofZ n)).
  rewrite numericRef_ofZ. reflexivity.
Qed.

(** X14 (clockIn, clockOut).  A clock-in followed by a clock-out of the
    same employee, the remote calls succeeding and the second operation
    reading the sheets as the first left them: the session appended is
    the one found, the ledger row it refers to is the one closed (stage
    1), ON WORK is back to what it was, and the ledger row holds the
    name, the clock-in stamp, the clock-out stamp and the hours; no
    other row of MAIN differs. *)
Theorem clockIn_then_clockOut `{TimeLib} (E1 E2 : Env) (d : ClockData)
    (w wa wb wc : World) (st : EmployeeStatus) (n num : Z) (ledger : list Row)
    (mainRow : Row) :
  let ts1 := resolveTimestamp E1 (mock_time d) in
  let ts2 := resolveTimestamp E2 (mock_time d) in
  let w1 := fst (clockIn E1 d w) in
  let w2 := fst (clockOut E2 d w1) in
  employee d <> "" ->
  (forall r, In r (onWorkSheet (remote w)) ->
             matchesSession (employee d) r = false /\ rowNumber r <> num) ->
  getEmployeeStatus E1 (employee d) w = (wa, Ok st) ->
  isOnWork st = false ->
  getSheet E1 CONFIG.MAIN = Ok tt -> addRow E1 CONFIG.MAIN = Ok n ->
  getSheet E1 CONFIG.ON_WORK = Ok tt -> addRow E1 CONFIG.ON_WORK = Ok num ->
  Forall (fun k => is_Some (cache (sheetsService wa) !! k)) ["onwork"; "main"; "stats"] ->
  safeGetCachedSheetData E2 CONFIG.ON_WORK w1 = (wb, Ok (onWorkSheet (remote w1))) ->
  getSheet E2 CONFIG.MAIN = Ok tt ->
  getCachedSheetData E2 CONFIG.MAIN wb = (wc, Ok ledger) ->
  1 < n -> ledger !! Z.to_nat (n - 2) = Some mainRow -> rowNumber mainRow = n ->
  isNameMatch (Some (employee d)) (get mainRow Header.employeeName) = true ->
  saveCells E2 n = Ok tt ->
  deleteRow E2 (openSession d ts1 n num) = Ok tt ->
  snd (clockIn E1 d w) = Ok (clockedIn (employee d) ts1) /\
  snd (clockOut E2 d w1)
    = Ok (clockedOut (employee d) ts2
            (calculateWorkingHours (now E2) (Some ts1) (Some ts2))) /\
  onWorkSheet (remote w1) = (onWorkSheet (remote w) ++ [openSession d ts1 n num])%list /\
  onWorkSheet (remote w2) = onWorkSheet (remote w) /\
  mainCells (remote w2) !! ("A", n) = Some (employee d) /\
  mainCells (remote w2) !! ("D", n) = Some ts1 /\
  mainCells (remote w2) !! ("F", n) = Some ts2 /\
  mainCells (remote w2) !! ("K", n)
    = Some (Js.toFixed2 (calculateWorkingHours (now E2) (Some ts1) (Some ts2))) /\
  (forall col r, r <> n ->
     mainCells (remote w2) !! (col, r) = mainCells (remote w) !! (col, r)).
Proof.
  intros ts1 ts2 w1 w2 Hne Hbefore Hst Hoff Hs1 Ha1 Hs2 Ha2 Hkeys Hread Hs3 Hmain
         Hn Hrow Hnum Hname Hsave Hdel.
  destruct (clockIn_appended E1 d w wa st n num Hst Hoff Hs1 Ha1 Hs2 Ha2 Hkeys)
    as (w' & Hin & Hleft & _).
  fold ts1 in Hin, Hleft.
  assert (Hw1 : w1 = w') by (unfold w1; now rewrite Hin).
  rewrite <- Hw1 in Hleft.
  assert (Hsheet : onWorkSheet (remote w1)
                   = (onWorkSheet (remote w) ++ [openSession d ts1 n num])%list)
    by now rewrite Hleft.
  assert (Hcell : forall col r,
             mainCells (remote w1) !! (col, r)
             = mainCells (writeCells n (clockInCells d ts1 (locationName E1)) (remote w))
                 !! (col, r))
    by (intros col r; now rewrite Hleft).
  rewrite Hsheet in Hread.
  pose proof (getEmployeeStatus_openSession E2 d ts1 n num w1 wb
                (onWorkSheet (remote w)) Hne
                (fun r Hr => proj1 (Hbefore r Hr)) Hread) as Hstatus.
  set (wr := {| WorkRecord.row := openSession d ts1 n num;
                WorkRecord.mainRowIndex := Some n;
                WorkRecord.clockIn := Some ts1;
                WorkRecord.systemName := Some (employee d);
                WorkRecord.employeeName := Some (employee d) |}) in Hstatus.
  assert (Hfind : findMainRow (employee d) wr ledger = Some mainRow).
  { unfold findMainRow.
    assert (Hidx : rowByIndex (employee d) wr ledger = Some mainRow).
    { apply rowByIndex_Some. exists n. repeat split; try assumption. }
    now rewrite Hidx. }
  pose proof (clockOut_after_status E2 d w1 wb wc wr ledger Hstatus Hs3 Hmain) as Hout.
  rewrite Hfind, Hnum, Hsave in Hout. cbn zeta in Hout.
  change (WorkRecord.row wr) with (openSession d ts1 n num) in Hout.
  rewrite Hdel in Hout.
  assert (Hrem : remote w2
                 = removeRow (openSession d ts1 n num)
                     (writeCells n (clockOutBatch E2 d wr) (remote w1))).
  { unfold w2. rewrite Hout. cbn [fst]. rewrite remote_clearAfterWrite.
    unfold withRemote. cbn [remote].
    rewrite (remote_getCachedSheetData _ _ _ _ _ Hmain).
    now rewrite (remote_getEmployeeStatus _ _ _ _ _ Hstatus). }
  split; [now rewrite Hin|].
  split; [unfold w2; rewrite Hout; reflexivity|].
  split; [exact Hsheet|].
  rewrite Hrem. cbn [removeRow onWorkSheet mainCells].
  rewrite writeCells_onWorkSheet, Hsheet.
  split.
  { rewrite List.filter_app. cbn [List.filter openSession rowNumber].
    rewrite Z.eqb_refl. cbn [negb]. rewrite app_nil_r.
    apply filter_all. intros r Hr. destruct (Hbefore r Hr) as [_ Hr'].
    apply negb_true_iff, Z.eqb_neq. exact Hr'. }
  assert (HA : mainCells (remote w1) !! ("A", n) = Some (employee d)).
  { rewrite Hcell, writeCells_lookup. destruct (decide (n = n)); [reflexivity|congruence]. }
  assert (HD : mainCells (remote w1) !! ("D", n) = Some ts1).
  { rewrite Hcell, writeCells_lookup. destruct (decide (n = n)); [reflexivity|congruence]. }
  rewrite !writeCells_lookup.
  destruct (decide (n = n)); [|congruence].
  repeat split; try assumption; try reflexivity.
  intros col r Hr. rewrite writeCells_lookup.
  destruct (decide (r = n)); [congruence|].
  rewrite Hcell, writeCells_lookup.
  destruct (decide (r = n)); [congruence|reflexivity].
Qed.

Lemma limiter_stays_within_ceilings_witness :
  let m' := snd (useLimiter [acquisition 1000 "clockIn"; acquisition 1001 "clockOut";
                             completion; completion; completion; timerReset;
                             acquisition 1002 "clockIn"] newMonitor) in
  0 <= currentBurst m' <= burstLimit m' /\
  Z.of_nat (length (apiCalls m')) <= maxCallsPerHour m' /\
  limits m' = limits newMonitor.
Proof.
  apply (limiter_stays_within_ceilings
           [acquisition 1000 "clockIn"; acquisition 1001 "clockOut";
            completion; completion; completion; timerReset;
            acquisition 1002 "clockIn"] newMonitor); vm_compute; intuition discriminate.
Defined.

Lemma find_app_first {A} (p : A -> bool) (l after : list A) (x : A) :
  (forall y, In y l -> p y = false) -> p x = true ->
  List.find p (l ++ x :: after) = Some x.
Proof.
  intros Hl Hx. induction l as [|y l IH]; cbn.
  - now rewrite Hx.
  - rewrite (Hl y (or_introl eq_refl)). apply IH. intros z Hz. apply Hl. now right.
Qed.

(** X4 (getEmployeeStatus).  The number of the ledger row that a session
    holds in a reference column is read back unchanged: [parseInt]
    inverts the decimal rendering of a safe integer, so the status check
    of an employee whose first matching session holds the rendering of
    [n] in the first reference column, or in the second when the first
    holds no number, returns [n] as [mainRowIndex], with the session and
    its clock-in stamp. *)
Theorem session_reference_round_trip (E : Env) (employee : string) (n : Z)
    (w w1 : World) (before after : list Row) (found : Row) :
  isSafeInteger n = true ->
  (forall r, In r before -> matchesSession employee r = false) ->
  matchesSession employee found = true ->
  get found Header.rowRef = Some (Js.ofZ n) \/
  (numericRef (get found Header.rowRef) = None /\
   get found Header.rowInMain = Some (Js.ofZ n)) ->
  safeGetCachedSheetData E CONFIG.ON_WORK w
    = (w1, Ok (before ++ found :: after)%list) ->
  Js.parseInt (Js.ofZ n) = Some n /\
  exists wr,
    getEmployeeStatus E employee w
      = (w1, Ok {| isOnWork := true; workRecord := Some wr |}) /\
    WorkRecord.row wr = found /\
    WorkRecord.mainRowIndex wr = Some n /\
    WorkRecord.clockIn wr = get found Header.clockIn.
Proof.
  intros _ Hbefore Hfound Href Hsafe.
  split; [apply parseInt_ofZ|].
  rewrite (getEmployeeStatus_of_rows _ _ _ _ _ Hsafe).
  rewrite (find_app_first _ _ _ _ Hbefore Hfound).
  eexists. split; [reflexivity|]. cbn [WorkRecord.row WorkRecord.mainRowIndex WorkRecord.clockIn].
  split; [reflexivity|]. split; [|reflexivity].
  destruct Href as [H1|[H1 H2]].
  - now rewrite H1, numericRef_ofZ.
  - now rewrite H1, H2, numericRef_ofZ.
Qed.

Lemma session_reference_round_trip_witness :
  let session := Scenario.sessionRow 2 "Somchai" "01/01/2025 08:00:00" "1234" in
  let E := Scenario.calm Scenario.t1300 [session] [] in
  Js.ofZ 1234 = "1234" /\
  exists wr,
    snd (getEmployeeStatus E "Somchai" (Scenario.started [session]))
      = Ok {| isOnWork := true; workRecord := Some wr |} /\
    WorkRecord.mainRowIndex wr = Some 1234.
Proof.
  cbn zeta. split; [reflexivity|].
  destruct (session_reference_round_trip
              (Scenario.calm Scenario.t1300
                 [Scenario.sessionRow 2 "Somchai" "01/01/2025 08:00:00" "1234"] [])
              "Somchai" 1234
              (Scenario.started [Scenario.sessionRow 2 "Somchai" "01/01/2025 08:00:00" "1234"])
              (fst (safeGetCachedSheetData
                      (Scenario.calm Scenario.t1300
                         [Scenario.sessionRow 2 "Somchai" "01/01/2025 08:00:00" "1234"] [])
                      CONFIG.ON_WORK
                      (Scenario.started
                         [Scenario.sessionRow 2 "Somchai" "01/01/2025 08:00:00" "1234"])))
              [] [] (Scenario.sessionRow 2 "Somchai" "01/01/2025 08:00:00" "1234"))
    as (_ & wr & Hrun & _ & Hidx & _).
  - reflexivity.
  - intros r [].
  - reflexivity.
  - left. reflexivity.
  - vm_compute. reflexivity.
  - exists wr. rewrite Hrun. split; [reflexivity|exact Hidx].
Defined.

Lemma clockIn_then_clockOut_witness :
  let morning := Scenario.calm Scenario.t0800 [] [] in
  let w1 := fst (clockIn (H := Bangkok.time) morning Scenario.somchai
                         (Scenario.started [])) in
  let evening := Scenario.calm Scenario.t1730 (onWorkSheet (remote w1))
                   [Scenario.ledgerRow 2 "Somchai" "01/01/2025 08:00:00" ""] in
  let w2 := fst (clockOut (H := Bangkok.time) evening Scenario.somchai w1) in
  length (onWorkSheet (remote w1)) = 1%nat /\
  onWorkSheet (remote w2) = [] /\
  mainCells (remote w2) !! ("D", 2) = Some "01/01/2025 08:00:00" /\
  mainCells (remote w2) !! ("F", 2) = Some "01/01/2025 17:30:00".
Proof.
  cbn zeta.
  set (morning := Scenario.calm Scenario.t0800 [] []).
  set (w1 := fst (clockIn (H := Bangkok.time) morning Scenario.somchai
                          (Scenario.started []))).
  set (evening := Scenario.calm Scenario.t1730 (onWorkSheet (remote w1))
                    [Scenario.ledgerRow 2 "Somchai" "01/01/2025 08:00:00" ""]).
  destruct (clockIn_then_clockOut (H := Bangkok.time) morning evening Scenario.somchai
              (Scenario.started [])
              (fst (getEmployeeStatus morning "Somchai" (Scenario.started [])))
              (fst (safeGetCachedSheetData evening CONFIG.ON_WORK w1))
              (fst (getCachedSheetData evening CONFIG.MAIN
                      (fst (safeGetCachedSheetData evening CONFIG.ON_WORK w1))))
              notWorking 2 2
              [Scenario.ledgerRow 2 "Somchai" "01/01/2025 08:00:00" ""]
              (Scenario.ledgerRow 2 "Somchai" "01/01/2025 08:00:00" ""))
    as (_ & _ & Hopen & Hclosed & _ & HD & HF & _);
    try (vm_compute; reflexivity).
  - discriminate.
  - intros r [].
  - repeat constructor; vm_compute; eauto.
  - fold w1 in Hopen, Hclosed, HD, HF. rewrite Hopen, Hclosed.
    split; [reflexivity|]. split; [reflexivity|]. split; [exact HD|exact HF].
Defined.

(** ** [formatTime] *)

Lemma includes_space_cons (c : ascii) (s : string) :
  Js.includes (String c s) " " = Ascii.eqb c " " || Js.includes s " ".
Proof.
  cbn [Js.includes String.prefix].
  destruct (ascii_dec " " c) as [<-|Hne]; [destruct s; reflexivity|].
  destruct (Ascii.eqb_spec c " ") as [->|_]; [congruence|].
  reflexivity.
Qed.

Lemma untilSpace_no_space (s : string) :
  Js.includes s " " = false -> untilSpace s = s.
Proof.
  induction s as [|c s IH]; [reflexivity|].
  rewrite includes_space_cons. intros Hs. apply orb_false_elim in Hs as [Hc Hs].
  cbn [untilSpace]. rewrite Hc. now rewrite (IH Hs).
Qed.

Lemma afterSpace_app (a b : string) :
  Js.includes a " " = false -> afterSpace (a ++ String " " b) = b.
Proof.
  induction a as [|c a IH]; [reflexivity|].
  rewrite includes_space_cons. intros Hs. apply orb_false_elim in Hs as [Hc Hs].
  change (String c a ++ String " " b) with (String c (a ++ String " " b)).
  cbn [afterSpace]. rewrite Hc. exact (IH Hs).
Qed.

Lemma includes_app_space (a b : string) : Js.includes (a ++ String " " b) " " = true.
Proof.
  induction a as [|c a IH]; [destruct b; reflexivity|].
  change (String c a ++ String " " b) with (String c (a ++ String " " b)).
  rewrite includes_space_cons, IH. apply orb_true_r.
Qed.

Lemma length_append (a b : string) :
  String.length (a ++ b) = (String.length a + String.length b)%nat.
Proof.
  induction a as [|c a IH]; [reflexivity|].
  change (String c a ++ b) with (String c (a ++ b)). cbn [String.length Nat.add].
  now rewrite IH.
Qed.

(** X17 (formatTime).  Of a string made of a date of ten characters, a
    space and a time of eight characters, neither holding a space,
    [formatTime] returns the time part as it stands, without consulting
    [moment]: so for the stamps [DD/MM/YYYY HH:mm:ss] the program
    writes. *)
Theorem formatTime_of_stamp `{TimeLib} (date time : string) :
  String.length date = 10%nat -> String.length time = 8%nat ->
  Js.includes date " " = false -> Js.includes time " " = false ->
  formatTime (date ++ " " ++ time) = time.
Proof.
  intros Hd Ht Hnd Hnt. unfold formatTime.
  change (date ++ " " ++ time) with (date ++ String " " time).
  rewrite includes_app_space, length_append. cbn [String.length].
  rewrite Hd, Ht. cbn [Nat.add Nat.eqb andb].
  rewrite (afterSpace_app date time Hnd). exact (untilSpace_no_space time Hnt).
Qed.

Lemma formatTime_of_stamp_witness :
  formatTime (H := Bangkok.time) ("01/01/2025" ++ " " ++ "17:30:00") = "17:30:00".
Proof. apply (formatTime_of_stamp (H := Bangkok.time)); reflexivity. Defined.

(** ** Suggestions of a rejected clock-out *)

Lemma isNameMatch_truthy (a b : option string) :
  isNameMatch a b = true -> Js.truthy b = true.
Proof.
  unfold isNameMatch. destruct (Js.truthy a), (Js.truthy b); cbn; congruence.
Qed.

Lemma suggestionsFor_filter (employee : string) (rows : list Row) :
  suggestionsFor employee rows
  = map toSuggestion (List.filter (matchesSession employee) rows).
Proof.
  unfold suggestionsFor. induction rows as [|r rows IH]; [reflexivity|].
  cbn [map List.filter]. unfold matchesSession at 1.
  change (suggestedSystemName (toSuggestion r)) with (get r Header.systemName).
  change (suggestedEmployeeName (toSuggestion r)) with (get r Header.employeeName).
  destruct (Js.truthy (get r Header.systemName) || Js.truthy (get r Header.employeeName))
    eqn:Hnamed.
  - cbn [List.filter].
    change (suggestedSystemName (toSuggestion r)) with (get r Header.systemName).
    change (suggestedEmployeeName (toSuggestion r)) with (get r Header.employeeName).
    destruct (isNameMatch (Some employee) (get r Header.systemName)
              || isNameMatch (Some employee) (get r Header.employeeName));
      cbn [map]; now rewrite IH.
  - apply orb_false_elim in Hnamed as [H1 H2].
    destruct (isNameMatch (Some employee) (get r Header.systemName)) eqn:M1;
      [apply isNameMatch_truthy in M1; congruence|].
    destruct (isNameMatch (Some employee) (get r Header.employeeName)) eqn:M2;
      [apply isNameMatch_truthy in M2; congruence|].
    exact IH.
Qed.

Lemma find_none_filter {A} (p : A -> bool) (l : list A) :
  List.find p l = None -> List.filter p l = [].
Proof.
  induction l as [|x l IH]; cbn; [reflexivity|].
  destruct (p x); [discriminate|exact IH].
Qed.

(** X15 (clockOut).  The suggestions of a rejected clock-out are the open
    sessions that match the name, by the test the status check uses.
    So whenever the second read of ON WORK returns the rows the status
    check read (as it does from a fresh cache entry), an employee found
    not on work gets no suggestion and the generic message, and nothing
    is written. *)
Theorem clockOut_suggests_nothing `{TimeLib} (E : Env) (d : ClockData)
    (w w1 w2 : World) (rows : list Row) :
  safeGetCachedSheetData E CONFIG.ON_WORK w = (w1, Ok rows) ->
  getCachedSheetData E CONFIG.ON_WORK w1 = (w2, Ok rows) ->
  List.find (matchesSession (employee d)) rows = None ->
  suggestionsFor (employee d) rows = [] /\
  clockOut E d w = (w2, Ok (notClockedIn (employee d) [])) /\
  message (notClockedIn (employee d) []) = Msg.checkName /\
  remote w2 = remote w.
Proof.
  intros Hsafe Hread Hnone.
  assert (Hsugg : suggestionsFor (employee d) rows = []).
  { rewrite suggestionsFor_filter, (find_none_filter _ _ Hnone). reflexivity. }
  split; [exact Hsugg|].
  pose proof (getEmployeeStatus_of_rows E (employee d) w w1 rows Hsafe) as Hst.
  rewrite Hnone in Hst.
  split; [|split; [reflexivity|]].
  - unfold clockOut, try_catch. rewrite (bind_ok _ _ _ _ _ Hst).
    cbn [isOnWork notWorking negb]. rewrite (bind_ok _ _ _ _ _ Hread).
    now rewrite Hsugg.
  - rewrite (remote_getCachedSheetData _ _ _ _ _ Hread).
    exact (remote_getEmployeeStatus _ _ _ _ _ Hst).
Qed.

Lemma clockOut_suggests_nothing_witness :
  let sessions := [Scenario.sessionRow 3 "Malee" "2025-01-01 07:55:00" "2"] in
  let E := Scenario.calm (Scenario.t0800 + 1000) sessions [] in
  let w := Scenario.cachedAt0800 sessions in
  clockOut (H := Bangkok.time) E Scenario.somchai w
  = (w, Ok (notClockedIn "Somchai" [])).
Proof.
  cbn zeta.
  apply (clockOut_suggests_nothing (H := Bangkok.time)
           (Scenario.calm (Scenario.t0800 + 1000)
              [Scenario.sessionRow 3 "Malee" "2025-01-01 07:55:00" "2"] [])
           Scenario.somchai
           (Scenario.cachedAt0800 [Scenario.sessionRow 3 "Malee" "2025-01-01 07:55:00" "2"])
           (Scenario.cachedAt0800 [Scenario.sessionRow 3 "Malee" "2025-01-01 07:55:00" "2"])
           (Scenario.cachedAt0800 [Scenario.sessionRow 3 "Malee" "2025-01-01 07:55:00" "2"])
           [Scenario.sessionRow 3 "Malee" "2025-01-01 07:55:00" "2"]);
    vm_compute; reflexivity.
Defined.

(** ** Freshness of what was fetched *)

(** X6 (setCache, isCacheValid, getCachedSheetData).  Rows fetched at an
    instant other than 0 are served from the cache, with no limiter and
    no remote call and whatever the remote would answer, to every read
    less than the entry's TTL later, and are no longer fresh from the TTL
    on; the TTL is the one the entry had, 300000 ms for an entry the
    fetch created. *)
Theorem fetched_rows_served_until_ttl (E E' : Env) (sheetName : string) (w : World)
    (rows : list Row) :
  isCacheValid (sheetsService w) (cacheKeyOf sheetName) (now E) = false ->
  fst (canMakeAPICall (now E) (apiMonitor w)) = true ->
  fetchRows E sheetName = Ok rows ->
  now E <> 0 ->
  let w1 := fst (getCachedSheetData E sheetName w) in
  let lifetime := ttlOf (sheetsService w) (cacheKeyOf sheetName) in
  snd (getCachedSheetData E sheetName w) = Ok rows /\
  (now E' - now E < lifetime -> getCachedSheetData E' sheetName w1 = (w1, Ok rows)) /\
  (lifetime <= now E' - now E ->
   isCacheValid (sheetsService w1) (cacheKeyOf sheetName) (now E') = false).
Proof.
  intros Hv Hallow Hfetch Hnow w1 lifetime.
  destruct (canMakeAPICall (now E) (apiMonitor w)) as [allowed m1] eqn:Hc.
  cbn [fst] in Hallow. subst allowed.
  pose proof (getCachedSheetData_allowed E sheetName w m1 Hv Hc) as Hrun.
  cbn zeta in Hrun. rewrite Hfetch in Hrun.
  assert (Hsvc : sheetsService w1
                 = setCache (cacheKeyOf sheetName) rows (now E) (sheetsService w)).
  { unfold w1. rewrite Hrun. reflexivity. }
  assert (Hvalid : forall t, isCacheValid (sheetsService w1) (cacheKeyOf sheetName) t
                             = (t - now E <? lifetime)).
  { intros t. rewrite Hsvc, isCacheValid_setCache.
    destruct (Z.eqb_spec (now E) 0); [contradiction|reflexivity]. }
  split; [now rewrite Hrun|]. split.
  - intros Hlt.
    destruct (getCachedSheetData_fresh E' sheetName w1) as (d & Hd & Hread).
    { rewrite Hvalid. now apply Z.ltb_lt. }
    rewrite Hsvc, getCache_setCache in Hd. injection Hd as <-. exact Hread.
  - intros Hge. rewrite Hvalid. now apply Z.ltb_ge.
Qed.

Lemma fetched_rows_served_until_ttl_witness :
  let sessions := Scenario.afternoon "3" in
  let E := Scenario.calm Scenario.t1300 sessions [] in
  let w1 := fst (getCachedSheetData E CONFIG.ON_WORK (Scenario.started sessions)) in
  ttlOf newService "onwork" = 300000 /\
  getCachedSheetData
    (Scenario.unreadable "socket hang up" (Scenario.calm (Scenario.t1300 + 299999) [] []))
    CONFIG.ON_WORK w1 = (w1, Ok sessions).
Proof.
  cbn zeta. split; [reflexivity|].
  apply (fetched_rows_served_until_ttl
           (Scenario.calm Scenario.t1300 (Scenario.afternoon "3") [])
           (Scenario.unreadable "socket hang up"
              (Scenario.calm (Scenario.t1300 + 299999) [] []))
           CONFIG.ON_WORK (Scenario.started (Scenario.afternoon "3"))
           (Scenario.afternoon "3")); try reflexivity; discriminate.
Defined.

(** ** Emergency mode and stale entries *)

(** X7 (safeGetCachedSheetData, setEmergencyMode).  When a read fails
    with emergency mode off and the cache holds a payload for the sheet,
    the safe read returns that payload and switches emergency mode on;
    from then on the payload is served as fresh, with no remote call,
    to every read less than one hour after the instant the payload was
    cached (not after the failure), and is stale again from that hour
    on. *)
Theorem emergency_mode_serves_hour_old_entries (E : Env) (sheetName : string)
    (w w1 : World) (e : string) (c : CacheEntry) (stale : list Row) (t : Z) :
  getCachedSheetData E sheetName w = (w1, Throw e) ->
  emergencyMode (sheetsService w) = false ->
  cache (sheetsService w) !! cacheKeyOf sheetName = Some c ->
  data c = Some stale -> timestamp c = Some t -> t <> 0 ->
  let w2 := fst (safeGetCachedSheetData E sheetName w) in
  snd (safeGetCachedSheetData E sheetName w) = Ok stale /\
  emergencyMode (sheetsService w2) = true /\
  (forall E', now E' - t < 3600000 ->
              getCachedSheetData E' sheetName w2 = (w2, Ok stale)) /\
  (forall E', 3600000 <= now E' - t ->
              isCacheValid (sheetsService w2) (cacheKeyOf sheetName) (now E') = false).
Proof.
  intros Hthrow Hoff Hc Hdata Hstamp Ht w2.
  pose proof (getCachedSheetData_throw_service _ _ _ _ _ Hthrow) as Hsvc.
  pose proof (safeGetCachedSheetData_caught _ _ _ _ _ Hthrow) as Hsafe.
  rewrite Hsvc, Hoff in Hsafe.
  assert (Hget : getCache (sheetsService w) (cacheKeyOf sheetName) = Some stale).
  { unfold getCache. now rewrite Hc. }
  rewrite Hget in Hsafe. cbn [default from_option] in Hsafe.
  assert (Hw2 : sheetsService w2 = fst (setEmergencyMode true (sheetsService w))).
  { unfold w2. rewrite Hsafe. reflexivity. }
  assert (Hvalid : forall now, isCacheValid (sheetsService w2) (cacheKeyOf sheetName) now
                               = (now - t <? 3600000)).
  { intros now. rewrite Hw2, isCacheValid_emergency, Hc.
    destruct c as [d ts l]. cbn in Hdata, Hstamp. subst d ts.
    destruct (Z.eqb_spec t 0); [contradiction|reflexivity]. }
  split; [now rewrite Hsafe|].
  split; [now rewrite Hw2, setEmergencyMode_on|].
  split.
  - intros E' Hlt.
    destruct (getCachedSheetData_fresh E' sheetName w2) as (d & Hd & Hread).
    { rewrite Hvalid. now apply Z.ltb_lt. }
    rewrite Hw2, getCache_emergency, Hget in Hd. injection Hd as <-. exact Hread.
  - intros E' Hge. rewrite Hvalid. now apply Z.ltb_ge.
Qed.

Lemma emergency_mode_serves_hour_old_entries_witness :
  let sessions := Scenario.afternoon "3" in
  let down := Scenario.unreadable "socket hang up" (Scenario.calm (Scenario.t0800 + 600000) [] []) in
  let w2 := fst (safeGetCachedSheetData down CONFIG.ON_WORK (Scenario.cachedAt0800 sessions)) in
  getCachedSheetData
    (Scenario.unreadable "socket hang up" (Scenario.calm (Scenario.t0800 + 3599999) [] []))
    CONFIG.ON_WORK w2 = (w2, Ok sessions).
Proof.
  cbn zeta.
  eapply (emergency_mode_serves_hour_old_entries
            (Scenario.unreadable "socket hang up"
               (Scenario.calm (Scenario.t0800 + 600000) [] []))
            CONFIG.ON_WORK (Scenario.cachedAt0800 (Scenario.afternoon "3"))
            (fst (getCachedSheetData
                    (Scenario.unreadable "socket hang up"
                       (Scenario.calm (Scenario.t0800 + 600000) [] []))
                    CONFIG.ON_WORK (Scenario.cachedAt0800 (Scenario.afternoon "3"))))
            "socket hang up"
            {| data := Some (Scenario.afternoon "3"); timestamp := Some Scenario.t0800;
               ttl := 300000 |}
            (Scenario.afternoon "3") Scenario.t0800);
    try (vm_compute; reflexivity); vm_compute; discriminate.
Defined.

(** ** A manual refresh during an outage *)

Lemma getCachedSheetData_nothing_cached (E : Env) (sheetName : string) (w : World)
    (e : string) :
  getCache (sheetsService w) (cacheKeyOf sheetName) = None ->
  fetchRows E sheetName = Throw e ->
  exists w1 e', getCachedSheetData E sheetName w = (w1, Throw e') /\
                sheetsService w1 = sheetsService w /\ remote w1 = remote w.
Proof.
  intros Hnone Hfetch.
  destruct (isCacheValid (sheetsService w) (cacheKeyOf sheetName) (now E)) eqn:Hv.
  { destruct (isCacheValid_getCache _ _ _ Hv) as [d Hd]. congruence. }
  destruct (canMakeAPICall (now E) (apiMonitor w)) as [[|] m1] eqn:Hc.
  - rewrite (getCachedSheetData_allowed E sheetName w m1 Hv Hc). cbn zeta.
    rewrite Hfetch, Hnone.
    exists (withMonitor (finishCall (logAPICall (now E)
                                       ("getCachedSheetData:" ++ sheetName) m1)) w), e.
    split; [|split; reflexivity].
    now destruct (isQuotaError e).
  - rewrite (getCachedSheetData_denied E sheetName w Hv) by now rewrite Hc.
    rewrite Hnone. exists w, rateLimitMessage. repeat split; reflexivity.
Qed.

(** X22 (route /api/admin/refresh-cache).  A manual refresh while ON WORK
    cannot be read answers 500 and leaves every cache entry empty: the
    stale copies are gone, so as long as the reads keep failing every
    status check reports the employee not on work, also for sessions
    that were cached before the refresh. *)
Theorem refresh_during_outage_forgets_sessions (E : Env) (w : World) (e : string) :
  fetchRows E CONFIG.ON_WORK = Throw e ->
  let w1 := fst (refreshCacheRoute E w) in
  snd (refreshCacheRoute E w) = Ok refreshFailed /\
  remote w1 = remote w /\
  (forall key, getCache (sheetsService w1) key = None) /\
  (forall E' employee e',
      fetchRows E' CONFIG.ON_WORK = Throw e' ->
      snd (getEmployeeStatus E' employee w1) = Ok notWorking).
Proof.
  intros Hfetch w1.
  set (cleared := withService (fst (clearCache None (sheetsService w))) w).
  assert (Hcleared : forall key, getCache (sheetsService cleared) key = None).
  { intros key. unfold cleared, getCache, clearCache. cbn. rewrite lookup_fmap.
    now destruct (cache (sheetsService w) !! key). }
  destruct (getCachedSheetData_nothing_cached E CONFIG.ON_WORK cleared e
              (Hcleared _) Hfetch) as (w2 & e2 & Hread & Hsvc & Hrem).
  assert (Hrun : refreshCacheRoute E w = (w2, Ok refreshFailed)).
  { unfold refreshCacheRoute, try_catch.
    assert (H1 : onService (clearCache None) w = (cleared, Ok tt)) by reflexivity.
    rewrite (bind_ok _ _ _ _ _ H1), (bind_throw _ _ _ _ _ Hread). reflexivity. }
  unfold w1. rewrite Hrun. cbn [fst snd].
  split; [reflexivity|]. split; [now rewrite Hrem|].
  split; [intros key; rewrite Hsvc; apply Hcleared|].
  intros E' employee e' Hfetch'.
  destruct (getCachedSheetData_nothing_cached E' CONFIG.ON_WORK w2 e') as
    (w3 & e3 & Hread' & Hsvc' & _); [rewrite Hsvc; apply Hcleared|exact Hfetch'|].
  apply (getEmployeeStatus_no_data E' employee w2 w3 e3 Hread').
  rewrite Hsvc', Hsvc. apply Hcleared.
Qed.

Lemma refresh_during_outage_forgets_sessions_witness :
  let sessions := [Scenario.sessionRow 3 "Somchai" "2025-01-01 08:00:00" "2"] in
  let down := Scenario.unreadable "Quota exceeded"
                (Scenario.calm (Scenario.t0800 + 1000) sessions []) in
  let w := Scenario.cachedAt0800 sessions in
  (exists wr, snd (getEmployeeStatus down "Somchai" w)
              = Ok {| isOnWork := true; workRecord := Some wr |}) /\
  snd (getEmployeeStatus down "Somchai" (fst (refreshCacheRoute down w)))
    = Ok notWorking.
Proof.
  cbn zeta. split; [eexists; vm_compute; reflexivity|].
  apply (refresh_during_outage_forgets_sessions
           (Scenario.unreadable "Quota exceeded"
              (Scenario.calm (Scenario.t0800 + 1000)
                 [Scenario.sessionRow 3 "Somchai" "2025-01-01 08:00:00" "2"] []))
           (Scenario.cachedAt0800
              [Scenario.sessionRow 3 "Somchai" "2025-01-01 08:00:00" "2"])
           "Quota exceeded" eq_refl) with (e' := "Quota exceeded").
  reflexivity.
Defined.

(** ** Roster *)

Lemma emergencyMode_getCachedSheetData (E : Env) (sheetName : string) (w : World) :
  emergencyMode (sheetsService (fst (getCachedSheetData E sheetName w)))
  = emergencyMode (sheetsService w).
Proof.
  destruct (isCacheValid (sheetsService w) (cacheKeyOf sheetName) (now E)) eqn:Hv.
  - now destruct (getCachedSheetData_fresh E sheetName w Hv) as (d & _ & ->).
  - destruct (canMakeAPICall (now E) (apiMonitor w)) as [[|] m1] eqn:Hc.
    + rewrite (getCachedSheetData_allowed E sheetName w m1 Hv Hc). cbn zeta.
      destruct (fetchRows E sheetName); cbn; [apply emergencyMode_setCache|reflexivity].
    + rewrite (getCachedSheetData_denied E sheetName w Hv); [reflexivity|].
      now rewrite Hc.
Qed.

Lemma Forall_str_truthy (l : list (option string)) :
  Forall (fun name => name <> "") (Js.str <$> List.filter Js.truthy l).
Proof.
  induction l as [|v l IH]; cbn; [constructor|].
  destruct (Js.truthy v) eqn:Hv; [|exact IH].
  cbn. constructor; [|exact IH].
  destruct v as [s|]; [|discriminate Hv]. cbn in *.
  intros ->. discriminate Hv.
Qed.

(** X18 (getEmployees).  [getEmployees] never throws and never returns
    an empty name: it lists the non-empty values of the name column in
    row order, and answers a read that throws with the empty roster,
    without falling back to the stale copy and without touching
    emergency mode or the remote sheets. *)
Theorem getEmployees_lists_named_rows (E : Env) (w : World) :
  exists w' names,
    getEmployees E w = (w', Ok names) /\
    Forall (fun name => name <> "") names /\
    remote w' = remote w /\
    emergencyMode (sheetsService w') = emergencyMode (sheetsService w) /\
    match getCachedSheetData E CONFIG.EMPLOYEES w with
    | (w1, Ok rows) =>
        w' = w1 /\
        names = Js.str <$> List.filter Js.truthy
                             (map (fun row => get row fullNameHeader) rows)
    | (w1, Throw _) => w' = w1 /\ names = []
    end.
Proof.
  pose proof (emergencyMode_getCachedSheetData E CONFIG.EMPLOYEES w) as Hem.
  unfold getEmployees, try_catch.
  destruct (getCachedSheetData E CONFIG.EMPLOYEES w) as [w1 [rows|e]] eqn:Hread;
    pose proof (remote_getCachedSheetData _ _ _ _ _ Hread) as Hrem.
  - rewrite (bind_ok _ _ _ _ _ Hread). eexists _, _. split; [reflexivity|].
    split; [apply Forall_str_truthy|]. repeat split; assumption.
  - rewrite (bind_throw _ _ _ _ _ Hread). eexists _, _. split; [reflexivity|].
    split; [constructor|]. repeat split; assumption.
Qed.

(** ** Reports *)

Lemma isDigit_separators (c : ascii) :
  Js.isDigit c = true -> Ascii.eqb c " " = false /\ Ascii.eqb c "/" = false.
Proof.
  destruct c as [[] [] [] [] [] [] [] []]; intros H; try discriminate H;
    split; reflexivity.
Qed.

Lemma allDigits_2 (s : string) :
  allDigits 2 s = true ->
  exists a b, s = String a (String b "") /\ Js.isDigit a = true /\ Js.isDigit b = true.
Proof.
  destruct s as [|a [|b [|c s]]]; cbn; try discriminate.
  - rewrite andb_false_r. discriminate.
  - rewrite andb_true_r. intros H. apply andb_prop in H as [Ha Hb]. eauto.
  - rewrite !andb_false_r. discriminate.
Qed.

Lemma allDigits_4 (s : string) :
  allDigits 4 s = true ->
  exists a b c d, s = String a (String b (String c (String d ""))) /\
    Js.isDigit a = true /\ Js.isDigit b = true /\
    Js.isDigit c = true /\ Js.isDigit d = true.
Proof.
  destruct s as [|a [|b [|c [|d [|e s]]]]]; cbn; rewrite ?andb_false_r;
    try discriminate.
  rewrite andb_true_r. intros H.
  apply andb_prop in H as [Ha H]. apply andb_prop in H as [Hb H].
  apply andb_prop in H as [Hc Hd]. eauto 10.
Qed.

Lemma splitOn_lacks (sep : ascii) (a : string) :
  lacks sep a = true -> splitOn sep a = [a].
Proof.
  induction a as [|c a IH]; [reflexivity|]. cbn [lacks splitOn].
  intros H. apply andb_prop in H as [Hc Ha]. apply negb_true_iff in Hc.
  now rewrite Hc, (IH Ha).
Qed.

Lemma splitOn_app (sep : ascii) (a b : string) :
  lacks sep a = true -> splitOn sep (a ++ String sep b) = a :: splitOn sep b.
Proof.
  induction a as [|c a IH].
  - intros _. change ("" ++ String sep b) with (String sep b). cbn [splitOn].
    now rewrite Ascii.eqb_refl.
  - cbn [lacks]. intros H. apply andb_prop in H as [Hc Ha]. apply negb_true_iff in Hc.
    change (String c a ++ String sep b) with (String c (a ++ String sep b)).
    cbn [splitOn]. now rewrite Hc, (IH Ha).
Qed.

Lemma lacks_app (sep : ascii) (a b : string) :
  lacks sep (a ++ b) = lacks sep a && lacks sep b.
Proof.
  induction a as [|c a IH]; [reflexivity|].
  change (String c a ++ b) with (String c (a ++ b)). cbn [lacks].
  now rewrite IH, andb_assoc.
Qed.

Lemma allDigits_lacks (n : nat) (s : string) :
  allDigits n s = true -> lacks " " s = true /\ lacks "/" s = true.
Proof.
  revert s. induction n as [|n IH]; intros [|c s]; cbn; try discriminate; [now split|].
  intros H. apply andb_prop in H as [Hc Hs].
  destruct (IH s Hs) as [H1 H2]. destruct (isDigit_separators c Hc) as [-> ->].
  now rewrite H1, H2.
Qed.

Lemma startsWithDMY_stamp (day month year rest : string) :
  allDigits 2 day = true -> allDigits 2 month = true -> allDigits 4 year = true ->
  startsWithDMY (day ++ "/" ++ month ++ "/" ++ year ++ rest) = true.
Proof.
  intros Hd Hm Hy.
  destruct (allDigits_2 day Hd) as (d1 & d2 & -> & Hd1 & Hd2).
  destruct (allDigits_2 month Hm) as (m1 & m2 & -> & Hm1 & Hm2).
  destruct (allDigits_4 year Hy) as (y1 & y2 & y3 & y4 & -> & Hy1 & Hy2 & Hy3 & Hy4).
  change (String d1 (String d2 "") ++ "/" ++ String m1 (String m2 "") ++ "/"
          ++ String y1 (String y2 (String y3 (String y4 ""))) ++ rest)
    with (String d1 (String d2 (String "/" (String m1 (String m2 (String "/"
            (String y1 (String y2 (String y3 (String y4 rest)))))))))).
  cbn [startsWithDMY]. now rewrite Hd1, Hd2, Hm1, Hm2, Hy1, Hy2, Hy3, Hy4.
Qed.

Lemma padStart2_digits (s : string) : allDigits 2 s = true -> padStart2 s = s.
Proof. intros H. now destruct (allDigits_2 s H) as (a & b & -> & _). Qed.

Lemma append_assoc (a b c : string) : (a ++ b) ++ c = a ++ (b ++ c).
Proof.
  induction a as [|x a IH]; [reflexivity|].
  change ((String x a ++ b) ++ c) with (String x ((a ++ b) ++ c)). now rewrite IH.
Qed.

(** X19 (getReportData, daily filter).  A clock-in written as
    [DD/MM/YYYY], a space and anything is filed under the day
    [YYYY-MM-DD]: the daily report keeps a row with such a clock-in
    exactly when that day equals the target date. *)
Theorem reportDay_of_stamp `{TimeLib} (day month year time : string) :
  allDigits 2 day = true -> allDigits 2 month = true -> allDigits 4 year = true ->
  let stamp := day ++ "/" ++ month ++ "/" ++ year ++ " " ++ time in
  reportDay stamp = Some (year ++ "-" ++ month ++ "-" ++ day) /\
  forall (target : string) (r : Row),
    rawAt r 3 = Some stamp ->
    isDailyRow target r = String.eqb (year ++ "-" ++ month ++ "-" ++ day) target.
Proof.
  intros Hd Hm Hy stamp.
  destruct (allDigits_lacks 2 day Hd) as [Sd Ld].
  destruct (allDigits_lacks 2 month Hm) as [Sm Lm].
  destruct (allDigits_lacks 4 year Hy) as [Sy Ly].
  assert (Hday : reportDay stamp = Some (year ++ "-" ++ month ++ "-" ++ day)).
  { unfold reportDay, stamp.
    rewrite (startsWithDMY_stamp day month year (" " ++ time) Hd Hm Hy).
    replace (day ++ "/" ++ month ++ "/" ++ year ++ " " ++ time)
      with ((day ++ "/" ++ month ++ "/" ++ year) ++ String " " time)
      by (now rewrite !append_assoc).
    rewrite splitOn_app by (rewrite !lacks_app, Sd, Sm, Sy; reflexivity).
    cbn [hd].
    change (day ++ "/" ++ month ++ "/" ++ year)
      with (day ++ String "/" (month ++ String "/" year)).
    rewrite (splitOn_app "/" day) by exact Ld.
    rewrite (splitOn_app "/" month) by exact Lm.
    rewrite (splitOn_lacks "/" year) by exact Ly.
    now rewrite (padStart2_digits month Hm), (padStart2_digits day Hd). }
  split; [exact Hday|].
  intros target r Hcell. unfold isDailyRow. rewrite Hcell.
  assert (Htruthy : Js.truthy (Some stamp) = true).
  { destruct (allDigits_2 day Hd) as (d1 & d2 & Hs & _). unfold stamp. now rewrite Hs. }
  rewrite Htruthy. change (Js.str (Some stamp)) with stamp. cbn [negb].
  now rewrite Hday.
Qed.

Lemma reportDay_of_stamp_witness :
  reportDay (H := Bangkok.time) ("26" ++ "/" ++ "06" ++ "/" ++ "2025" ++ " " ++ "08:15:00")
  = Some "2025-06-26".
Proof. apply (reportDay_of_stamp (H := Bangkok.time)); reflexivity. Defined.

(** ** The stamps the program writes, as [calculateWorkingHours] reads them *)

Lemma leadingDigits_app (k n : nat) (d : string) (c : ascii) (rest : string) :
  allDigits k d = true -> (k <= n)%nat -> Js.isDigit c = false ->
  Moment.leadingDigits n (d ++ String c rest) = (d, String c rest).
Proof.
  revert n d. induction k as [|k IH]; intros n [|a d] Hd Hk Hc; try discriminate Hd.
  - change ("" ++ String c rest) with (String c rest).
    destruct n; cbn [Moment.leadingDigits]; [reflexivity|]. now rewrite Hc.
  - destruct n as [|n]; [lia|].
    cbn [allDigits] in Hd. apply andb_prop in Hd as [Ha Hd].
    change (String a d ++ String c rest) with (String a (d ++ String c rest)).
    cbn [Moment.leadingDigits]. rewrite Ha, (IH n d Hd) by (assumption || lia).
    reflexivity.
Qed.

Lemma leadingDigits_all (n : nat) (d rest : string) :
  allDigits n d = true -> Moment.leadingDigits n (d ++ rest) = (d, rest).
Proof.
  revert d. induction n as [|n IH]; intros [|a d] Hd; try discriminate Hd.
  - reflexivity.
  - cbn [allDigits] in Hd. apply andb_prop in Hd as [Ha Hd].
    change (String a d ++ rest) with (String a (d ++ rest)).
    cbn [Moment.leadingDigits]. now rewrite Ha, (IH d Hd).
Qed.

Lemma matchDigits_app (k n : nat) (d : string) (c : ascii) (rest : string) :
  allDigits (S k) d = true -> (S k <= n)%nat -> Js.isDigit c = false ->
  Moment.matchDigits n (d ++ String c rest) = Some (d, String c rest).
Proof.
  intros Hd Hk Hc. rewrite <- (leadingDigits_app (S k) n d c rest Hd Hk Hc).
  destruct d as [|a d]; [discriminate Hd|].
  cbn [allDigits] in Hd. apply andb_prop in Hd as [Ha _].
  change (String a d ++ String c rest) with (String a (d ++ String c rest)).
  cbn [Moment.matchDigits]. now rewrite Ha.
Qed.

Lemma matchDigits_all (n : nat) (d rest : string) :
  allDigits (S n) d = true ->
  Moment.matchDigits (S n) (d ++ rest) = Some (d, rest).
Proof.
  intros Hd. rewrite <- (leadingDigits_all (S n) d rest Hd).
  destruct d as [|a d]; [discriminate Hd|].
  cbn [allDigits] in Hd. apply andb_prop in Hd as [Ha _].
  change (String a d ++ rest) with (String a (d ++ rest)).
  cbn [Moment.matchDigits]. now rewrite Ha.
Qed.

Lemma matchDigits_skip (n : nat) (c : ascii) (s : string) :
  Js.isDigit c = false -> Moment.matchDigits n (String c s) = Moment.matchDigits n s.
Proof. intros Hc. cbn [Moment.matchDigits]. now rewrite Hc. Qed.

Lemma matchChar_lacks (c : ascii) (s : string) :
  lacks c s = true -> Moment.matchChar c s = None.
Proof.
  induction s as [|a s IH]; [reflexivity|]. cbn [lacks Moment.matchChar].
  intros H. apply andb_prop in H as [Ha Hs].
  apply negb_true_iff in Ha. rewrite Ha. exact (IH Hs).
Qed.

Lemma matchChar_app (c : ascii) (a b : string) :
  lacks c a = true -> Moment.matchChar c (a ++ String c b) = Some b.
Proof.
  induction a as [|x a IH].
  - intros _. change ("" ++ String c b) with (String c b).
    cbn [Moment.matchChar]. now rewrite Ascii.eqb_refl.
  - cbn [lacks]. intros H. apply andb_prop in H as [Hx Ha].
    apply negb_true_iff in Hx.
    change (String x a ++ String c b) with (String x (a ++ String c b)).
    cbn [Moment.matchChar]. rewrite Hx. exact (IH Ha).
Qed.

Lemma matchChar_head (c : ascii) (s : string) :
  Moment.matchChar c (String c s) = Some s.
Proof. cbn [Moment.matchChar]. now rewrite Ascii.eqb_refl. Qed.

Lemma isDigit_not (c sep : ascii) :
  Js.isDigit sep = false -> Js.isDigit c = true -> Ascii.eqb c sep = false.
Proof.
  intros Hs Hc. destruct (Ascii.eqb_spec c sep) as [->|]; [congruence|reflexivity].
Qed.

Lemma allDigits_lacks_char (sep : ascii) (n : nat) (s : string) :
  Js.isDigit sep = false -> allDigits n s = true -> lacks sep s = true.
Proof.
  intros Hs. revert s. induction n as [|n IH]; intros [|c s]; cbn; try discriminate;
    [reflexivity|].
  intros H. apply andb_prop in H as [Hc Hd].
  now rewrite (isDigit_not c sep Hs Hc), (IH s Hd).
Qed.

Lemma two_digits (d : string) :
  allDigits 2 d = true ->
  exists a b, d = String a (String b "") /\ Js.isDigit a = true /\ Js.isDigit b = true.
Proof.
  destruct d as [|a [|b [|c d]]]; cbn; try discriminate.
  - now rewrite andb_false_r.
  - rewrite andb_true_r. intros H. apply andb_prop in H as [Ha Hb]. eauto.
  - rewrite !andb_false_r. discriminate.
Qed.

Lemma store_year_of_day (dd : string) (f : Moment.Fields) :
  allDigits 2 dd = true -> Moment.toInt dd <= 68 ->
  Moment.store Moment.tokYYYY dd f = Moment.store Moment.tokYYYY ("20" ++ dd) f.
Proof.
  intros Hd Hle. destruct (two_digits dd Hd) as (a & b & -> & Ha & Hb).
  unfold Moment.store. f_equal. f_equal.
  change (String.length (String a (String b ""))) with 2%nat.
  change (String.length ("20" ++ String a (String b ""))) with 4%nat.
  cbn [Nat.eqb]. unfold Moment.parseTwoDigitYear.
  destruct (Z.ltb_spec 68 (Moment.toInt (String a (String b "")))); [lia|].
  unfold Moment.toInt.
  change ("20" ++ String a (String b "")) with (String "2" (String "0" (String a (String b "")))).
  cbn [Js.digits]. change (Js.isDigit "2") with true. change (Js.isDigit "0") with true.
  cbn iota. rewrite Ha, Hb. cbn [default from_option id].
  change (Js.digitVal "2") with 2. change (Js.digitVal "0") with 0.
  unfold id. lia.
Qed.

Lemma readTokens_cons (t : Moment.Token) (rest : list Moment.Token) (s : string)
    (f : Moment.Fields) :
  Moment.readTokens (t :: rest) s f =
  match t with
  | Moment.tokChar c => Moment.readTokens rest (default s (Moment.matchChar c s)) f
  | _ => match Moment.matchDigits (Moment.maxDigits t) s with
         | Some (d, s') => Moment.readTokens rest s' (Moment.store t d f)
         | None => Moment.readTokens rest s f
         end
  end.
Proof. destruct t; reflexivity. Qed.

Ltac token := rewrite readTokens_cons; cbv beta iota; cbn [Moment.maxDigits].

(** The date tokens on a stamp as the program prints it: the day is
    taken for the year, the first two digits of the year for the day. *)
Lemma readTokens_printed (tail : list Moment.Token) (dd mo cc yy time : string)
    (f : Moment.Fields) :
  allDigits 2 dd = true -> allDigits 2 mo = true ->
  allDigits 2 cc = true -> allDigits 2 yy = true -> lacks "-" time = true ->
  Moment.readTokens
    (Moment.tokYYYY :: Moment.tokChar "-" :: Moment.tokMM :: Moment.tokChar "-"
     :: Moment.tokDD :: Moment.tokChar " " :: tail)
    (dd ++ "/" ++ mo ++ "/" ++ cc ++ yy ++ " " ++ time) f
  = Moment.readTokens tail time
      (Moment.store Moment.tokDD cc
         (Moment.store Moment.tokMM mo (Moment.store Moment.tokYYYY dd f))).
Proof.
  intros Hdd Hmo Hcc Hyy Htime.
  assert (Hsep : forall k s, allDigits k s = true -> lacks "-" s = true)
    by (intros k s; now apply allDigits_lacks_char).
  change (dd ++ "/" ++ mo ++ "/" ++ cc ++ yy ++ " " ++ time)
    with (dd ++ String "/" (mo ++ String "/" (cc ++ (yy ++ String " " time)))).
  token. rewrite (matchDigits_app 1 4 dd "/") by (assumption || lia || reflexivity).
  cbv beta iota.
  token. rewrite matchChar_lacks; cycle 1.
  { repeat first [rewrite lacks_app | progress cbn [lacks]].
    rewrite (Hsep _ _ Hmo), (Hsep _ _ Hcc), (Hsep _ _ Hyy), Htime. reflexivity. }
  cbn [default from_option id].
  token. rewrite matchDigits_skip by reflexivity.
  rewrite (matchDigits_app 1 2 mo "/") by (assumption || lia || reflexivity).
  cbv beta iota.
  token. rewrite matchChar_lacks; cycle 1.
  { repeat first [rewrite lacks_app | progress cbn [lacks]].
    rewrite (Hsep _ _ Hcc), (Hsep _ _ Hyy), Htime. reflexivity. }
  cbn [default from_option id].
  token. rewrite matchDigits_skip by reflexivity.
  rewrite (matchDigits_all 1 cc) by assumption.
  cbv beta iota.
  token. rewrite (matchChar_app " " yy time)
    by (now apply (allDigits_lacks_char " " 2)).
  reflexivity.
Qed.

(** The date tokens on a string in the order of the format. *)
Lemma readTokens_expected (tail : list Moment.Token) (yyyy mo dd time : string)
    (f : Moment.Fields) :
  allDigits 4 yyyy = true -> allDigits 2 mo = true -> allDigits 2 dd = true ->
  Moment.readTokens
    (Moment.tokYYYY :: Moment.tokChar "-" :: Moment.tokMM :: Moment.tokChar "-"
     :: Moment.tokDD :: Moment.tokChar " " :: tail)
    (yyyy ++ "-" ++ mo ++ "-" ++ dd ++ " " ++ time) f
  = Moment.readTokens tail time
      (Moment.store Moment.tokDD dd
         (Moment.store Moment.tokMM mo (Moment.store Moment.tokYYYY yyyy f))).
Proof.
  intros Hy Hmo Hdd.
  change (yyyy ++ "-" ++ mo ++ "-" ++ dd ++ " " ++ time)
    with (yyyy ++ String "-" (mo ++ String "-" (dd ++ String " " time))).
  token. rewrite (matchDigits_app 3 4 yyyy "-") by (assumption || lia || reflexivity).
  cbv beta iota.
  token. rewrite matchChar_head. cbn [default from_option id].
  token. rewrite (matchDigits_app 1 2 mo "-") by (assumption || lia || reflexivity).
  cbv beta iota.
  token. rewrite matchChar_head. cbn [default from_option id].
  token. rewrite (matchDigits_app 1 2 dd " ") by (assumption || lia || reflexivity).
  cbv beta iota.
  token. rewrite matchChar_head. reflexivity.
Qed.

(** A stamp printed day first is read as the string that holds the day
    for the year and the first two digits of the year for the day. *)
Lemma tz_reads_day_as_year (dd mo cc yy time : string) :
  allDigits 2 dd = true -> allDigits 2 mo = true ->
  allDigits 2 cc = true -> allDigits 2 yy = true ->
  Moment.toInt dd <= 68 -> lacks "-" time = true ->
  Moment.tz (dd ++ "/" ++ mo ++ "/" ++ cc ++ yy ++ " " ++ time)
  = Moment.tz ("20" ++ dd ++ "-" ++ mo ++ "-" ++ cc ++ " " ++ time).
Proof.
  intros Hdd Hmo Hcc Hyy Hle Htime.
  assert (H4 : allDigits 4 ("20" ++ dd) = true).
  { destruct (two_digits dd Hdd) as (a & b & -> & Ha & Hb).
    change (Js.isDigit a && (Js.isDigit b && true) = true). now rewrite Ha, Hb. }
  unfold Moment.tz, Moment.stampFormat.
  rewrite (readTokens_printed _ dd mo cc yy time _ Hdd Hmo Hcc Hyy Htime).
  change ("20" ++ dd ++ "-" ++ mo ++ "-" ++ cc ++ " " ++ time)
    with (("20" ++ dd) ++ "-" ++ mo ++ "-" ++ cc ++ " " ++ time).
  rewrite (readTokens_expected _ ("20" ++ dd) mo cc time _ H4 Hmo Hcc).
  now rewrite (store_year_of_day dd _ Hdd Hle).
Qed.

(** C3: the worked hours of the stamps the program writes.
    [calculateWorkingHours] reads its arguments with the format
    ['YYYY-MM-DD H:mm:ss'], and on a pair written that way it returns the
    difference of the instants: 08:00 to 17:30 gives 9.5 hours, printed
    [9.50].  [clockIn], [clockOut] and the sweeper print their stamps
    with ['DD/MM/YYYY HH:mm:ss'].  [moment] reads such a stamp as it
    reads the string that holds the day for the year and the first two
    digits of the year for the day: 17:30 on 1 January 2025 is read as
    20 January 2001.  The hours of a clock-out are therefore not the
    difference of the two instants: 0 for the shift of the example when
    the clock-in cell holds [2025-01-01 08:00:00], and 8744 hours for a
    night shift from 22:00 to 06:00 that the program itself clocked in
    and out. *)
Theorem working_hours_format_slip :
  (forall dd mo cc yy time : string,
      allDigits 2 dd = true -> allDigits 2 mo = true ->
      allDigits 2 cc = true -> allDigits 2 yy = true ->
      Moment.toInt dd <= 68 -> lacks "-" time = true ->
      Moment.tz (dd ++ "/" ++ mo ++ "/" ++ cc ++ yy ++ " " ++ time)
      = Moment.tz ("20" ++ dd ++ "-" ++ mo ++ "-" ++ cc ++ " " ++ time)) /\
  (forall now : Z,
      let h := @calculateWorkingHours Moment.time now
                 (Some "2025-01-01 08:00:00") (Some "2025-01-01 17:30:00") in
      (h == 19 # 2)%Q /\ Js.toFixed2 h = "9.50") /\
  (@format_stamp Moment.time Scenario.t1730 = "01/01/2025 17:30:00" /\
   forall now : Z,
     @calculateWorkingHours Moment.time now
       (Some "2025-01-01 08:00:00") (Some "01/01/2025 17:30:00") = 0%Q) /\
  (@format_stamp Moment.time NightShift.t2200 = "01/01/2025 22:00:00" /\
   @format_stamp Moment.time NightShift.t0600 = "02/01/2025 06:00:00" /\
   forall now : Z,
     let h := @calculateWorkingHours Moment.time now
                (Some "01/01/2025 22:00:00") (Some "02/01/2025 06:00:00") in
     (h == 8744 # 1)%Q /\ Js.toFixed2 h = "8744.00") /\
  (let evening := Scenario.calm NightShift.t2200 [] [] in
   let w1 := fst (clockIn (H := Moment.time) evening Scenario.somchai
                          (Scenario.started [])) in
   let morning := Scenario.calm NightShift.t0600 (onWorkSheet (remote w1))
                    [Scenario.ledgerRow 2 "Somchai" "01/01/2025 22:00:00" ""] in
   let out := clockOut (H := Moment.time) morning Scenario.somchai w1 in
   mainCells (remote w1) !! ("D", 2) = Some "01/01/2025 22:00:00" /\
   (exists r, snd out = Ok r /\ success r = true /\ hours r = Some "8744.00") /\
   mainCells (remote (fst out)) !! ("F", 2) = Some "02/01/2025 06:00:00" /\
   mainCells (remote (fst out)) !! ("K", 2) = Some "8744.00").
Proof.
  split; [exact tz_reads_day_as_year|].
  split; [intros now; split; reflexivity|].
  split; [split; [reflexivity|intros now; reflexivity]|].
  split; [split; [reflexivity|split; [reflexivity|intros now; split; reflexivity]]|].
  cbn zeta. split; [vm_compute; reflexivity|].
  split; [eexists; split; [vm_compute; reflexivity|split; reflexivity]|].
  split; vm_compute; reflexivity.
Qed.

(** ** The records of a report *)

Lemma imap_toReport_no (f : nat -> nat) (rows : list Row) :
  map Report.no (imap (fun i => toReport (f i)) rows)
  = map (fun i => Z.of_nat (f i) + 1) (seq 0 (length rows)).
Proof.
  revert f. induction rows as [|r rows IH]; intros f; [reflexivity|].
  cbn [imap map length seq]. f_equal.
  rewrite <- seq_shift, map_map. exact (IH (f ∘ S)).
Qed.

Lemma cellOr_truthy (r : Row) (i : nat) :
  Js.truthy (rawAt r i) = true -> cellOr r i <> "".
Proof.
  unfold cellOr, Js.or_else. intros Ht. rewrite Ht.
  destruct (rawAt r i) as [s|]; [|discriminate Ht]. cbn in *.
  intros ->. discriminate Ht.
Qed.

Lemma reportRows_clocked `{TimeLib} `{CalendarLib} (E : Env) (type : string)
    (params : ReportParams) (rows kept : list Row) :
  reportRows E type params rows = Ok kept ->
  In type reportTypes /\
  (exists keep, kept = List.filter keep rows /\
                forall r, keep r = true -> Js.truthy (rawAt r 3) = true).
Proof.
  unfold reportRows, reportTypes.
  destruct (String.eqb_spec type "daily") as [->|_].
  { intros [= <-]. split; [now left|]. eexists. split; [reflexivity|].
    intros r. unfold isDailyRow. now destruct (Js.truthy (rawAt r 3)). }
  destruct (String.eqb_spec type "monthly") as [->|_].
  { intros [= <-]. split; [right; now left|]. eexists. split; [reflexivity|].
    intros r. unfold isMonthlyRow. now destruct (Js.truthy (rawAt r 3)). }
  destruct (String.eqb_spec type "range") as [->|_]; [|discriminate].
  intros [= <-]. split; [right; right; now left|]. eexists. split; [reflexivity|].
  intros r. unfold isRangeRow. now destruct (Js.truthy (rawAt r 3)).
Qed.

Lemma reportRows_unsupported `{TimeLib} `{CalendarLib} (E : Env) (type : string)
    (params : ReportParams) (rows : list Row) (e : string) :
  reportRows E type params rows = Throw e ->
  ~ In type reportTypes /\ e = unsupportedType type.
Proof.
  unfold reportRows, reportTypes.
  destruct (String.eqb_spec type "daily") as [->|N1]; [discriminate|].
  destruct (String.eqb_spec type "monthly") as [->|N2]; [discriminate|].
  destruct (String.eqb_spec type "range") as [->|N3]; [discriminate|].
  intros [= <-]. split; [|reflexivity].
  intros [Hq|[Hq|[Hq|[]]]]; congruence.
Qed.

Lemma Forall_imap_toReport (f : nat -> nat) (rows : list Row) :
  Forall (fun r => Js.truthy (rawAt r 3) = true) rows ->
  Forall (fun rec => Report.clockIn rec <> "") (imap (fun i => toReport (f i)) rows).
Proof.
  revert f. induction rows as [|r rows IH]; intros f Hall; cbn [imap]; [constructor|].
  inversion Hall as [|? ? Hr Hrest]; subst. constructor.
  - now apply cellOr_truthy.
  - exact (IH (f ∘ S) Hrest).
Qed.

(** X20 (getReportData).  The report is built from the safe read of MAIN
    and changes no sheet.  An empty read gives the empty report whatever
    the type; otherwise a type other than daily, monthly and range
    throws [Unsupported report type], and a known type gives records
    numbered 1, 2, ... in row order, at most one per row, none of them
    with an empty clock-in. *)
Theorem getReportData_numbers_clocked_rows `{TimeLib} `{CalendarLib} (E : Env)
    (type : string) (params : ReportParams) (w : World) :
  exists w' rows,
    safeGetCachedSheetData E CONFIG.MAIN w = (w', Ok rows) /\
    remote w' = remote w /\
    (rows = [] -> getReportData E type params w = (w', Ok [])) /\
    (rows <> [] -> ~ In type reportTypes ->
     getReportData E type params w = (w', Throw ("Unsupported report type: " ++ type))) /\
    (rows <> [] -> In type reportTypes ->
     exists records,
       getReportData E type params w = (w', Ok records) /\
       map Report.no records = map Z.of_nat (seq 1 (length records)) /\
       (length records <= length rows)%nat /\
       Forall (fun rec => Report.clockIn rec <> "") records).
Proof.
  destruct (safeGetCachedSheetData_total E CONFIG.MAIN w) as (w' & rows & Hsafe).
  exists w', rows. split; [exact Hsafe|].
  split.
  { pose proof (keeps_safeGetCachedSheetData id E CONFIG.MAIN w) as Hk.
    now rewrite Hsafe in Hk. }
  assert (Hrun : getReportData E type params w =
                 if Nat.eqb (length rows) 0 then (w', Ok [])
                 else match reportRows E type params rows with
                      | Ok kept => (w', Ok (imap toReport kept))
                      | Throw e => (w', Throw e)
                      end).
  { unfold getReportData, try_catch. rewrite (bind_ok _ _ _ _ _ Hsafe).
    destruct (Nat.eqb (length rows) 0); [reflexivity|].
    unfold liftResult, mbind, M_bind, mret, M_ret, throw.
    destruct (reportRows E type params rows); reflexivity. }
  split; [intros ->; exact Hrun|].
  assert (Hne : rows <> [] -> Nat.eqb (length rows) 0 = false).
  { destruct rows; [congruence|reflexivity]. }
  split.
  - intros Hrows Htype. rewrite Hrun, (Hne Hrows).
    destruct (reportRows E type params rows) as [kept|e] eqn:Hkept.
    + destruct (reportRows_clocked _ _ _ _ _ Hkept) as [Hin _]. contradiction.
    + destruct (reportRows_unsupported _ _ _ _ _ Hkept) as [_ ->]. reflexivity.
  - intros Hrows Htype. rewrite Hrun, (Hne Hrows).
    destruct (reportRows E type params rows) as [kept|e] eqn:Hkept.
    + destruct (reportRows_clocked _ _ _ _ _ Hkept) as (_ & keep & -> & Hkeep).
      eexists. split; [reflexivity|]. rewrite length_imap.
      split; [|split].
      * rewrite (imap_toReport_no id), <- seq_shift, map_map. apply map_ext.
        intros i. cbn. lia.
      * apply filter_length_le.
      * apply (Forall_imap_toReport id). apply List.Forall_forall. intros r Hr.
        apply filter_In in Hr as [_ Hr]. exact (Hkeep r Hr).
    + destruct (reportRows_unsupported _ _ _ _ _ Hkept) as [Hnot _]. contradiction.
Qed.

(** ** Properties of the routes *)

#[local] Instance keepsRecentCalls_preorder (t : Z) : PreOrder (keepsRecentCalls t).
Proof.
  split.
  - intros w call Hin _. exact Hin.
  - intros w1 w2 w3 H12 H23 call Hin Ht. exact (H23 call (H12 call Hin Ht) Ht).
Qed.













